(** * BashiBudget: the state and persistence logic of [script.js]

    A shallow embedding of the budget ledger of [src/script.js]: the
    numeric coercion [toNumber], the handlers that add and delete
    transactions, the per-category sums, and [saveState] / [loadState]
    over the browser's [localStorage].

    - JavaScript numbers are IEEE 754 binary64 values; they are modelled
      by the [spec_float] type of the standard library at precision 53
      and maximal exponent 1024, so every numeric example below is
      evaluated with the rounding the engine performs.
    - The script is dynamically typed: the ledger that [loadState] builds
      holds whatever JSON the storage held, so the fields of [state] are
      values, and a method called on the wrong kind of value raises.
    - The handlers run in a state monad with exceptions over the
      variables of the script ([state], [DEFAULT], [hasUnsavedChanges],
      [reminderTimer]) and of the browser (the storage, the pending
      timeout, the alerts shown).
    - The browser is a parameter: any storage, any view layer, any clock
      and random source. *)

From Stdlib Require Import ZArith List String Ascii Bool Lia.
From Stdlib Require Import SpecFloat DecimalString.
Import ListNotations.

Local Open Scope string_scope.
Local Open Scope Z_scope.

Set Implicit Arguments.
Set Warnings "-register-all".

(** ** Numbers *)

Module Num.

Definition prec : Z := 53.
Definition emax : Z := 1024.

Definition number := spec_float.

Definition NaN : number := S754_nan.
Definition pzero : number := S754_zero false.
Definition nzero : number := S754_zero true.
Definition pinf : number := S754_infinity false.

Definition add : number -> number -> number := SFadd prec emax.
Definition sub : number -> number -> number := SFsub prec emax.
Definition mul : number -> number -> number := SFmul prec emax.
Definition div : number -> number -> number := SFdiv prec emax.
Definition leb : number -> number -> bool := SFleb.
Definition ltb : number -> number -> bool := SFltb.
Definition eqb : number -> number -> bool := SFeqb.

(** The number nearest to the integer [n] (exact below 2^53). *)
Definition of_Z (n : Z) : number := binary_normalize prec emax n 0 false.

(** The number nearest to [n / d], for [d] positive: the quotient is
    rounded once, to nearest even, as a decimal literal is. *)
Definition of_ratio (neg : bool) (n : N) (d : positive) : number :=
  match n with
  | N0 => S754_zero neg
  | Npos p => div (S754_finite neg p 0) (S754_finite false d 0)
  end.

(** The number nearest to [n * 10 ^ k]. *)
Definition of_decimal (neg : bool) (n : N) (k : Z) : number :=
  match n with
  | N0 => S754_zero neg
  | Npos p =>
      match k with
      | Zneg q => of_ratio neg n (Pos.pow 10 q)
      | _ => binary_normalize prec emax
               (cond_Zopp neg (Zpos p * 10 ^ k)) 0 false
      end
  end.

Definition isNaN (x : number) : bool :=
  match x with S754_nan => true | _ => false end.

Definition is_finite (x : number) : bool :=
  match x with S754_zero _ | S754_finite _ _ _ => true | _ => false end.

Definition is_neg_zero (x : number) : bool :=
  match x with S754_zero true => true | _ => false end.

(** The integer closest to [p / d], a tie going to the one closer to
    plus infinity: the floor of [p / d + 1 / 2]. *)
Definition nearest_tie_up (p : Z) (d : positive) : Z :=
  (2 * p + Zpos d) / (2 * Zpos d).

(** The spec's rounding: the integer closest to [p / d], a tie going
    away from zero. *)
Definition round_half_away_from_zero (p : Z) (d : positive) : Z :=
  Z.sgn p * ((2 * Z.abs p + Zpos d) / (2 * Zpos d)).

(** [Math.round]: the integral number closest to [x], a tie going to
    the one closer to plus infinity; an [x] that is integral is kept,
    [-0] included, and an [x] in [[-0.5, 0)] gives [-0]. *)
Definition Math_round (x : number) : number :=
  match x with
  | S754_finite s m e =>
      match e with
      | Zneg q =>
          let n := nearest_tie_up (cond_Zopp s (Zpos m)) (Pos.pow 2 q) in
          if n =? 0 then S754_zero s else of_Z n
      | _ => x
      end
  | _ => x
  end.

End Num.

Abbreviation number := Num.number.

(** ** Values

    The values the program handles: primitives, arrays and plain objects
    (the parsed stored document is arbitrary JSON).  An object keeps its
    properties in insertion order, which is the order [JSON.stringify]
    writes them in. *)

Inductive value : Type :=
| VUndefined
| VNull
| VBool (b : bool)
| VNum (x : number)
| VStr (s : string)
| VArr (items : list value)
| VObj (props : list (string * value)).

(** Truthiness, as [if (v)], [!v] and [v || d] test it. *)
Definition truthy (v : value) : bool :=
  match v with
  | VUndefined | VNull => false
  | VBool b => b
  | VNum x =>
      match x with
      | S754_zero _ | S754_nan => false
      | _ => true
      end
  | VStr s => negb (s =? "")%string
  | VArr _ | VObj _ => true
  end.

(** [typeof v === 'object'] *)
Definition typeof_object (v : value) : bool :=
  match v with
  | VNull | VArr _ | VObj _ => true
  | _ => false
  end.

(** [a || b] *)
Definition js_or (a b : value) : value := if truthy a then a else b.

(** A primitive value: not an array, not an object. *)
Definition primitive (v : value) : bool :=
  match v with
  | VArr _ | VObj _ => false
  | _ => true
  end.

(** [a === b].  Arrays and objects compare by identity; the embedding has
    no object identity and takes two such operands for distinct objects.
    That is what the code does as soon as one operand is [primitive];
    the properties of a comparison with an argument ask that of it. *)
Definition strict_eq (a b : value) : bool :=
  match a, b with
  | VUndefined, VUndefined => true
  | VNull, VNull => true
  | VBool x, VBool y => Bool.eqb x y
  | VNum x, VNum y => Num.eqb x y
  | VStr x, VStr y => (x =? y)%string
  | _, _ => false
  end.

(** Induction on values, through the arrays and objects. *)
Section ValueInduction.

Variable Q : value -> Prop.
Hypothesis Q_undefined : Q VUndefined.
Hypothesis Q_null : Q VNull.
Hypothesis Q_bool : forall b, Q (VBool b).
Hypothesis Q_num : forall x, Q (VNum x).
Hypothesis Q_str : forall s, Q (VStr s).
Hypothesis Q_arr : forall l, Forall Q l -> Q (VArr l).
Hypothesis Q_obj : forall ps, Forall (fun kx => Q (snd kx)) ps -> Q (VObj ps).

Fixpoint value_nested_ind (v : value) : Q v :=
  match v with
  | VUndefined => Q_undefined
  | VNull => Q_null
  | VBool b => Q_bool b
  | VNum x => Q_num x
  | VStr s => Q_str s
  | VArr l =>
      Q_arr
        ((fix go (l : list value) : Forall Q l :=
            match l with
            | [] => Forall_nil Q
            | x :: r => Forall_cons x (value_nested_ind x) (go r)
            end) l)
  | VObj ps =>
      Q_obj
        ((fix go (l : list (string * value))
            : Forall (fun kx => Q (snd kx)) l :=
            match l with
            | [] => Forall_nil _
            | kx :: r =>
                Forall_cons (P := fun kx => Q (snd kx)) kx
                  (value_nested_ind (snd kx)) (go r)
            end) ps)
  end.

End ValueInduction.

(** ** [Number(string)] *)

Module StringToNumber.

Definition code (c : ascii) : N := N_of_ascii c.

(** Leading white space and line terminators, in UTF-8: the ASCII ones,
    U+00A0, U+1680, U+2000 to U+200A, U+2028, U+2029, U+202F, U+205F,
    U+3000 and U+FEFF. *)
Definition ws1 (a : N) : bool :=
  ((9 <=? a) && (a <=? 13) || (a =? 32))%N.

Definition ws2 (a b : N) : bool := ((a =? 194) && (b =? 160))%N.

Definition ws3 (a b c : N) : bool :=
  (((a =? 225) && (b =? 154) && (c =? 128))
   || ((a =? 226) && (b =? 128)
       && (((128 <=? c) && (c <=? 138)) || (c =? 168) || (c =? 169)
           || (c =? 175)))
   || ((a =? 226) && (b =? 129) && (c =? 159))
   || ((a =? 227) && (b =? 128) && (c =? 128))
   || ((a =? 239) && (b =? 187) && (c =? 191)))%N.

(** [strip back l] drops the white space [l] starts with; with [back]
    the list is read backwards (it is a reversed string). *)
Fixpoint strip (back : bool) (l : list N) : list N :=
  match l with
  | a :: r1 =>
      if ws1 a then strip back r1
      else
        match r1 with
        | b :: r2 =>
            if (if back then ws2 b a else ws2 a b) then strip back r2
            else
              match r2 with
              | c :: r3 =>
                  if (if back then ws3 c b a else ws3 a b c)
                  then strip back r3 else l
              | [] => l
              end
        | [] => l
        end
  | [] => []
  end.

Definition trim_codes (l : list N) : list N :=
  rev (strip true (rev (strip false l))).

Definition codes (s : string) : list N :=
  map code (list_ascii_of_string s).

Definition digit (base : N) (a : N) : option N :=
  let d :=
    if ((48 <=? a) && (a <=? 57))%N then Some (a - 48)%N
    else if ((97 <=? a) && (a <=? 122))%N then Some (a - 87)%N
    else if ((65 <=? a) && (a <=? 90))%N then Some (a - 55)%N
    else None in
  match d with
  | Some n => if (n <? base)%N then Some n else None
  | None => None
  end.

(** The longest prefix of digits: its value on top of [acc], how many
    digits it has, and what follows. *)
Fixpoint take_digits (base : N) (l : list N) (acc : N) (cnt : nat)
  : N * nat * list N :=
  match l with
  | a :: r =>
      match digit base a with
      | Some d => take_digits base r (acc * base + d)%N (S cnt)
      | None => (acc, cnt, l)
      end
  | [] => (acc, cnt, [])
  end.

(** [0x], [0o] and [0b] literals: digits only, no sign. *)
Definition radix_literal (base : N) (l : list N) : number :=
  match take_digits base l 0%N 0%nat with
  | (n, S _, []) => Num.of_Z (Z.of_N n)
  | _ => Num.NaN
  end.

(** The exponent part: empty, or [e] or [E], an optional sign and at
    least one digit, up to the end of the literal. *)
Definition exponent (l : list N) : option Z :=
  match l with
  | [] => Some 0
  | a :: r =>
      if ((a =? 101) || (a =? 69))%N then
        let '(neg, r') :=
          match r with
          | s :: r' =>
              if (s =? 45)%N then (true, r')
              else if (s =? 43)%N then (false, r') else (false, r)
          | [] => (false, r)
          end in
        match take_digits 10 r' 0%N 0%nat with
        | (n, S _, []) => Some (cond_Zopp neg (Z.of_N n))
        | _ => None
        end
      else None
  end.

Definition infinity_codes : list N := codes "Infinity".

Definition unsigned_decimal (neg : bool) (l : list N) : number :=
  if list_eq_dec N.eq_dec l infinity_codes then S754_infinity neg
  else
    let '(ip, ic, r1) := take_digits 10 l 0%N 0%nat in
    match r1 with
    | 46%N :: r2 =>
        let '(fp, fc, r3) := take_digits 10 r2 ip 0%nat in
        match (ic + fc)%nat, exponent r3 with
        | S _, Some k => Num.of_decimal neg fp (k - Z.of_nat fc)
        | _, _ => Num.NaN
        end
    | _ =>
        match ic, exponent r1 with
        | S _, Some k => Num.of_decimal neg ip k
        | _, _ => Num.NaN
        end
    end.

Definition parse (s : string) : number :=
  match trim_codes (codes s) with
  | [] => Num.pzero
  | 48%N :: x :: r =>
      if ((x =? 120) || (x =? 88))%N then radix_literal 16 r
      else if ((x =? 111) || (x =? 79))%N then radix_literal 8 r
      else if ((x =? 98) || (x =? 66))%N then radix_literal 2 r
      else unsigned_decimal false (48%N :: x :: r)
  | 45%N :: r => unsigned_decimal true r
  | 43%N :: r => unsigned_decimal false r
  | l => unsigned_decimal false l
  end.

End StringToNumber.

(** [Number(v)].  An array is converted through its string form: the
    empty array gives the empty string, a one-element array the string
    of its element, and a longer one a string with a comma in it. *)
Fixpoint Number (v : value) : number :=
  match v with
  | VUndefined => Num.NaN
  | VNull => Num.pzero
  | VBool b => if b then Num.of_Z 1 else Num.pzero
  | VNum x => x
  | VStr s => StringToNumber.parse s
  | VArr [] => Num.pzero
  | VArr [x] =>
      match x with
      | VUndefined | VNull => Num.pzero
      | VNum y => if Num.is_neg_zero y then Num.pzero else y
      | VBool _ | VObj _ => Num.NaN
      | VStr _ | VArr _ => Number x
      end
  | VArr _ => Num.NaN
  | VObj _ => Num.NaN
  end.

(** Where [Number(v)] raises instead of returning [Number v]: it converts
    an object to a primitive with its [valueOf], then its [toString], and
    raises a [TypeError] when neither gives one.  The inherited [valueOf]
    returns the object itself and the inherited [toString] a string, so
    that is the case exactly when the object has an own property
    [toString], which in a [value] is never a function.  An array is
    joined, which converts each element that is not [null] or
    [undefined] to a string, in the same way. *)
Fixpoint Number_raises (v : value) : bool :=
  match v with
  | VObj ps => existsb (fun kx => (fst kx =? "toString")%string) ps
  | VArr l => existsb Number_raises l
  | _ => false
  end.

(** [toNumber] (script.js, lines 49-52): the number a call returns.  The
    handlers call it on the text of a field or on [undefined], where
    [Number] does not raise. *)
Definition toNumber (v : value) : number :=
  let num := Number v in
  if Num.isNaN num then Num.pzero
  else Num.div (Num.Math_round (Num.mul num (Num.of_Z 100))) (Num.of_Z 100).

(** ** Property access and [JSON] *)

Inductive exn : Type :=
| TypeError
| SyntaxError
| DOMException.

Inductive outcome (A : Type) : Type :=
| Returned (a : A)
| Threw (e : exn).

Arguments Returned {A} a.
Arguments Threw {A} e.

Fixpoint assoc (k : string) (ps : list (string * value)) : option value :=
  match ps with
  | [] => None
  | (k', v) :: r => if (k =? k')%string then Some v else assoc k r
  end.

(** [v.k] for one of the property names the program uses ([id],
    [category], [amount], the five ledger fields, ...): a property of
    the object itself, [undefined] when there is none, and a [TypeError]
    on [null] and [undefined]. *)
Definition get_prop (v : value) (k : string) : outcome value :=
  match v with
  | VUndefined | VNull => Threw TypeError
  | VObj ps =>
      match assoc k ps with
      | Some x => Returned x
      | None => Returned VUndefined
      end
  | _ => Returned VUndefined
  end.

(** What [JSON.stringify] writes for [v], as the document that text
    denotes: [None] where nothing is written ([undefined]); a number that
    is not finite becomes [null] and [-0] becomes [0]; an [undefined]
    array element becomes [null] and an [undefined] property is left
    out. *)
Fixpoint to_json (v : value) : option value :=
  match v with
  | VUndefined => None
  | VNull => Some VNull
  | VBool b => Some (VBool b)
  | VNum x =>
      Some (if Num.is_finite x
            then (if Num.is_neg_zero x then VNum Num.pzero else VNum x)
            else VNull)
  | VStr s => Some (VStr s)
  | VArr items =>
      Some (VArr
        ((fix elements (l : list value) : list value :=
            match l with
            | [] => []
            | x :: r =>
                match to_json x with
                | Some j => j :: elements r
                | None => VNull :: elements r
                end
            end) items))
  | VObj props =>
      Some (VObj
        ((fix members (l : list (string * value)) : list (string * value) :=
            match l with
            | [] => []
            | (k, x) :: r =>
                match to_json x with
                | Some j => (k, j) :: members r
                | None => members r
                end
            end) props))
  end.

(** A string held by the storage.  A JSON text is represented by the
    document it denotes ([JSON.stringify] writes one text per document:
    no white space, properties in order); [Malformed s] is a string [s]
    that is not a JSON text, the empty string among them. *)
Inductive text : Type :=
| JsonText (doc : value)
| Malformed (s : string).

Definition text_truthy (t : text) : bool :=
  match t with
  | JsonText _ => true
  | Malformed s => negb (s =? "")%string
  end.

(** [JSON.stringify(v)] for an array or an object [v] without cycles. *)
Definition JSON_stringify (v : value) : option text :=
  option_map JsonText (to_json v).

Definition JSON_parse (t : text) : outcome value :=
  match t with
  | JsonText doc => Returned doc
  | Malformed _ => Threw SyntaxError
  end.

(** Decidable equality of values and of stored strings. *)
Definition number_eq_dec (x y : number) : {x = y} + {x <> y}.
Proof.
  unfold number, Num.number in *.
  decide equality; auto using Bool.bool_dec, Pos.eq_dec, Z.eq_dec.
Defined.

Fixpoint value_eqb (a b : value) {struct a} : bool :=
  match a, b with
  | VUndefined, VUndefined => true
  | VNull, VNull => true
  | VBool x, VBool y => Bool.eqb x y
  | VNum x, VNum y => if number_eq_dec x y then true else false
  | VStr x, VStr y => (x =? y)%string
  | VArr l, VArr l' =>
      (fix all2 (l l' : list value) {struct l} : bool :=
         match l, l' with
         | [], [] => true
         | x :: r, y :: r' => value_eqb x y && all2 r r'
         | _, _ => false
         end) l l'
  | VObj ps, VObj ps' =>
      (fix all2 (l l' : list (string * value)) {struct l} : bool :=
         match l, l' with
         | [], [] => true
         | (k, x) :: r, (k', y) :: r' =>
             (k =? k')%string && value_eqb x y && all2 r r'
         | _, _ => false
         end) ps ps'
  | _, _ => false
  end.

Definition text_eqb (s t : text) : bool :=
  match s, t with
  | JsonText a, JsonText b => value_eqb a b
  | Malformed a, Malformed b => (a =? b)%string
  | _, _ => false
  end.

(** [String.prototype.trim] *)
Definition js_trim (s : string) : string :=
  string_of_list_ascii
    (map ascii_of_N (StringToNumber.trim_codes (StringToNumber.codes s))).

(** ** The ledger *)

Definition LS_KEY : string := "bashinsBudgetData_v1".

Record State : Type := mkState {
  expenseCategories : value;
  incomeCategories : value;
  budgets : value;
  expenses : value;
  incomes : value
}.

Definition DEFAULT_expenseCategories : value :=
  VArr (map VStr
    ["Hyra"; "Mat"; "Egenvård"; "Transport"; "Nöje"; "Abonnemang";
     "Kläder"; "Presenter"; "Resor"; "Hälsa & träning"; "Sparande";
     "Övrigt"]).

Definition DEFAULT_incomeCategories : value :=
  VArr (map VStr ["CSN"; "Jobb"; "Extra"]).

(** The object [state] as [JSON.stringify] enumerates it. *)
Definition state_object (st : State) : value :=
  VObj [("expenseCategories", expenseCategories st);
        ("incomeCategories", incomeCategories st);
        ("budgets", budgets st);
        ("expenses", expenses st);
        ("incomes", incomes st)].

(** The messages [showMessage] is called with. *)
Inductive message : Type :=
| MsgChooseCategory
| MsgChooseSource
| MsgInvalidAmount
| MsgExpenseAdded (amount : number) (category : value)
| MsgExpenseNotSaved
| MsgIncomeAdded (amount : number) (source : value)
| MsgIncomeNotSaved
| MsgExpenseDeleted
| MsgExpenseDeletedNotSaved
| MsgIncomeDeleted
| MsgIncomeDeletedNotSaved
| MsgSaveFailed
| MsgLoadFailed
| MsgReminderSaved
| MsgResetDone
| MsgResetFailed
| MsgAllSaved
| MsgSaveClickFailed.

Inductive message_type : Type := success | error | info.

(** What the program takes from the browser: the storage behind
    [localStorage] (each call may raise), the view layer ([renderAll]
    raises on some states and is otherwise invisible to the ledger), the
    clock and the random source. *)
Class Platform : Type := {
  storage : Type;
  Storage_setItem : string -> text -> storage -> outcome storage;
  Storage_getItem : string -> storage -> outcome (option text);
  Storage_removeItem : string -> storage -> outcome storage;
  render_fails : State -> bool;
  Date_now : nat -> Z;
  Date_toISOString : Z -> string;
  Math_random_base36 : nat -> string
}.

(** The form fields a handler reads; [None] is an element that is not in
    the page. *)
Record ExpenseForm : Type := {
  expenseCategory : option string;
  expenseDesc : option string;
  expenseAmount : option string
}.

Record IncomeForm : Type := {
  incomeSource : option string;
  incomeAmount : option string
}.

Section Program.

Context {P : Platform}.

(** The mutable variables of the script and of the browser.  [state] is
    initialised and reset with [{ ...DEFAULT }], a shallow copy: the
    [budgets], [expenses] and [incomes] of [state] are then the very
    objects of [DEFAULT], and stay so until [state]'s field is assigned
    a new object.  [shares_*] records that. *)
Record World : Type := mkWorld {
  state : State;
  DEFAULT_budgets : value;
  DEFAULT_expenses : value;
  DEFAULT_incomes : value;
  shares_budgets : bool;
  shares_expenses : bool;
  shares_incomes : bool;
  hasUnsavedChanges : bool;
  reminderTimer : option positive;
  pendingTimeout : option positive;
  lastTimerId : positive;
  localStorage : storage;
  clockReads : nat;
  randomDraws : nat;
  alerts : list (message * message_type)
}.

Definition DEFAULT (w : World) : State :=
  mkState DEFAULT_expenseCategories DEFAULT_incomeCategories
    (DEFAULT_budgets w) (DEFAULT_expenses w) (DEFAULT_incomes w).

(** The world when the script has been loaded. *)
Definition initial (ls : storage) : World :=
  {| state := mkState DEFAULT_expenseCategories DEFAULT_incomeCategories
                (VObj []) (VArr []) (VArr []);
     DEFAULT_budgets := VObj [];
     DEFAULT_expenses := VArr [];
     DEFAULT_incomes := VArr [];
     shares_budgets := true;
     shares_expenses := true;
     shares_incomes := true;
     hasUnsavedChanges := false;
     reminderTimer := None;
     pendingTimeout := None;
     lastTimerId := 1%positive;
     localStorage := ls;
     clockReads := 0%nat;
     randomDraws := 0%nat;
     alerts := [] |}.

(** *** Computations: a state monad over [World] with exceptions *)

Definition M (A : Type) : Type := World -> outcome A * World.

Definition ret {A} (a : A) : M A := fun w => (Returned a, w).

Definition throw {A} (e : exn) : M A := fun w => (Threw e, w).

Definition bind {A B} (c : M A) (k : A -> M B) : M B :=
  fun w =>
    match c w with
    | (Returned a, w') => k a w'
    | (Threw e, w') => (Threw e, w')
    end.

Definition try_catch {A} (body : M A) (handler : exn -> M A) : M A :=
  fun w =>
    match body w with
    | (Returned a, w') => (Returned a, w')
    | (Threw e, w') => handler e w'
    end.

Definition lift {A} (o : outcome A) : M A := fun w => (o, w).

Definition gets {A} (f : World -> A) : M A := fun w => (Returned (f w), w).

Definition modify (f : World -> World) : M unit :=
  fun w => (Returned tt, f w).

End Program.

Declare Scope prog_scope.
Delimit Scope prog_scope with prog.
Notation "x <- c ;; k" := (bind c (fun x => k))
  (at level 61, c at next level, right associativity) : prog_scope.
Notation "c ;; k" := (bind c (fun _ => k))
  (at level 61, right associativity) : prog_scope.

Section Handlers.

Context {P : Platform}.
Local Open Scope prog_scope.

(** *** Assignments to the variables *)

Definition set_hasUnsavedChanges (b : bool) (w : World) : World :=
  mkWorld (state w) (DEFAULT_budgets w) (DEFAULT_expenses w)
    (DEFAULT_incomes w) (shares_budgets w) (shares_expenses w)
    (shares_incomes w) b (reminderTimer w) (pendingTimeout w)
    (lastTimerId w) (localStorage w) (clockReads w) (randomDraws w)
    (alerts w).

Definition set_timer (var pending : option positive) (last : positive)
    (w : World) : World :=
  mkWorld (state w) (DEFAULT_budgets w) (DEFAULT_expenses w)
    (DEFAULT_incomes w) (shares_budgets w) (shares_expenses w)
    (shares_incomes w) (hasUnsavedChanges w) var pending last
    (localStorage w) (clockReads w) (randomDraws w) (alerts w).

Definition set_localStorage (ls : storage) (w : World) : World :=
  mkWorld (state w) (DEFAULT_budgets w) (DEFAULT_expenses w)
    (DEFAULT_incomes w) (shares_budgets w) (shares_expenses w)
    (shares_incomes w) (hasUnsavedChanges w) (reminderTimer w)
    (pendingTimeout w) (lastTimerId w) ls (clockReads w) (randomDraws w)
    (alerts w).

Definition set_counters (reads draws : nat) (w : World) : World :=
  mkWorld (state w) (DEFAULT_budgets w) (DEFAULT_expenses w)
    (DEFAULT_incomes w) (shares_budgets w) (shares_expenses w)
    (shares_incomes w) (hasUnsavedChanges w) (reminderTimer w)
    (pendingTimeout w) (lastTimerId w) (localStorage w) reads draws
    (alerts w).

Definition add_alert (m : message) (t : message_type) (w : World) : World :=
  mkWorld (state w) (DEFAULT_budgets w) (DEFAULT_expenses w)
    (DEFAULT_incomes w) (shares_budgets w) (shares_expenses w)
    (shares_incomes w) (hasUnsavedChanges w) (reminderTimer w)
    (pendingTimeout w) (lastTimerId w) (localStorage w) (clockReads w)
    (randomDraws w) (alerts w ++ [(m, t)]).

(** [state = st], where the three mutable fields of [st] are the objects
    of [DEFAULT] ([sb], [se], [si]) or new ones. *)
Definition set_state (st : State) (sb se si : bool) (w : World) : World :=
  mkWorld st (DEFAULT_budgets w) (DEFAULT_expenses w) (DEFAULT_incomes w)
    sb se si (hasUnsavedChanges w) (reminderTimer w) (pendingTimeout w)
    (lastTimerId w) (localStorage w) (clockReads w) (randomDraws w)
    (alerts w).

(** A write into the array [state.expenses] (not an assignment to the
    field): the array of [DEFAULT] changes with it while it is the same
    object. *)
Definition write_expenses (v : value) (w : World) : World :=
  let st := state w in
  mkWorld
    (mkState (expenseCategories st) (incomeCategories st) (budgets st) v
       (incomes st))
    (DEFAULT_budgets w)
    (if shares_expenses w then v else DEFAULT_expenses w)
    (DEFAULT_incomes w) (shares_budgets w) (shares_expenses w)
    (shares_incomes w) (hasUnsavedChanges w) (reminderTimer w)
    (pendingTimeout w) (lastTimerId w) (localStorage w) (clockReads w)
    (randomDraws w) (alerts w).

Definition write_incomes (v : value) (w : World) : World :=
  let st := state w in
  mkWorld
    (mkState (expenseCategories st) (incomeCategories st) (budgets st)
       (expenses st) v)
    (DEFAULT_budgets w) (DEFAULT_expenses w)
    (if shares_incomes w then v else DEFAULT_incomes w)
    (shares_budgets w) (shares_expenses w) (shares_incomes w)
    (hasUnsavedChanges w) (reminderTimer w) (pendingTimeout w)
    (lastTimerId w) (localStorage w) (clockReads w) (randomDraws w)
    (alerts w).

Definition write_budgets (v : value) (w : World) : World :=
  let st := state w in
  mkWorld
    (mkState (expenseCategories st) (incomeCategories st) v (expenses st)
       (incomes st))
    (if shares_budgets w then v else DEFAULT_budgets w)
    (DEFAULT_expenses w) (DEFAULT_incomes w) (shares_budgets w)
    (shares_expenses w) (shares_incomes w) (hasUnsavedChanges w)
    (reminderTimer w) (pendingTimeout w) (lastTimerId w) (localStorage w)
    (clockReads w) (randomDraws w) (alerts w).

(** [state.expenses = v] and [state.incomes = v]: the field now holds a
    new array. *)
Definition assign_expenses (v : value) (w : World) : World :=
  let st := state w in
  set_state
    (mkState (expenseCategories st) (incomeCategories st) (budgets st) v
       (incomes st))
    (shares_budgets w) false (shares_incomes w) w.

Definition assign_incomes (v : value) (w : World) : World :=
  let st := state w in
  set_state
    (mkState (expenseCategories st) (incomeCategories st) (budgets st)
       (expenses st) v)
    (shares_budgets w) (shares_expenses w) false w.

(** *** Helpers (script.js, lines 58-128) *)

Definition Z_toString (z : Z) : string :=
  DecimalString.NilZero.string_of_int (Z.to_int z).

Definition read_clock : M Z :=
  n <- gets clockReads ;;
  r <- gets randomDraws ;;
  modify (set_counters (S n) r) ;;
  ret (Date_now n).

Definition draw_random : M string :=
  n <- gets clockReads ;;
  r <- gets randomDraws ;;
  modify (set_counters n (S r)) ;;
  ret (Math_random_base36 r).

(** [generateId]: [Date.now().toString()] followed by nine characters
    of [Math.random()] in base 36. *)
Definition generateId : M string :=
  t <- read_clock ;;
  r <- draw_random ;;
  ret (Z_toString t ++ r)%string.

(** [new Date().toISOString()] *)
Definition new_Date_toISOString : M string :=
  t <- read_clock ;;
  ret (Date_toISOString t).

Definition showMessage (m : message) (t : message_type) : M unit :=
  modify (add_alert m t).

(** [clearReminderTimer]: a timer identifier is a positive integer, so
    [if (reminderTimer)] tests that the variable is not [null];
    [clearTimeout] cancels the pending timeout of that identifier. *)
Definition clearReminderTimer : M unit :=
  modify (fun w =>
    match reminderTimer w with
    | Some t =>
        set_timer None
          (match pendingTimeout w with
           | Some p => if Pos.eqb p t then None else Some p
           | None => None
           end)
          (lastTimerId w) w
    | None => w
    end).

Definition startReminderTimer : M unit :=
  clearReminderTimer ;;
  modify (fun w =>
    let t := Pos.succ (lastTimerId w) in
    set_timer (Some t) (Some t) t w).

Definition markUnsavedChanges : M unit :=
  modify (set_hasUnsavedChanges true) ;;
  startReminderTimer.

Definition markSavedChanges : M unit :=
  modify (set_hasUnsavedChanges false) ;;
  clearReminderTimer.

(** *** [localStorage] *)

Definition localStorage_setItem (k : string) (t : text) : M unit :=
  fun w =>
    match Storage_setItem k t (localStorage w) with
    | Returned ls => (Returned tt, set_localStorage ls w)
    | Threw e => (Threw e, w)
    end.

Definition localStorage_getItem (k : string) : M (option text) :=
  fun w => (Storage_getItem k (localStorage w), w).

Definition localStorage_removeItem (k : string) : M unit :=
  fun w =>
    match Storage_removeItem k (localStorage w) with
    | Returned ls => (Returned tt, set_localStorage ls w)
    | Threw e => (Threw e, w)
    end.

(** [saveState] (lines 135-166).  [state] is always an object, so the
    first test never fires; [JSON.stringify] gives no string only for a
    value that is not written at all. *)
Definition saveState : M bool :=
  try_catch
    (st <- gets state ;;
     match JSON_stringify (state_object st) with
     | None => ret false
     | Some stateString =>
         if negb (text_truthy stateString)
            || text_eqb stateString (JsonText (VObj []))
         then ret false
         else
           localStorage_setItem LS_KEY stateString ;;
           verification <- localStorage_getItem LS_KEY ;;
           match verification with
           | Some v =>
               if text_eqb v stateString
               then markSavedChanges ;; ret true
               else ret false
           | None => ret false
           end
     end)
    (fun _ => showMessage MsgSaveFailed error ;; ret false).

(** [loadState] (lines 171-197). *)
Definition loadState : M bool :=
  found <-
    try_catch
      (saved <- localStorage_getItem LS_KEY ;;
       match saved with
       | Some t =>
           if text_truthy t then
             parsed <- lift (JSON_parse t) ;;
             if truthy parsed && typeof_object parsed then
               ec <- lift (get_prop parsed "expenseCategories") ;;
               ic <- lift (get_prop parsed "incomeCategories") ;;
               b <- lift (get_prop parsed "budgets") ;;
               e <- lift (get_prop parsed "expenses") ;;
               i <- lift (get_prop parsed "incomes") ;;
               modify (set_state
                 (mkState (js_or ec DEFAULT_expenseCategories)
                    (js_or ic DEFAULT_incomeCategories)
                    (js_or b (VObj [])) (js_or e (VArr []))
                    (js_or i (VArr [])))
                 false false false) ;;
               ret true
             else ret false
           else ret false
       | None => ret false
       end)
      (fun _ => showMessage MsgLoadFailed error ;; ret false) ;;
  if (found : bool) then ret true
  else
    modify (fun w => set_state (DEFAULT w) true true true w) ;;
    ret false.

(** [renderAll]: the view layer; it reads [state] and writes the page. *)
Definition renderAll : M unit :=
  st <- gets state ;;
  if render_fails st then throw TypeError else ret tt.

(** [resetState] (lines 202-214); [confirmed] is the user's answer to
    the [confirm] dialog. *)
Definition resetState (confirmed : bool) : M unit :=
  if confirmed then
    try_catch
      (localStorage_removeItem LS_KEY ;;
       modify (fun w => set_state (DEFAULT w) true true true w) ;;
       showMessage MsgResetDone success ;;
       renderAll)
      (fun _ => showMessage MsgResetFailed error)
  else ret tt.

End Handlers.

(** ** Array methods and the sums of the view *)

Definition and_then {A B} (o : outcome A) (k : A -> outcome B) : outcome B :=
  match o with
  | Returned a => k a
  | Threw e => Threw e
  end.

Declare Scope out_scope.
Delimit Scope out_scope with out.
Notation "x <- c ;; k" := (and_then c (fun x => k))
  (at level 61, c at next level, right associativity) : out_scope.

(** [l.filter(p)] and [l.reduce(f, init)] for callbacks that may raise. *)
Fixpoint js_filter (p : value -> outcome bool) (l : list value)
  : outcome (list value) :=
  match l with
  | [] => Returned []
  | x :: r =>
      (keep <- p x ;;
       r' <- js_filter p r ;;
       Returned (if (keep : bool) then x :: r' else r'))%out
  end.

Fixpoint js_reduce {A} (f : A -> value -> outcome A) (l : list value)
    (acc : A) : outcome A :=
  match l with
  | [] => Returned acc
  | x :: r => (acc' <- f acc x ;; js_reduce f r acc')%out
  end.

(** A method of arrays called on [v]: anything but an array has no such
    method, and the call raises. *)
Definition as_array (v : value) : outcome (list value) :=
  match v with
  | VArr l => Returned l
  | _ => Threw TypeError
  end.

(** The call [toNumber(v)] on any value: [Number] raises, or the call
    returns [toNumber v]. *)
Definition toNumber_call (v : value) : outcome number :=
  if Number_raises v then Threw TypeError else Returned (toNumber v).

(** [sum + toNumber(x.amount)] *)
Definition add_amount (sum : number) (x : value) : outcome number :=
  (a <- get_prop x "amount" ;;
   n <- toNumber_call a ;;
   Returned (Num.add sum n))%out.

(** [spent] of [renderBudgetTable] (lines 281-283): the expenses of
    [category], then the sum of their amounts from 0. *)
Definition spentByCategory (exps : value) (category : value)
  : outcome number :=
  (l <- as_array exps ;;
   matching <-
     js_filter
       (fun exp => (c <- get_prop exp "category" ;;
                    Returned (strict_eq c category))%out) l ;;
   js_reduce add_amount matching Num.pzero)%out.

(** [calculateTotalIncome] and [calculateTotalExpenses] (lines 421-430). *)
Definition calculateTotal (transactions : value) : outcome number :=
  (l <- as_array transactions ;; js_reduce add_amount l Num.pzero)%out.

(** [remaining] of [renderBudgetTable] (lines 290-291): the budget,
    [toNumber(state.budgets[category] || 0)], less what was spent. *)
Definition remainingByCategory (st : State) (category : string)
  : outcome number :=
  (spent <- spentByCategory (expenses st) (VStr category) ;;
   b <- get_prop (budgets st) category ;;
   budget <- toNumber_call (js_or b (VNum Num.pzero)) ;;
   Returned (Num.sub budget spent))%out.

(** ** Writing a property *)

(** An array index: a decimal numeral without a leading zero, below
    2^32 - 1.  An object enumerates such keys first, in increasing
    order. *)
Definition array_index (k : string) : option N :=
  match StringToNumber.codes k with
  | [] => None
  | [48%N] => Some 0%N
  | 48%N :: _ => None
  | l =>
      match StringToNumber.take_digits 10 l 0%N 0%nat with
      | (n, _, []) => if (n <? 4294967295)%N then Some n else None
      | _ => None
      end
  end.

Fixpoint replace_prop (k : string) (v : value) (ps : list (string * value))
  : list (string * value) :=
  match ps with
  | [] => []
  | (k', x) :: r =>
      if (k =? k')%string then (k, v) :: r else (k', x) :: replace_prop k v r
  end.

Fixpoint insert_index (n : N) (k : string) (v : value)
    (ps : list (string * value)) : list (string * value) :=
  match ps with
  | [] => [(k, v)]
  | (k', x) :: r =>
      match array_index k' with
      | Some n' =>
          if (n' <? n)%N then (k', x) :: insert_index n k v r
          else (k, v) :: ps
      | None => (k, v) :: ps
      end
  end.

Definition set_own (k : string) (v : value) (ps : list (string * value))
  : list (string * value) :=
  match assoc k ps with
  | Some _ => replace_prop k v ps
  | None =>
      match array_index k with
      | Some n => insert_index n k v ps
      | None => ps ++ [(k, v)]
      end
  end.

Fixpoint set_nth (n : nat) (v : value) (l : list value) : list value :=
  match n, l with
  | O, [] => [v]
  | O, _ :: r => v :: r
  | S n', [] => VUndefined :: set_nth n' v []
  | S n', x :: r => x :: set_nth n' v r
  end.

(** [o[k] = v] in non-strict code: a new or updated property of an
    object; an element of an array when [k] is an index (a property of
    another name on an array is seen by no other code of the ledger and
    is not represented); nothing on a primitive; a [TypeError] on [null]
    and [undefined]. *)
Definition set_prop (o : value) (k : string) (v : value) : outcome value :=
  match o with
  | VUndefined | VNull => Threw TypeError
  | VObj ps => Returned (VObj (set_own k v ps))
  | VArr l =>
      match array_index k with
      | Some n => Returned (VArr (set_nth (N.to_nat n) v l))
      | None => Returned o
      end
  | _ => Returned o
  end.

Section EventHandlers.

Context {P : Platform}.
Local Open Scope prog_scope.

Definition field_value (f : option string) : value :=
  match f with
  | Some s => VStr s
  | None => VUndefined
  end.

(** [document.getElementById(...).value = ''] *)
Definition clear_field (f : option string) : M unit :=
  match f with
  | Some _ => ret tt
  | None => throw TypeError
  end.

(** [updateTotals] (lines 435-475): both totals are computed, then
    written to the page. *)
Definition updateTotals : M unit :=
  st <- gets state ;;
  lift (calculateTotal (incomes st)) ;;
  lift (calculateTotal (expenses st)) ;;
  ret tt.

(** [onAddExpense] (lines 510-550). *)
Definition onAddExpense (form : ExpenseForm) : M unit :=
  let category := field_value (expenseCategory form) in
  let desc := field_value (option_map js_trim (expenseDesc form)) in
  let amount := field_value (expenseAmount form) in
  if negb (truthy category) then showMessage MsgChooseCategory error
  else
    let numAmount := toNumber amount in
    if Num.leb numAmount Num.pzero then showMessage MsgInvalidAmount error
    else
      id <- generateId ;;
      date <- new_Date_toISOString ;;
      let expense :=
        VObj [("id", VStr id);
              ("category", category);
              ("amount", VNum numAmount);
              ("desc", js_or desc (VStr "Ingen beskrivning"));
              ("date", VStr date)] in
      st <- gets state ;;
      l <- lift (as_array (expenses st)) ;;
      modify (write_expenses (VArr (l ++ [expense]))) ;;
      clear_field (expenseDesc form) ;;
      clear_field (expenseAmount form) ;;
      renderAll ;;
      saved <- saveState ;;
      if (saved : bool) then
        markUnsavedChanges ;;
        showMessage (MsgExpenseAdded numAmount category) success
      else showMessage MsgExpenseNotSaved error.

(** [onAddIncome] (lines 555-592). *)
Definition onAddIncome (form : IncomeForm) : M unit :=
  let source := field_value (incomeSource form) in
  let amount := field_value (incomeAmount form) in
  if negb (truthy source) then showMessage MsgChooseSource error
  else
    let numAmount := toNumber amount in
    if Num.leb numAmount Num.pzero then showMessage MsgInvalidAmount error
    else
      id <- generateId ;;
      date <- new_Date_toISOString ;;
      let income :=
        VObj [("id", VStr id);
              ("source", source);
              ("amount", VNum numAmount);
              ("date", VStr date)] in
      st <- gets state ;;
      l <- lift (as_array (incomes st)) ;;
      modify (write_incomes (VArr (l ++ [income]))) ;;
      clear_field (incomeAmount form) ;;
      renderAll ;;
      saved <- saveState ;;
      if (saved : bool) then
        markUnsavedChanges ;;
        showMessage (MsgIncomeAdded numAmount source) success
      else showMessage MsgIncomeNotSaved error.

(** [x => x.id !== id] *)
Definition id_differs (id : value) (x : value) : outcome bool :=
  (i <- get_prop x "id" ;; Returned (negb (strict_eq i id)))%out.

(** [deleteExpense] (lines 598-612); [confirmed] is the user's answer
    to the [confirm] dialog. *)
Definition deleteExpense (expenseId : value) (confirmed : bool) : M unit :=
  if confirmed then
    st <- gets state ;;
    l <- lift (as_array (expenses st)) ;;
    kept <- lift (js_filter (id_differs expenseId) l) ;;
    modify (assign_expenses (VArr kept)) ;;
    renderAll ;;
    saved <- saveState ;;
    if (saved : bool) then
      markUnsavedChanges ;;
      showMessage MsgExpenseDeleted success
    else showMessage MsgExpenseDeletedNotSaved error
  else ret tt.

(** [deleteIncome] (lines 617-631). *)
Definition deleteIncome (incomeId : value) (confirmed : bool) : M unit :=
  if confirmed then
    st <- gets state ;;
    l <- lift (as_array (incomes st)) ;;
    kept <- lift (js_filter (id_differs incomeId) l) ;;
    modify (assign_incomes (VArr kept)) ;;
    renderAll ;;
    saved <- saveState ;;
    if (saved : bool) then
      markUnsavedChanges ;;
      showMessage MsgIncomeDeleted success
    else showMessage MsgIncomeDeletedNotSaved error
  else ret tt.

(** The [input] listener of a budget field (lines 270-275); [raw] is
    the text of the field. *)
Definition onBudgetInput (category : string) (raw : string) : M unit :=
  let value := toNumber (VStr raw) in
  st <- gets state ;;
  b <- lift (set_prop (budgets st) category (VNum value)) ;;
  modify (write_budgets b) ;;
  updateTotals ;;
  saveState ;;
  ret tt.

(** [showReminder] (lines 116-128); [shouldSave] is the user's answer. *)
Definition showReminder (shouldSave : bool) : M unit :=
  if shouldSave then
    saveState ;;
    markSavedChanges ;;
    showMessage MsgReminderSaved success
  else startReminderTimer.

(** The callback given to [setTimeout] (lines 96-100), run when the
    pending timeout expires. *)
Definition onReminderTimeout (answer : bool) : M unit :=
  pending <- gets pendingTimeout ;;
  match pending with
  | Some _ =>
      modify (fun w => set_timer (reminderTimer w) None (lastTimerId w) w) ;;
      unsaved <- gets hasUnsavedChanges ;;
      if (unsaved : bool) then showReminder answer else ret tt
  | None => ret tt
  end.

(** [onSaveClick] (lines 672-679). *)
Definition onSaveClick : M unit :=
  saved <- saveState ;;
  if (saved : bool) then showMessage MsgAllSaved success
  else showMessage MsgSaveClickFailed error.

End EventHandlers.

(** ** A browser to run the program in

    A storage that keeps its items in a list and refuses a string longer
    than its quota; the size of a JSON text is taken to be the number of
    values in its document. *)

Module Browser.

Fixpoint weight (v : value) : nat :=
  match v with
  | VArr l => S (fold_right (fun x n => (weight x + n)%nat) 0%nat l)
  | VObj ps => S (fold_right (fun kx n => (weight (snd kx) + n)%nat) 0%nat ps)
  | _ => 1%nat
  end.

Definition size (t : text) : nat :=
  match t with
  | JsonText doc => weight doc
  | Malformed s => String.length s
  end.

Record store : Type := {
  items : list (string * text);
  quota : nat
}.

Fixpoint lookup (k : string) (l : list (string * text)) : option text :=
  match l with
  | [] => None
  | (k', t) :: r => if (k =? k')%string then Some t else lookup k r
  end.

Definition remove (k : string) (l : list (string * text))
  : list (string * text) :=
  filter (fun kt => negb (k =? fst kt)%string) l.

Definition setItem (k : string) (t : text) (s : store) : outcome store :=
  if (size t <=? quota s)%nat
  then Returned {| items := (k, t) :: remove k (items s); quota := quota s |}
  else Threw DOMException.

Definition getItem (k : string) (s : store) : outcome (option text) :=
  Returned (lookup k (items s)).

Definition removeItem (k : string) (s : store) : outcome store :=
  Returned {| items := remove k (items s); quota := quota s |}.

Definition platform : Platform :=
  {| storage := store;
     Storage_setItem := setItem;
     Storage_getItem := getItem;
     Storage_removeItem := removeItem;
     render_fails := fun _ => false;
     Date_now := fun n => Z.of_nat n + 1700000000000;
     Date_toISOString := fun t => ("T" ++ Z_toString t)%string;
     Math_random_base36 := fun n => ("r" ++ Z_toString (Z.of_nat n))%string |}.

Definition empty (q : nat) : store := {| items := []; quota := q |}.

(** The world of a page just loaded, with an empty storage of quota
    [q]. *)
Definition fresh (q : nat) : World (P := platform) :=
  initial (P := platform) (empty q).

End Browser.

(** ** Ledgers that a JSON text can hold *)

(** A value that [JSON.stringify] writes as it is: no [undefined] in it
    and every number finite. *)
Fixpoint json_value (v : value) : bool :=
  match v with
  | VUndefined => false
  | VNull | VBool _ | VStr _ => true
  | VNum x => Num.is_finite x
  | VArr items =>
      (fix all (l : list value) : bool :=
         match l with
         | [] => true
         | x :: r => json_value x && all r
         end) items
  | VObj props =>
      (fix all (l : list (string * value)) : bool :=
         match l with
         | [] => true
         | (_, x) :: r => json_value x && all r
         end) props
  end.

(** Structural equality: the same shape and property names, and leaves
    that are [===] (so [-0] and [0] are equal). *)
Fixpoint deep_equal (a b : value) {struct a} : bool :=
  match a, b with
  | VArr l, VArr l' =>
      (fix all2 (l l' : list value) {struct l} : bool :=
         match l, l' with
         | [], [] => true
         | x :: r, y :: r' => deep_equal x y && all2 r r'
         | _, _ => false
         end) l l'
  | VObj ps, VObj ps' =>
      (fix all2 (l l' : list (string * value)) {struct l} : bool :=
         match l, l' with
         | [], [] => true
         | (k, x) :: r, (k', y) :: r' =>
             (k =? k')%string && deep_equal x y && all2 r r'
         | _, _ => false
         end) ps ps'
  | _, _ => strict_eq a b
  end.

Definition ledger_equal (s t : State) : bool :=
  deep_equal (expenseCategories s) (expenseCategories t)
  && deep_equal (incomeCategories s) (incomeCategories t)
  && deep_equal (budgets s) (budgets t)
  && deep_equal (expenses s) (expenses t)
  && deep_equal (incomes s) (incomes t).

(** A field of a ledger: an array or an object, of values JSON holds. *)
Definition json_field (v : value) : bool :=
  match v with
  | VArr _ | VObj _ => json_value v
  | _ => false
  end.

Definition json_ledger (st : State) : bool :=
  json_field (expenseCategories st)
  && json_field (incomeCategories st)
  && json_field (budgets st)
  && json_field (expenses st)
  && json_field (incomes st).

(** The ledger the operations keep: the categories, [expenses] and
    [incomes] are arrays and [budgets] is an object, all of values JSON
    holds. *)
Definition json_array (v : value) : bool :=
  match v with
  | VArr _ => json_value v
  | _ => false
  end.

Definition json_object (v : value) : bool :=
  match v with
  | VObj _ => json_value v
  | _ => false
  end.

Definition well_formed (st : State) : bool :=
  json_array (expenseCategories st)
  && json_array (incomeCategories st)
  && json_object (budgets st)
  && json_array (expenses st)
  && json_array (incomes st).

(** ** What [loadState] does with a field of the stored object *)

(** The field [k] of the loaded ledger is the stored one when the stored
    object has a truthy [k], and the default when it has no [k]. *)
Definition taken_or_default (ps : list (string * value)) (k : string)
    (default loaded : value) : Prop :=
  (forall v, assoc k ps = Some v -> truthy v = true -> loaded = v)
  /\ (assoc k ps = None -> loaded = default).

(** The field [k] of the loaded ledger is the default when the stored
    object has a falsy [k]. *)
Definition falsy_defaulted (ps : list (string * value)) (k : string)
    (default loaded : value) : Prop :=
  forall v, assoc k ps = Some v -> truthy v = false -> loaded = default.

(** ** Ledgers built by the operations *)

Inductive operation : Type :=
| AddExpense (form : ExpenseForm)
| AddIncome (form : IncomeForm)
| DeleteExpense (id : value) (confirmed : bool)
| DeleteIncome (id : value) (confirmed : bool)
| SetBudget (category : string) (raw : string)
| Save
| Reset (confirmed : bool).

(** The amount an operation stores, if it stores one. *)
Definition stored_amount (op : operation) : option number :=
  match op with
  | AddExpense form => Some (toNumber (field_value (expenseAmount form)))
  | AddIncome form => Some (toNumber (field_value (incomeAmount form)))
  | SetBudget _ raw => Some (toNumber (VStr raw))
  | _ => None
  end.

Definition finite_amount (op : operation) : bool :=
  match stored_amount op with
  | Some x => Num.is_finite x
  | None => true
  end.

(** The operations that add or delete a transaction. *)
Definition adds_or_deletes (op : operation) : bool :=
  match op with
  | AddExpense _ | AddIncome _ | DeleteExpense _ _ | DeleteIncome _ _ => true
  | _ => false
  end.

Section Built.

Context {P : Platform}.
Local Open Scope prog_scope.

Definition run (op : operation) : M unit :=
  match op with
  | AddExpense form => onAddExpense form
  | AddIncome form => onAddIncome form
  | DeleteExpense id confirmed => deleteExpense id confirmed
  | DeleteIncome id confirmed => deleteIncome id confirmed
  | SetBudget category raw => onBudgetInput category raw
  | Save => onSaveClick
  | Reset confirmed => resetState confirmed
  end.

(** The worlds reached from a page just loaded by operations; with
    [finite] set, only by operations that store a finite amount. *)
Inductive built (finite : bool) (ls : storage) : World -> Prop :=
| built_initial : built finite ls (initial ls)
| built_step (w : World) (op : operation) :
    built finite ls w ->
    (finite = true -> finite_amount op = true) ->
    built finite ls (snd (run op w)).

End Built.

(** ** What an operation leaves as it is *)

Section Frames.

Context {P : Platform}.

(** The ledger of [w'] is that of [w]: [state], the objects of [DEFAULT]
    and what they share. *)
Definition same_ledger (w w' : World) : Prop :=
  state w' = state w
  /\ DEFAULT w' = DEFAULT w
  /\ shares_budgets w' = shares_budgets w
  /\ shares_expenses w' = shares_expenses w
  /\ shares_incomes w' = shares_incomes w.

(** The persistence status of [w'] is that of [w]. *)
Definition same_status (w w' : World) : Prop :=
  hasUnsavedChanges w' = hasUnsavedChanges w
  /\ reminderTimer w' = reminderTimer w
  /\ pendingTimeout w' = pendingTimeout w
  /\ lastTimerId w' = lastTimerId w.

(** The only timeout that can be pending is the one whose identifier is
    in [reminderTimer]. *)
Definition timer_ok (w : World) : Prop :=
  match pendingTimeout w with
  | Some p => reminderTimer w = Some p
  | None => True
  end.

(** The ledger of [w] and the objects of [DEFAULT] have the shape the
    operations keep. *)
Definition ledger_ok (w : World) : Prop :=
  well_formed (state w) = true /\ well_formed (DEFAULT w) = true.

(** Saved: nothing is marked unsaved and no reminder is armed. *)
Definition Saved (w : World) : Prop :=
  hasUnsavedChanges w = false
  /\ reminderTimer w = None
  /\ pendingTimeout w = None.

(** Dirty: a change is marked unsaved and the reminder is armed. *)
Definition Dirty (w : World) : Prop :=
  hasUnsavedChanges w = true
  /\ exists t, reminderTimer w = Some t /\ pendingTimeout w = Some t.

End Frames.

(** ** Sessions in the browser *)

Module Examples.

Definition lunch : ExpenseForm :=
  {| expenseCategory := Some "Mat";
     expenseDesc := Some " lunch ";
     expenseAmount := Some "0.1" |}.

Definition coffee : ExpenseForm :=
  {| expenseCategory := Some "Mat";
     expenseDesc := Some "";
     expenseAmount := Some "0.2" |}.

Definition huge : ExpenseForm :=
  {| expenseCategory := Some "Resor";
     expenseDesc := Some "";
     expenseAmount := Some "1e307" |}.

Definition nothing : ExpenseForm :=
  {| expenseCategory := Some "Mat";
     expenseDesc := Some "";
     expenseAmount := Some "0" |}.

Definition salary : IncomeForm :=
  {| incomeSource := Some "Jobb"; incomeAmount := Some "3000" |}.

Definition step (op : operation) (w : World (P := Browser.platform))
  : World (P := Browser.platform) :=
  snd (run (P := Browser.platform) op w).

(** A page just loaded, and the page after one, two expenses. *)
Definition page : World (P := Browser.platform) := Browser.fresh 100.

Definition after_lunch := step (AddExpense lunch) page.

Definition after_coffee := step (AddExpense coffee) after_lunch.

(** The page after an expense of 1e307, which [toNumber] takes to
    [Infinity]: 1e307 times 100 is above the largest number. *)
Definition after_huge := step (AddExpense huge) page.

(** A page whose storage holds the text of an object [ps]. *)
Definition page_with (ps : list (string * value))
  : World (P := Browser.platform) :=
  initial (P := Browser.platform)
    {| Browser.items := [(LS_KEY, JsonText (VObj ps))];
       Browser.quota := 100 |}.

Definition rent : value :=
  VObj [("id", VStr "1"); ("category", VStr "Hyra");
        ("amount", VNum (Num.of_Z 500)); ("desc", VStr "rent");
        ("date", VStr "2024-01-01T00:00:00.000Z")].

End Examples.

(** ** Records, events and what the page can reach *)

(** [x.id === id], where [x.id] can be read. *)
Definition has_id (id : value) (x : value) : bool :=
  match get_prop x "id" with
  | Returned i => strict_eq i id
  | Threw _ => false
  end.

(** [x.category === c], where [x.category] can be read. *)
Definition has_category (c : value) (x : value) : bool :=
  match get_prop x "category" with
  | Returned k => strict_eq k c
  | Threw _ => false
  end.

(** A value whose properties can be read: anything but [null] and
    [undefined]. *)
Definition readable (x : value) : bool :=
  match x with
  | VUndefined | VNull => false
  | _ => true
  end.

Definition is_object (v : value) : bool :=
  match v with
  | VObj _ => true
  | _ => false
  end.

(** An array whose elements all satisfy [Q]. *)
Definition array_of (Q : value -> bool) (v : value) : bool :=
  match v with
  | VArr l => forallb Q l
  | _ => false
  end.

(** The transactions are arrays of values that satisfy [Q], and the
    budgets an object. *)
Definition ledger_of (Q : value -> bool) (st : State) : bool :=
  array_of Q (expenses st) && array_of Q (incomes st)
  && is_object (budgets st).

(** The same with any condition [B] on the budgets. *)
Definition ledger_with (Q B : value -> bool) (st : State) : bool :=
  array_of Q (expenses st) && array_of Q (incomes st) && B (budgets st).

Definition is_number (v : value) : bool :=
  match v with
  | VNum _ => true
  | _ => false
  end.

(** An object whose properties are all numbers. *)
Definition object_of_numbers (v : value) : bool :=
  match v with
  | VObj ps => forallb (fun kx => is_number (snd kx)) ps
  | _ => false
  end.

(** The operations that pass the validation of a handler that adds: a
    category or source that is not empty, an amount above 0. *)
Definition accepted (op : operation) : bool :=
  match op with
  | AddExpense form =>
      truthy (field_value (expenseCategory form))
      && negb (Num.leb (toNumber (field_value (expenseAmount form)))
                 Num.pzero)
  | AddIncome form =>
      truthy (field_value (incomeSource form))
      && negb (Num.leb (toNumber (field_value (incomeAmount form)))
                 Num.pzero)
  | _ => false
  end.

(** An object whose [amount] is a number above 0. *)
Definition amount_above_zero (x : value) : bool :=
  match x with
  | VObj ps =>
      match assoc "amount" ps with
      | Some (VNum a) => Num.ltb Num.pzero a
      | _ => false
      end
  | _ => false
  end.

(** A number that is not [NaN] and whose sign is not set: [+0], a
    number above 0 or [+Infinity]. *)
Definition not_negative (x : number) : bool :=
  match x with
  | S754_nan => false
  | S754_zero s | S754_infinity s | S754_finite s _ _ => negb s
  end.

(** The four messages of a handler whose save failed. *)
Definition not_saved_message (m : message) : bool :=
  match m with
  | MsgExpenseNotSaved | MsgIncomeNotSaved | MsgExpenseDeletedNotSaved
  | MsgIncomeDeletedNotSaved => true
  | _ => false
  end.

(** What happens on the page: an operation on the ledger, a call of
    [loadState] (the load button makes one), or the reminder timeout
    expiring, with the answer the user gives to the prompt. *)
Inductive event : Type :=
| Operation (op : operation)
| Load
| ReminderTimeout (answer : bool).

Section Reachable.

Context {P : Platform}.
Local Open Scope prog_scope.

(** [state] and [DEFAULT] hold transactions that satisfy [Q]. *)
Definition holds (Q : value -> bool) (w : World) : Prop :=
  ledger_of Q (state w) = true /\ ledger_of Q (DEFAULT w) = true.

Definition holds_with (Q B : value -> bool) (w : World) : Prop :=
  ledger_with Q B (state w) = true /\ ledger_with Q B (DEFAULT w) = true.


(** The transactions are objects with an amount above 0. *)
Definition priced_world : World -> Prop := holds amount_above_zero.

Definition happen (ev : event) : M unit :=
  match ev with
  | Operation op => run op
  | Load => loadState ;; ret tt
  | ReminderTimeout answer => onReminderTimeout answer
  end.

(** The worlds reached from a page just loaded by any events. *)
Inductive reachable (ls : storage) : World -> Prop :=
| reachable_initial : reachable ls (initial ls)
| reachable_step (w : World) (ev : event) :
    reachable ls w -> reachable ls (snd (happen ev w)).

(** The identifier [generateId] makes of the clock read [m] and the
    random draw [k]. *)
Definition identifier (m k : nat) : string :=
  (Z_toString (Date_now m) ++ Math_random_base36 k)%string.

(** An object whose [id] is the identifier of a clock read before [n]
    and a random draw before [k]. *)
Definition generated_before (n k : nat) (x : value) : bool :=
  match x with
  | VObj ps =>
      match assoc "id" ps with
      | Some (VStr s) =>
          existsb
            (fun m => existsb (fun j => (s =? identifier m j)%string)
                        (seq 0 k))
            (seq 0 n)
      | _ => false
      end
  | _ => false
  end.

(** The identifier that [generateId] makes next was made by no earlier
    clock read and random draw. *)
Definition unused_before (w : World) : Prop :=
  forall m j : nat,
    (m < clockReads w)%nat ->
    (j < randomDraws w)%nat ->
    identifier m j <> identifier (clockReads w) (randomDraws w).

(** The clock has been read, and random numbers drawn, as many times in
    [w'] as in [w]. *)
Definition same_counters (w w' : World) : Prop :=
  clockReads w' = clockReads w /\ randomDraws w' = randomDraws w.

(** The storage forgets a key that is removed. *)
Definition removal_empties : Prop :=
  forall (k : string) (ls ls' : storage),
    Storage_removeItem k ls = Returned ls' ->
    Storage_getItem k ls' = Returned None.


End Reachable.

(** ** More sessions in the browser *)

Module Stored.

Import Examples.

Definition groceries : value :=
  VObj [("id", VStr "2"); ("category", VStr "Mat");
        ("amount", VNum (Num.of_Z 40)); ("desc", VStr "groceries");
        ("date", VStr "2024-01-02T00:00:00.000Z")].

(** A page that has loaded a stored ledger in which two expenses have
    the same identifier. *)
Definition loaded : World (P := Browser.platform) :=
  snd (loadState (P := Browser.platform)
         (page_with
            [("budgets", VObj [("Hyra", VNum (Num.of_Z 600))]);
             ("expenses", VArr [rent; groceries; rent])])).

(** A page whose storage holds a text that is not JSON. *)
Definition page_with_text (s : string) : World (P := Browser.platform) :=
  initial (P := Browser.platform)
    {| Browser.items := [(LS_KEY, Malformed s)]; Browser.quota := 100 |}.

(** A page whose storage refuses every write, and that page after an
    expense. *)
Definition full : World (P := Browser.platform) := Browser.fresh 0.

Definition full_after_lunch := step (AddExpense lunch) full.

(** The page after an expense of 1e307 in [Resor] and a budget of 1e307
    for it: both are stored as [Infinity]. *)
Definition over_budget : World (P := Browser.platform) :=
  step (SetBudget "Resor" "1e307") after_huge.

(** The form of an expense on a page without the description field. *)
Definition no_desc : ExpenseForm :=
  {| expenseCategory := Some "Mat";
     expenseDesc := None;
     expenseAmount := Some "0.1" |}.

(** The page after an expense, the reminder expiring, and the answer
    no. *)
Definition reminded : World (P := Browser.platform) :=
  snd (happen (P := Browser.platform) (ReminderTimeout false)
         (snd (happen (P := Browser.platform) (Operation (AddExpense lunch))
                 (initial (P := Browser.platform) (Browser.empty 100))))).

End Stored.

(** * Properties *)

(** ** Numeric coercion *)

Section Rounding.

Local Open Scope Z_scope.

Lemma nearest_tie_up_bounds (p : Z) (d : positive) :
  (2 * Num.nearest_tie_up p d - 1) * Zpos d <= 2 * p
  < (2 * Num.nearest_tie_up p d + 1) * Zpos d.
Proof.
  unfold Num.nearest_tie_up.
  pose proof (Z.div_mod (2 * p + Zpos d) (2 * Zpos d) ltac:(lia)) as E.
  pose proof (Z.mod_pos_bound (2 * p + Zpos d) (2 * Zpos d) ltac:(lia)) as B.
  set (n := (2 * p + Zpos d) / (2 * Zpos d)) in *.
  set (r := (2 * p + Zpos d) mod (2 * Zpos d)) in *.
  split; nia.
Qed.

(** A tie [k + 1/2] goes up to [k + 1], whatever the sign of [k]. *)
Lemma nearest_tie_up_half (k : Z) (d : positive) :
  Num.nearest_tie_up ((2 * k + 1) * Zpos d) (2 * d) = k + 1.
Proof.
  unfold Num.nearest_tie_up.
  replace (2 * ((2 * k + 1) * Zpos d) + Zpos (2 * d))
    with ((k + 1) * (2 * Zpos (2 * d))) by lia.
  apply Z.div_mul. lia.
Qed.

(** Away from zero a negative tie [-(k + 1/2)] goes down to [-(k + 1)]. *)
Lemma round_half_away_negative_half (k : Z) (d : positive) :
  0 <= k ->
  Num.round_half_away_from_zero (- ((2 * k + 1) * Zpos d)) (2 * d)
  = - (k + 1).
Proof.
  intros Hk. unfold Num.round_half_away_from_zero.
  assert (Hneg : - ((2 * k + 1) * Zpos d) < 0) by nia.
  rewrite (Z.sgn_neg _ Hneg), Z.abs_neq by lia.
  replace (2 * - - ((2 * k + 1) * Zpos d) + Zpos (2 * d))
    with ((k + 1) * (2 * Zpos (2 * d))) by lia.
  rewrite Z.div_mul by lia. lia.
Qed.

Lemma toNumber_of_NaN (v : value) :
  Num.isNaN (Number v) = true -> toNumber v = Num.pzero.
Proof. unfold toNumber. intros ->. reflexivity. Qed.

Lemma toNumber_of_number (v : value) :
  Num.isNaN (Number v) = false ->
  toNumber v
  = Num.div (Num.Math_round (Num.mul (Number v) (Num.of_Z 100)))
      (Num.of_Z 100).
Proof. unfold toNumber. intros ->. reflexivity. Qed.

End Rounding.

(** ** Integers below 2^53 are numbers *)

Section Exact.

Local Open Scope Z_scope.

Lemma digits2_pos_lower (p : positive) :
  2 ^ (Zpos (digits2_pos p) - 1) <= Zpos p.
Proof.
  induction p as [p IH|p IH|]; simpl digits2_pos.
  - rewrite Pos2Z.inj_succ.
    replace (Z.succ (Zpos (digits2_pos p)) - 1)
      with (Z.succ (Zpos (digits2_pos p) - 1)) by lia.
    rewrite Z.pow_succ_r by lia. lia.
  - rewrite Pos2Z.inj_succ.
    replace (Z.succ (Zpos (digits2_pos p)) - 1)
      with (Z.succ (Zpos (digits2_pos p) - 1)) by lia.
    rewrite Z.pow_succ_r by lia. lia.
  - simpl. lia.
Qed.

Lemma digits2_pos_bound (p : positive) :
  Zpos p < 2 ^ 53 -> Zpos (digits2_pos p) <= 53.
Proof.
  intros H. pose proof (digits2_pos_lower p) as L.
  destruct (Z_le_gt_dec (Zpos (digits2_pos p)) 53) as [K|K]; [exact K|].
  assert (2 ^ 53 <= 2 ^ (Zpos (digits2_pos p) - 1))
    by (apply Z.pow_le_mono_r; lia).
  lia.
Qed.

Lemma digits2_pos_shift (p k : positive) :
  digits2_pos (Pos.iter xO p k) = (digits2_pos p + k)%positive.
Proof.
  induction k as [|k IH] using Pos.peano_ind.
  - simpl. lia.
  - rewrite Pos.iter_succ. simpl. rewrite IH. lia.
Qed.

Lemma shift_value (p k : positive) :
  Zpos (Pos.iter xO p k) = Zpos p * 2 ^ Zpos k.
Proof.
  induction k as [|k IH] using Pos.peano_ind.
  - simpl. lia.
  - rewrite Pos.iter_succ, Pos2Z.inj_succ, Z.pow_succ_r by lia.
    rewrite Pos2Z.inj_xO, IH. lia.
Qed.

Lemma binary_round_aux_canonical (s : bool) (m : positive) (e : Z) :
  digits2_pos m = 53%positive ->
  -1074 <= e <= 971 ->
  binary_round_aux Num.prec Num.emax s (Zpos m) e loc_Exact
  = S754_finite s m e.
Proof.
  intros D B. unfold binary_round_aux, shr_fexp.
  cbn [Zdigits2 shr_record_of_loc]. rewrite D.
  assert (F : fexp Num.prec Num.emax (53 + e) - e = 0).
  { unfold fexp, emin, Num.prec, Num.emax. lia. }
  rewrite F. cbn [shr shr_m loc_of_shr_record round_nearest_even].
  cbn [Zdigits2 shr_record_of_loc]. rewrite D, F.
  cbn [shr shr_m].
  unfold Num.emax, Num.prec.
  destruct (Z.leb_spec e (1024 - 53)) as [L|L]; [reflexivity | lia].
Qed.

Lemma binary_round_small (s : bool) (p : positive) :
  Zpos p < 2 ^ 53 ->
  exists m e,
    binary_round Num.prec Num.emax s p 0 = S754_finite s m e
    /\ e <= 0
    /\ Zpos m = Zpos p * 2 ^ (- e).
Proof.
  intros H. pose proof (digits2_pos_bound H) as D.
  unfold binary_round.
  assert (F : fexp Num.prec Num.emax (Zpos (digits2_pos p) + 0)
              = Zpos (digits2_pos p) - 53).
  { unfold fexp, emin, Num.prec, Num.emax. lia. }
  rewrite F. unfold shl_align.
  destruct (Zpos (digits2_pos p) - 53 - 0) as [|k|k] eqn:K; try lia.
  - exists p, 0. split; [|split; [lia | simpl; lia]].
    apply binary_round_aux_canonical; [|lia].
    apply Pos2Z.inj. lia.
  - exists (Pos.iter xO p k), (Zpos (digits2_pos p) - 53).
    split; [|split; [lia|]].
    + apply binary_round_aux_canonical; [|lia].
      rewrite digits2_pos_shift. apply Pos2Z.inj. lia.
    + rewrite shift_value. f_equal. f_equal. lia.
Qed.
Lemma of_Z_exact (n : Z) :
  n <> 0 ->
  Z.abs n < 2 ^ 53 ->
  exists m e,
    Num.of_Z n = S754_finite (n <? 0) m e
    /\ e <= 0
    /\ Zpos m = Z.abs n * 2 ^ (- e).
Proof.
  intros N B. unfold Num.of_Z, binary_normalize.
  destruct n as [|p|p]; [congruence| |];
    apply binary_round_small; simpl in B; lia.
Qed.

(** [Math.round] of a number that is not integral is exactly the integer
    closest to it, a tie going up; a zero result has the sign of the
    number. *)
Lemma Math_round_exact (s : bool) (m q : positive) :
  Zpos m < 2 ^ 53 ->
  let n := Num.nearest_tie_up (cond_Zopp s (Zpos m)) (Pos.pow 2 q) in
  (n = 0 /\ Num.Math_round (S754_finite s m (Zneg q)) = S754_zero s)
  \/ (n <> 0
      /\ exists m' e',
           Num.Math_round (S754_finite s m (Zneg q))
           = S754_finite (n <? 0) m' e'
           /\ e' <= 0
           /\ Zpos m' = Z.abs n * 2 ^ (- e')).
Proof.
  intros B n. unfold Num.Math_round. fold n.
  destruct (Z.eqb_spec n 0) as [E|N]; [left; auto|right].
  split; [exact N|]. apply of_Z_exact; [exact N|].
  pose proof (nearest_tie_up_bounds (cond_Zopp s (Zpos m)) (Pos.pow 2 q)) as K.
  fold n in K.
  assert (D : 2 <= Zpos (Pos.pow 2 q)).
  { rewrite Pos2Z.inj_pow. change 2 with (2 ^ 1) at 1.
    apply Z.pow_le_mono_r; lia. }
  assert (A : Z.abs (cond_Zopp s (Zpos m)) < 2 ^ 53)
    by (destruct s; simpl; lia).
  change (2 ^ 53) with 9007199254740992 in *.
  nia.
Qed.

End Exact.

(** ** The scaled value of a number is a number *)

Section Rounded.

Local Open Scope Z_scope.

Lemma shr_1_nonneg (mrs : shr_record) :
  0 <= shr_m mrs -> 0 <= shr_m (shr_1 mrs).
Proof.
  destruct mrs as [[|[p|p|]|p] r s]; simpl; intros H; lia.
Qed.

Lemma iter_shr_1_nonneg (p : positive) (mrs : shr_record) :
  0 <= shr_m mrs -> 0 <= shr_m (iter_pos shr_1 p mrs).
Proof.
  revert mrs. induction p as [p IH|p IH|]; simpl; intros mrs H.
  - apply IH, IH, shr_1_nonneg, H.
  - apply IH, IH, H.
  - apply shr_1_nonneg, H.
Qed.

Lemma shr_fexp_nonneg (m e : Z) (l : location) :
  0 <= m -> 0 <= shr_m (fst (shr_fexp Num.prec Num.emax m e l)).
Proof.
  intros H. unfold shr_fexp, shr.
  assert (R : shr_m (shr_record_of_loc m l) = m)
    by (destruct l as [|[]]; reflexivity).
  destruct (fexp _ _ _ - e) as [|p|p]; simpl; try lia.
  apply iter_shr_1_nonneg. lia.
Qed.

Lemma round_nearest_even_nonneg (m : Z) (l : location) :
  0 <= m -> 0 <= round_nearest_even m l.
Proof.
  intros H. destruct l as [|[]]; simpl; try lia.
  destruct (Z.even m); lia.
Qed.

Lemma binary_round_aux_not_NaN (s : bool) (m e : Z) (l : location) :
  0 <= m ->
  Num.isNaN (binary_round_aux Num.prec Num.emax s m e l) = false.
Proof.
  intros H. unfold binary_round_aux.
  pose proof (shr_fexp_nonneg e l H) as H1.
  destruct (shr_fexp Num.prec Num.emax m e l) as [mrs' e'].
  simpl fst in H1.
  pose proof (shr_fexp_nonneg e' loc_Exact
                (round_nearest_even_nonneg (loc_of_shr_record mrs') H1)) as H2.
  destruct (shr_fexp Num.prec Num.emax _ e' loc_Exact) as [mrs'' e''].
  simpl fst in H2.
  destruct (shr_m mrs'') as [|p|p]; try lia; try reflexivity.
  now destruct (e'' <=? Num.emax - Num.prec).
Qed.

Lemma of_Z_not_NaN (n : Z) : Num.isNaN (Num.of_Z n) = false.
Proof.
  unfold Num.of_Z, binary_normalize, binary_round.
  destruct n as [|p|p]; [reflexivity| |];
    destruct (shl_align _ _ _) as [mz ez];
    apply binary_round_aux_not_NaN; lia.
Qed.

Lemma mul_100_not_NaN (x : number) :
  Num.isNaN x = false -> Num.isNaN (Num.mul x (Num.of_Z 100)) = false.
Proof.
  destruct x as [s|s| |s m e]; try discriminate; intros _;
    try reflexivity.
  apply binary_round_aux_not_NaN. lia.
Qed.

Lemma Math_round_not_NaN (x : number) :
  Num.isNaN x = false -> Num.isNaN (Num.Math_round x) = false.
Proof.
  destruct x as [s|s| |s m [|e|e]]; try discriminate; intros _;
    try reflexivity.
  unfold Num.Math_round.
  destruct (_ =? 0); [reflexivity | apply of_Z_not_NaN].
Qed.

Lemma div_100_not_NaN (x : number) :
  Num.isNaN x = false -> Num.isNaN (Num.div x (Num.of_Z 100)) = false.
Proof.
  destruct x as [s|s| |s m e]; try discriminate; intros _;
    try reflexivity.
  change (Num.of_Z 100) with (S754_finite false 7036874417766400 (-46)).
  unfold Num.div, SFdiv, SFdiv_core_binary.
  set (m' := match _ - _ - _ with Zpos _ => _ | Z0 => _ | Zneg _ => _ end).
  assert (Hm : 0 <= m').
  { subst m'. destruct (_ - _ - _); try lia. apply Z.shiftl_nonneg. lia. }
  pose proof (Z_div_mod m' (Zpos 7036874417766400) ltac:(lia)) as D.
  destruct (Z.div_eucl m' (Zpos 7036874417766400)) as [q r].
  apply binary_round_aux_not_NaN. nia.
Qed.

Lemma toNumber_not_NaN (v : value) : Num.isNaN (toNumber v) = false.
Proof.
  unfold toNumber. destruct (Num.isNaN (Number v)) eqn:E; [reflexivity|].
  apply div_100_not_NaN, Math_round_not_NaN, mul_100_not_NaN, E.
Qed.

(** An amount that is not [<= 0] is above 0. *)
Lemma toNumber_above_zero (v : value) :
  Num.leb (toNumber v) Num.pzero = false ->
  Num.ltb Num.pzero (toNumber v) = true.
Proof.
  pose proof (toNumber_not_NaN v) as N.
  destruct (toNumber v) as [[|]|[|]| |[|] m e]; try discriminate N;
    try discriminate; reflexivity.
Qed.

End Rounded.

Section Coercion.

Local Open Scope Z_scope.

Lemma primitive_returns (v : value) :
  primitive v = true -> Number_raises v = false.
Proof. now destruct v. Qed.

(** What [toNumber] returns, by the value of the input scaled by 100. *)
Lemma toNumber_by_scaled_value (v : value) :
  (Num.isNaN (Number v) = true -> toNumber v = Num.pzero)
  /\ (Num.isNaN (Number v) = false ->
      Num.isNaN (Num.mul (Number v) (Num.of_Z 100)) = false)
  /\ (forall s,
        Num.mul (Number v) (Num.of_Z 100) = S754_zero s ->
        toNumber v = S754_zero s)
  /\ (forall s,
        Num.mul (Number v) (Num.of_Z 100) = S754_infinity s ->
        toNumber v = S754_infinity s)
  /\ (forall s m e,
        Num.mul (Number v) (Num.of_Z 100) = S754_finite s m e ->
        0 <= e ->
        toNumber v = Num.div (S754_finite s m e) (Num.of_Z 100))
  /\ (forall s m q,
        Num.mul (Number v) (Num.of_Z 100) = S754_finite s m (Zneg q) ->
        let n := Num.nearest_tie_up (cond_Zopp s (Zpos m)) (Pos.pow 2 q) in
        (2 * n - 1) * 2 ^ Zpos q <= 2 * cond_Zopp s (Zpos m)
          < (2 * n + 1) * 2 ^ Zpos q
        /\ toNumber v
           = Num.div (if n =? 0 then S754_zero s else Num.of_Z n)
               (Num.of_Z 100)
        /\ (Zpos m < 2 ^ 53 ->
            n <> 0 ->
            exists m' e',
              Num.of_Z n = S754_finite (n <? 0) m' e'
              /\ e' <= 0
              /\ Zpos m' = Z.abs n * 2 ^ (- e'))).
Proof.
  assert (N : forall y, Num.mul (Number v) (Num.of_Z 100) = y ->
              Num.isNaN y = false -> Num.isNaN (Number v) = false).
  { intros y E Hy. destruct (Number v); try reflexivity.
    subst y. discriminate Hy. }
  split; [apply toNumber_of_NaN|].
  split; [apply mul_100_not_NaN|].
  split.
  { intros s E. rewrite (toNumber_of_number _ (N _ E eq_refl)), E.
    now destruct s. }
  split.
  { intros s E. rewrite (toNumber_of_number _ (N _ E eq_refl)), E.
    now destruct s. }
  split.
  { intros s m e E He. rewrite (toNumber_of_number _ (N _ E eq_refl)), E.
    destruct e as [|e|e]; [reflexivity | reflexivity | lia]. }
  intros s m q E n. split; [|split].
  - pose proof (nearest_tie_up_bounds (cond_Zopp s (Zpos m))
                  (Pos.pow 2 q)) as B.
    rewrite Pos2Z.inj_pow in B. exact B.
  - rewrite (toNumber_of_number _ (N _ E eq_refl)), E. reflexivity.
  - intros B Nz.
    destruct (Math_round_exact s q B) as [[Z0 _]|(_ & m' & e' & R & H)].
    + now fold n in Z0.
    + exists m', e'. split; [|exact H].
      unfold Num.Math_round in R. fold n in R.
      destruct (Z.eqb_spec n 0); [contradiction | exact R].
Qed.

(** C6, as amended.  A call of [toNumber] raises only where [Number]
    does, which is never on a primitive value.  Otherwise it returns [0]
    for an input that is not a number; and for a number it scales it by
    100 (the product is a number too), rounds the scaled value with
    [Math.round] and divides by 100: a scaled value that is a zero or
    infinite is returned as it is, with its sign; one that is integral
    is divided by 100 as it is; and one that is not integral,
    [±m / 2^q], is first taken to the integer [n] with
    [n - 1/2 <= ±m / 2^q < n + 1/2] (a tie goes toward plus infinity,
    for negative values too, and a result of zero keeps the sign), that
    integer being a number. *)
Theorem toNumber_rounds_ties_up (v : value) :
  (primitive v = true -> toNumber_call v = Returned (toNumber v))
  /\ (Number_raises v = false -> toNumber_call v = Returned (toNumber v))
  /\ (Number_raises v = true ->
      toNumber_call v = Threw TypeError /\ primitive v = false)
  /\ (Num.isNaN (Number v) = true -> toNumber v = Num.pzero)
  /\ (Num.isNaN (Number v) = false ->
      Num.isNaN (Num.mul (Number v) (Num.of_Z 100)) = false)
  /\ (forall s,
        Num.mul (Number v) (Num.of_Z 100) = S754_zero s ->
        toNumber v = S754_zero s)
  /\ (forall s,
        Num.mul (Number v) (Num.of_Z 100) = S754_infinity s ->
        toNumber v = S754_infinity s)
  /\ (forall s m e,
        Num.mul (Number v) (Num.of_Z 100) = S754_finite s m e ->
        0 <= e ->
        toNumber v = Num.div (S754_finite s m e) (Num.of_Z 100))
  /\ (forall s m q,
        Num.mul (Number v) (Num.of_Z 100) = S754_finite s m (Zneg q) ->
        let n := Num.nearest_tie_up (cond_Zopp s (Zpos m)) (Pos.pow 2 q) in
        (2 * n - 1) * 2 ^ Zpos q <= 2 * cond_Zopp s (Zpos m)
          < (2 * n + 1) * 2 ^ Zpos q
        /\ toNumber v
           = Num.div (if n =? 0 then S754_zero s else Num.of_Z n)
               (Num.of_Z 100)
        /\ (Zpos m < 2 ^ 53 ->
            n <> 0 ->
            exists m' e',
              Num.of_Z n = S754_finite (n <? 0) m' e'
              /\ e' <= 0
              /\ Zpos m' = Z.abs n * 2 ^ (- e'))).
Proof.
  split.
  { intros Hp. unfold toNumber_call. now rewrite (primitive_returns v Hp). }
  split; [intros H; unfold toNumber_call; now rewrite H|].
  split.
  { intros H. unfold toNumber_call. rewrite H. split; [reflexivity|].
    destruct (primitive v) eqn:Hp; [|reflexivity].
    rewrite (primitive_returns v Hp) in H. discriminate H. }
  apply toNumber_by_scaled_value.
Qed.

Lemma toNumber_rounds_ties_up_witness :
  toNumber_call (VStr "abc") = Returned Num.pzero
  /\ toNumber (VStr "-0.125") = Num.div (Num.of_Z (-12)) (Num.of_Z 100)
  /\ toNumber (VStr "1e307") = Num.pinf
  /\ toNumber_call (VObj [("toString", VNum (Num.of_Z 1))]) = Threw TypeError.
Proof.
  pose proof (toNumber_rounds_ties_up (VStr "abc")) as (A & _ & _ & A' & _).
  pose proof (toNumber_rounds_ties_up (VStr "-0.125"))
    as (_ & _ & _ & _ & _ & _ & _ & _ & B).
  pose proof (toNumber_rounds_ties_up (VStr "1e307"))
    as (_ & _ & _ & _ & _ & _ & C & _).
  pose proof (toNumber_rounds_ties_up (VObj [("toString", VNum (Num.of_Z 1))]))
    as (_ & _ & D & _).
  split; [rewrite A, A'; [reflexivity | vm_compute; reflexivity
                         | reflexivity]|].
  split.
  { apply (B true 7036874417766400%positive 49%positive).
    vm_compute. reflexivity. }
  split; [apply (C false); vm_compute; reflexivity|].
  apply D. reflexivity.
Defined.

(** C6, as stated, fails: [-0.005] scaled by 100 is the tie [-0.5],
    which away from zero would go to [-1] and give [-0.01];
    [Math.round] takes it to [-0], and the coerced amount is [-0]. *)
Lemma toNumber_half_not_away_from_zero :
  Num.mul (Number (VStr "-0.005")) (Num.of_Z 100)
  = S754_finite true 4503599627370496 (-53)
  /\ Num.round_half_away_from_zero (-4503599627370496) (Pos.pow 2 53) = -1
  /\ toNumber (VStr "-0.005") = Num.nzero
  /\ toNumber (VStr "-0.005") <> Number (VStr "-0.01").
Proof.
  repeat split; try (vm_compute; reflexivity).
  vm_compute. discriminate.
Qed.

End Coercion.

(** ** The sum of a category *)

Section Spent.

Lemma js_filter_snoc (p : value -> outcome bool) (l m : list value)
    (e : value) (b : bool) :
  js_filter p l = Returned m ->
  p e = Returned b ->
  js_filter p (l ++ [e]) = Returned (m ++ if b then [e] else [])%list.
Proof.
  revert m. induction l as [|x l IH]; simpl; intros m Hl He.
  - injection Hl as <-. rewrite He. simpl. now destruct b.
  - destruct (p x) as [keep|]; simpl in *; [|discriminate].
    destruct (js_filter p l) as [m'|]; simpl in *; [|discriminate].
    rewrite (IH m' eq_refl He). simpl.
    injection Hl as <-. now destruct keep.
Qed.

Lemma js_reduce_app {A} (f : A -> value -> outcome A) (l l' : list value)
    (acc : A) :
  js_reduce f (l ++ l') acc = and_then (js_reduce f l acc) (js_reduce f l').
Proof.
  revert acc. induction l as [|x l IH]; simpl; intros acc; [reflexivity|].
  destruct (f acc x); simpl; [apply IH | reflexivity].
Qed.

(** C7, as amended.  [spent] is the sum, taken from 0 in the order of
    the array and in floating point, of the coerced amounts of the
    expenses whose category is [===] to the argument, a primitive value:
    an expense of another category leaves it as it is, an expense of the
    category adds its amount rounded to 2 decimals, and raises where the
    coercion of that amount does; the sum itself is not rounded. *)
Theorem spentByCategory_snoc (l : list value) (e c k a : value)
    (s : number) :
  primitive c = true ->
  spentByCategory (VArr l) c = Returned s ->
  get_prop e "category" = Returned k ->
  get_prop e "amount" = Returned a ->
  spentByCategory (VArr []) c = Returned Num.pzero
  /\ spentByCategory (VArr (l ++ [e])) c
     = if strict_eq k c
       then if Number_raises a then Threw TypeError
            else Returned (Num.add s (toNumber a))
       else Returned s.
Proof.
  intros _ Hs Hk Ha. split; [reflexivity|].
  unfold spentByCategory in *. simpl in *.
  destruct (js_filter _ l) as [m|] eqn:Hm; simpl in Hs; [|discriminate].
  erewrite js_filter_snoc; [| exact Hm | rewrite Hk; reflexivity].
  simpl. rewrite js_reduce_app, Hs. simpl.
  destruct (strict_eq k c); simpl; [|reflexivity].
  unfold add_amount, toNumber_call. rewrite Ha. simpl.
  now destruct (Number_raises a).
Qed.

End Spent.

(** ** Values: equality *)


Lemma value_eqb_eq (a b : value) : value_eqb a b = true -> a = b.
Proof.
  revert b. induction a as [| | x | x | s | l IH | ps IH]
    using value_nested_ind; intros [| | y | y | t | l' | ps']; simpl;
    try discriminate; try reflexivity.
  - intros H. apply Bool.eqb_prop in H. now subst.
  - destruct (number_eq_dec x y); [now subst | discriminate].
  - intros H. apply String.eqb_eq in H. now subst.
  - intros H. f_equal. revert l' H.
    induction IH as [|x l Hx _ IHl]; intros [|y l']; try discriminate;
      [reflexivity|].
    intros H. apply andb_prop in H as [H1 H2].
    f_equal; [now apply Hx | now apply IHl].
  - intros H. f_equal. revert ps' H.
    induction IH as [|[k x] ps Hx _ IHl]; intros [|[k' y] ps'];
      try discriminate; [reflexivity|].
    intros H. apply andb_prop in H as [H12 H3].
    apply andb_prop in H12 as [H1 H2].
    apply String.eqb_eq in H1. subst k'.
    f_equal; [f_equal; now apply Hx | now apply IHl].
Qed.

Lemma value_eqb_refl (a : value) : value_eqb a a = true.
Proof.
  induction a as [| | x | x | s | l IH | ps IH] using value_nested_ind;
    simpl; try reflexivity.
  - apply Bool.eqb_reflx.
  - destruct (number_eq_dec x x); congruence.
  - apply String.eqb_refl.
  - induction IH as [|x l Hx _ IHl]; [reflexivity|].
    now rewrite Hx, IHl.
  - induction IH as [|[k x] ps Hx _ IHl]; [reflexivity|].
    simpl in Hx. now rewrite String.eqb_refl, Hx, IHl.
Qed.

Lemma text_eqb_eq (s t : text) : text_eqb s t = true -> s = t.
Proof.
  destruct s, t; simpl; try discriminate.
  - intros H. f_equal. now apply value_eqb_eq.
  - intros H. f_equal. now apply String.eqb_eq.
Qed.

Lemma text_eqb_refl (t : text) : text_eqb t t = true.
Proof.
  destruct t; simpl; [apply value_eqb_refl | apply String.eqb_refl].
Qed.

(** ** Values that JSON holds *)

Section JsonValues.


Lemma json_value_arr (l : list value) :
  json_value (VArr l) = forallb json_value l.
Proof. induction l as [|x l IH]; simpl in *; [reflexivity | now rewrite IH]. Qed.

Lemma json_value_obj (ps : list (string * value)) :
  json_value (VObj ps) = forallb (fun kx => json_value (snd kx)) ps.
Proof.
  induction ps as [|[k x] ps IH]; simpl in *; [reflexivity | now rewrite IH].
Qed.

Lemma number_eqb_finite (x : number) :
  Num.is_finite x = true ->
  Num.eqb (if Num.is_neg_zero x then Num.pzero else x) x = true.
Proof.
  destruct x as [[|]| | |s m e]; try discriminate; intros _;
    try reflexivity.
  unfold Num.eqb, SFeqb. simpl.
  destruct s; rewrite Z.compare_refl;
    fold (Pos.compare m m); now rewrite Pos.compare_refl.
Qed.

(** [JSON.stringify] writes a value that JSON holds as a document that
    is structurally equal to it. *)
Lemma to_json_json_value (v : value) :
  json_value v = true ->
  exists v', to_json v = Some v' /\ deep_equal v' v = true.
Proof.
  induction v as [| | b | x | s | l IH | ps IH] using value_nested_ind;
    intros J; try discriminate J.
  - now exists VNull.
  - exists (VBool b). split; [reflexivity | apply Bool.eqb_reflx].
  - simpl in J. simpl to_json. rewrite J.
    exists (if Num.is_neg_zero x then VNum Num.pzero else VNum x).
    split; [reflexivity|].
    pose proof (number_eqb_finite x J) as E.
    destruct (Num.is_neg_zero x); exact E.
  - exists (VStr s). split; [reflexivity | apply String.eqb_refl].
  - rewrite json_value_arr in J.
    induction IH as [|x l Hx _ IHl].
    + now exists (VArr []).
    + simpl in J. apply andb_prop in J as [Jx Jl].
      destruct (Hx Jx) as (x' & Ex & Dx).
      destruct (IHl Jl) as (l' & El & Dl).
      simpl in El. injection El as <-.
      simpl to_json. rewrite Ex. eexists. split; [reflexivity|].
      simpl in *. now rewrite Dx, Dl.
  - rewrite json_value_obj in J.
    induction IH as [|[k x] ps Hx _ IHl].
    + now exists (VObj []).
    + simpl in J, Hx. apply andb_prop in J as [Jx Jl].
      destruct (Hx Jx) as (x' & Ex & Dx).
      destruct (IHl Jl) as (l' & El & Dl).
      simpl in El. injection El as <-.
      simpl to_json. rewrite Ex. eexists. split; [reflexivity|].
      simpl in *. now rewrite String.eqb_refl, Dx, Dl.
Qed.

Lemma to_json_json_field (v : value) :
  json_field v = true ->
  exists v',
    to_json v = Some v' /\ deep_equal v' v = true /\ truthy v' = true.
Proof.
  intros F.
  assert (J : json_value v = true) by (destruct v; try discriminate; exact F).
  destruct (to_json_json_value v J) as (v' & E & D).
  exists v'. repeat split; auto.
  destruct v; try discriminate F; simpl in E; injection E as <-; reflexivity.
Qed.

Lemma json_array_field (v : value) : json_array v = true -> json_field v = true.
Proof. destruct v; try discriminate; auto. Qed.

Lemma json_object_field (v : value) :
  json_object v = true -> json_field v = true.
Proof. destruct v; try discriminate; auto. Qed.

Lemma well_formed_json_ledger (st : State) :
  well_formed st = true -> json_ledger st = true.
Proof.
  unfold well_formed, json_ledger. intros H.
  repeat (apply andb_prop in H as [H ?]).
  repeat (apply andb_true_intro; split);
    auto using json_array_field, json_object_field.
Qed.

Lemma json_array_snoc (l : list value) (x : value) :
  json_array (VArr l) = true ->
  json_value x = true ->
  json_array (VArr (l ++ [x])) = true.
Proof.
  unfold json_array. rewrite !json_value_arr, forallb_app. simpl.
  intros -> ->. reflexivity.
Qed.

Lemma js_filter_keeps (p : value -> outcome bool) (l kept : list value) :
  js_filter p l = Returned kept ->
  forallb json_value l = true ->
  forallb json_value kept = true.
Proof.
  revert kept. induction l as [|x l IH]; simpl; intros kept E J.
  - now injection E as <-.
  - apply andb_prop in J as [Jx Jl].
    destruct (p x) as [keep|]; simpl in E; [|discriminate].
    destruct (js_filter p l) as [kept'|]; simpl in E; [|discriminate].
    injection E as <-. specialize (IH kept' eq_refl Jl).
    destruct keep; simpl; [now rewrite Jx|]; exact IH.
Qed.

Lemma json_value_set_own (k : string) (v : value)
    (ps : list (string * value)) :
  json_value v = true ->
  forallb (fun kx => json_value (snd kx)) ps = true ->
  forallb (fun kx => json_value (snd kx)) (set_own k v ps) = true.
Proof.
  intros Jv J. unfold set_own.
  destruct (assoc k ps).
  - induction ps as [|[k' x] ps IH]; simpl in *; [reflexivity|].
    apply andb_prop in J as [Jx Jl].
    destruct (k =? k')%string; simpl; [now rewrite Jv | now rewrite Jx, IH].
  - destruct (array_index k) as [n|].
    + induction ps as [|[k' x] ps IH]; simpl in *; [now rewrite Jv|].
      apply andb_prop in J as [Jx Jl].
      destruct (array_index k') as [n'|]; [destruct (n' <? n)%N|]; simpl;
        rewrite ?Jv, ?Jx, ?Jl, ?IH; auto.
    + rewrite forallb_app. simpl. now rewrite J, Jv.
Qed.

End JsonValues.

(** ** Running a computation step by step *)

Section Steps.

Context {P : Platform}.

Lemma bind_returned {A B} (c : M A) (k : A -> M B) (w w' : World) (a : A) :
  c w = (Returned a, w') -> bind c k w = k a w'.
Proof. unfold bind. now intros ->. Qed.

Lemma bind_threw {A B} (c : M A) (k : A -> M B) (w w' : World) (e : exn) :
  c w = (Threw e, w') -> bind c k w = (Threw e, w').
Proof. unfold bind. now intros ->. Qed.

Lemma bind_gets {A B} (f : World -> A) (k : A -> M B) (w : World) :
  bind (gets f) k w = k (f w) w.
Proof. reflexivity. Qed.

Lemma bind_modify {B} (f : World -> World) (k : unit -> M B) (w : World) :
  bind (modify f) k w = k tt (f w).
Proof. reflexivity. Qed.

Lemma bind_ret {A B} (a : A) (k : A -> M B) (w : World) :
  bind (ret a) k w = k a w.
Proof. reflexivity. Qed.

Lemma bind_throw {A B} (e : exn) (k : A -> M B) (w : World) :
  bind (throw e) k w = (Threw e, w).
Proof. reflexivity. Qed.

Lemma bind_lift_returned {A B} (a : A) (k : A -> M B) (w : World) :
  bind (lift (Returned a)) k w = k a w.
Proof. reflexivity. Qed.

Lemma bind_lift_threw {A B} (e : exn) (k : A -> M B) (w : World) :
  bind (lift (Threw e : outcome A)) k w = (Threw e, w).
Proof. reflexivity. Qed.

Lemma bind_assoc {A B C} (c : M A) (k : A -> M B) (k' : B -> M C)
    (w : World) :
  bind (bind c k) k' w = bind c (fun a => bind (k a) k') w.
Proof. unfold bind. destruct (c w) as [[a|e] w']; reflexivity. Qed.

Lemma try_catch_returned {A} (body : M A) (h : exn -> M A) (w w' : World)
    (a : A) :
  body w = (Returned a, w') -> try_catch body h w = (Returned a, w').
Proof. unfold try_catch. now intros ->. Qed.

Lemma try_catch_threw {A} (body : M A) (h : exn -> M A) (w w' : World)
    (e : exn) :
  body w = (Threw e, w') -> try_catch body h w = h e w'.
Proof. unfold try_catch. now intros ->. Qed.

Lemma generateId_eq (w : World) :
  generateId w
  = (Returned (Z_toString (Date_now (clockReads w))
               ++ Math_random_base36 (randomDraws w))%string,
     set_counters (S (clockReads w)) (S (randomDraws w)) w).
Proof. reflexivity. Qed.

Lemma new_Date_toISOString_eq (w : World) :
  new_Date_toISOString w
  = (Returned (Date_toISOString (Date_now (clockReads w))),
     set_counters (S (clockReads w)) (randomDraws w) w).
Proof. reflexivity. Qed.

End Steps.

(** One step of a computation applied to a world. *)
Ltac mstep :=
  first [ rewrite bind_gets | rewrite bind_modify | rewrite bind_ret
        | rewrite bind_throw | rewrite bind_lift_returned
        | rewrite bind_lift_threw ];
  cbv beta.

(** ** The persistence status and [saveState] *)

Section Persistence.

Context {P : Platform}.

(** Closes the goals about a world that differs from the one before by
    its storage and its alerts at most. *)
Ltac unchanged :=
  repeat split; try discriminate; try (intros _; repeat split).

Lemma same_ledger_refl (w : World) : same_ledger w w.
Proof. repeat split. Qed.

Lemma same_ledger_trans (w1 w2 w3 : World) :
  same_ledger w1 w2 -> same_ledger w2 w3 -> same_ledger w1 w3.
Proof.
  unfold same_ledger. intros (a & b & c & d & e) (a' & b' & c' & d' & e').
  repeat split; congruence.
Qed.

Lemma ledger_ok_same (w w' : World) :
  same_ledger w w' -> ledger_ok w -> ledger_ok w'.
Proof.
  intros (S & D & _) [H1 H2]. split; congruence.
Qed.

Lemma same_status_refl (w : World) : same_status w w.
Proof. repeat split. Qed.

Lemma markSavedChanges_result (w : World) :
  exists w',
    markSavedChanges w = (Returned tt, w')
    /\ same_ledger w w'
    /\ localStorage w' = localStorage w
    /\ alerts w' = alerts w
    /\ hasUnsavedChanges w' = false
    /\ reminderTimer w' = None
    /\ (timer_ok w -> pendingTimeout w' = None).
Proof.
  unfold markSavedChanges, clearReminderTimer, bind, modify, timer_ok.
  simpl. destruct (reminderTimer w) as [t|] eqn:Ht; simpl.
  - eexists. split; [reflexivity|]. simpl. repeat split.
    destruct (pendingTimeout w) as [p|]; [|reflexivity].
    intros H. injection H as ->. now rewrite Pos.eqb_refl.
  - eexists. split; [reflexivity|]. simpl. rewrite Ht. repeat split.
    destruct (pendingTimeout w); [intros H; discriminate H | reflexivity].
Qed.

Lemma markUnsavedChanges_result (w : World) :
  exists w',
    markUnsavedChanges w = (Returned tt, w')
    /\ same_ledger w w'
    /\ localStorage w' = localStorage w
    /\ alerts w' = alerts w
    /\ Dirty w'.
Proof.
  unfold markUnsavedChanges, startReminderTimer, clearReminderTimer, bind,
    modify, Dirty.
  simpl. destruct (reminderTimer w) as [t|]; simpl;
    (eexists; split; [reflexivity|]; simpl; repeat split; eauto).
Qed.

Lemma showMessage_result (m : message) (t : message_type) (w : World) :
  showMessage m t w = (Returned tt, add_alert m t w).
Proof. reflexivity. Qed.

(** [saveState] returns, and leaves the ledger as it is.  When it
    returns [true] the text of [state] was written and read back, and the
    status is Saved; when it returns [false] the status is what it
    was. *)
Lemma saveState_result (w : World) :
  exists b w',
    saveState w = (Returned b, w')
    /\ same_ledger w w'
    /\ (b = true ->
        exists t ls,
          JSON_stringify (state_object (state w)) = Some t
          /\ Storage_setItem LS_KEY t (localStorage w) = Returned ls
          /\ Storage_getItem LS_KEY ls = Returned (Some t)
          /\ localStorage w' = ls
          /\ alerts w' = alerts w
          /\ hasUnsavedChanges w' = false
          /\ reminderTimer w' = None
          /\ (timer_ok w -> pendingTimeout w' = None))
    /\ (b = false -> same_status w w').
Proof.
  unfold saveState, try_catch, bind, gets. cbv beta iota.
  destruct (JSON_stringify (state_object (state w))) as [t|] eqn:Hjs.
  2:{ exists false, w. unchanged. }
  destruct (negb (text_truthy t) || text_eqb t (JsonText (VObj []))).
  { exists false, w. unchanged. }
  unfold localStorage_setItem at 1.
  destruct (Storage_setItem LS_KEY t (localStorage w)) as [ls|e] eqn:Hset.
  2:{ eexists false, _. split; [reflexivity|]. unchanged. }
  unfold localStorage_getItem at 1. cbv beta iota.
  destruct (Storage_getItem LS_KEY (localStorage (set_localStorage ls w)))
    as [[v|]|e] eqn:Hget.
  - destruct (text_eqb v t) eqn:Hv.
    + apply text_eqb_eq in Hv. subst v.
      destruct (markSavedChanges_result (set_localStorage ls w))
        as (w' & E & L & S & A & U & T & Pn).
      rewrite E. exists true, w'. split; [reflexivity|].
      split; [exact L|]. split; [|discriminate].
      intros _. exists t, ls. repeat split; auto.
    + eexists false, _. split; [reflexivity|]. unchanged.
  - eexists false, _. split; [reflexivity|]. unchanged.
  - eexists false, _. split; [reflexivity|]. unchanged.
Qed.

End Persistence.

Section SaveState.

Context {P : Platform}.

(** C2.  [saveState] never raises: it returns a boolean.  It returns
    [true] only if the text of [state] was written under [LS_KEY] and
    reading [LS_KEY] back gave that very text; when [JSON.stringify]
    gives no text, when the write raises (a full storage), when the read
    raises or gives anything else, it returns [false]. *)
Theorem saveState_verifies_the_write (w : World) :
  exists b w',
    saveState w = (Returned b, w')
    /\ (b = true ->
        exists t ls,
          JSON_stringify (state_object (state w)) = Some t
          /\ Storage_setItem LS_KEY t (localStorage w) = Returned ls
          /\ Storage_getItem LS_KEY ls = Returned (Some t)
          /\ localStorage w' = ls)
    /\ (JSON_stringify (state_object (state w)) = None -> b = false)
    /\ (forall t e,
          JSON_stringify (state_object (state w)) = Some t ->
          Storage_setItem LS_KEY t (localStorage w) = Threw e ->
          b = false)
    /\ (forall t ls,
          JSON_stringify (state_object (state w)) = Some t ->
          Storage_setItem LS_KEY t (localStorage w) = Returned ls ->
          Storage_getItem LS_KEY ls <> Returned (Some t) ->
          b = false).
Proof.
  destruct (saveState_result w) as (b & w' & E & _ & Ht & _).
  exists b, w'. split; [exact E|].
  assert (V : b = true ->
              exists t ls,
                JSON_stringify (state_object (state w)) = Some t
                /\ Storage_setItem LS_KEY t (localStorage w) = Returned ls
                /\ Storage_getItem LS_KEY ls = Returned (Some t)
                /\ localStorage w' = ls).
  { intros Hb. destruct (Ht Hb) as (t & ls & H1 & H2 & H3 & H4 & _).
    now exists t, ls. }
  split; [exact V|].
  repeat split.
  - intros Hn. destruct b; [|reflexivity].
    destruct (V eq_refl) as (t & ls & H1 & _). congruence.
  - intros t e H1 H2. destruct b; [|reflexivity].
    destruct (V eq_refl) as (t' & ls & H1' & H2' & _). congruence.
  - intros t ls H1 H2 H3. destruct b; [|reflexivity].
    destruct (V eq_refl) as (t' & ls' & H1' & H2' & H3' & _).
    congruence.
Qed.

End SaveState.

(** ** Adding a transaction *)

Section Adding.

Context {P : Platform}.

Lemma truthy_field (f : option string) :
  truthy (field_value f) = false <-> f = None \/ f = Some "".
Proof.
  destruct f as [s|]; simpl.
  - rewrite Bool.negb_false_iff, String.eqb_eq. split.
    + intros ->. now right.
    + intros [H|H]; [discriminate | now injection H].
  - split; auto.
Qed.

(** C4.  [onAddExpense] on a form whose category is missing or empty, or
    whose coerced amount is [<= 0], shows an error and changes nothing
    else: the world it leaves is the world it found with one more alert.
    [onAddIncome] does the same for the source and the amount. *)
Theorem add_rejects_invalid_input (w : World) :
  (forall form : ExpenseForm,
      expenseCategory form = None \/ expenseCategory form = Some ""
      \/ Num.leb (toNumber (field_value (expenseAmount form))) Num.pzero
         = true ->
      exists m,
        onAddExpense form w = (Returned tt, add_alert m error w)
        /\ state (add_alert m error w) = state w
        /\ same_ledger w (add_alert m error w)
        /\ same_status w (add_alert m error w)
        /\ localStorage (add_alert m error w) = localStorage w)
  /\ (forall form : IncomeForm,
        incomeSource form = None \/ incomeSource form = Some ""
        \/ Num.leb (toNumber (field_value (incomeAmount form))) Num.pzero
           = true ->
        exists m,
          onAddIncome form w = (Returned tt, add_alert m error w)
          /\ state (add_alert m error w) = state w
          /\ same_ledger w (add_alert m error w)
          /\ same_status w (add_alert m error w)
          /\ localStorage (add_alert m error w) = localStorage w).
Proof.
  split; intros form H.
  - unfold onAddExpense.
    destruct (truthy (field_value (expenseCategory form))) eqn:Hc.
    + destruct H as [H|[H|H]];
        try (assert (F : truthy (field_value (expenseCategory form)) = false)
               by (apply truthy_field; auto); congruence).
      cbv zeta. cbv [negb]. rewrite H.
      exists MsgInvalidAmount. repeat split.
    + exists MsgChooseCategory. repeat split.
  - unfold onAddIncome.
    destruct (truthy (field_value (incomeSource form))) eqn:Hc.
    + destruct H as [H|[H|H]];
        try (assert (F : truthy (field_value (incomeSource form)) = false)
               by (apply truthy_field; auto); congruence).
      cbv zeta. cbv [negb]. rewrite H.
      exists MsgInvalidAmount. repeat split.
    + exists MsgChooseSource. repeat split.
Qed.

End Adding.

(** ** After a change: the view is rendered and the ledger saved *)

Section Autosave.

Context {P : Platform}.
Local Open Scope prog_scope.

(** The end of the four handlers that add or delete a transaction
    (lines 540-549, 582-591, 601-610, 620-629). *)
Local Abbreviation autosave ok bad :=
  (renderAll ;;
   saved <- saveState ;;
   if (saved : bool) then markUnsavedChanges ;; showMessage ok success
   else showMessage bad error).

Lemma autosave_result (ok bad : message) (w : World) :
  exists o w',
    autosave ok bad w = (o, w')
    /\ same_ledger w w'
    /\ (render_fails (state w) = true -> o = Threw TypeError /\ w' = w)
    /\ (render_fails (state w) = false ->
        o = Returned tt
        /\ exists b ws,
             saveState w = (Returned b, ws)
             /\ (b = true ->
                 Dirty w'
                 /\ localStorage w' = localStorage ws
                 /\ alerts w' = (alerts w ++ [(ok, success)])%list)
             /\ (b = false ->
                 same_status w w'
                 /\ alerts w' = (alerts ws ++ [(bad, error)])%list)).
Proof.
  unfold bind at 1. unfold renderAll, bind at 1, gets. cbv beta iota.
  destruct (render_fails (state w)) eqn:Hr.
  - exists (Threw TypeError), w. unfold throw.
    split; [reflexivity|]. split; [apply same_ledger_refl|].
    split; [auto | discriminate].
  - unfold ret at 1. cbv beta iota. unfold bind at 1.
    destruct (saveState_result w) as (b & ws & E & L & Ht & Hf).
    rewrite E. destruct b.
    + unfold bind. destruct (markUnsavedChanges_result ws)
        as (wd & Ed & Ld & Sd & Ad & D).
      rewrite Ed. rewrite showMessage_result.
      exists (Returned tt), (add_alert ok success wd).
      split; [reflexivity|].
      split.
      { apply same_ledger_trans with ws; [exact L|].
        apply same_ledger_trans with wd; [exact Ld|]. repeat split. }
      split; [discriminate|]. intros _. split; [reflexivity|].
      exists true, ws. split; [reflexivity|].
      split; [|discriminate]. intros _.
      destruct (Ht eq_refl) as (t & ls & _ & _ & _ & _ & Aw & _).
      split; [exact D|]. split; [exact Sd|].
      simpl. now rewrite Ad, Aw.
    + rewrite showMessage_result.
      exists (Returned tt), (add_alert bad error ws).
      split; [reflexivity|].
      split.
      { apply same_ledger_trans with ws; [exact L|]. repeat split. }
      split; [discriminate|]. intros _. split; [reflexivity|].
      exists false, ws. split; [reflexivity|].
      split; [discriminate|]. intros _.
      split; [exact (Hf eq_refl) | reflexivity].
Qed.

(** The expense and the income that the handlers build. *)
Lemma onAddExpense_valid (form : ExpenseForm) (w : World) (c : string)
    (l : list value) :
  expenseCategory form = Some c ->
  c <> "" ->
  Num.leb (toNumber (field_value (expenseAmount form))) Num.pzero = false ->
  expenses (state w) = VArr l ->
  let expense :=
    VObj [("id", VStr (Z_toString (Date_now (clockReads w))
                       ++ Math_random_base36 (randomDraws w)));
          ("category", VStr c);
          ("amount", VNum (toNumber (field_value (expenseAmount form))));
          ("desc", js_or (field_value (option_map js_trim (expenseDesc form)))
                     (VStr "Ingen beskrivning"));
          ("date", VStr (Date_toISOString (Date_now (S (clockReads w)))))] in
  let pushed :=
    write_expenses (VArr (l ++ [expense]))
      (set_counters (S (S (clockReads w))) (S (randomDraws w)) w) in
  onAddExpense form w
  = match expenseDesc form, expenseAmount form with
    | Some _, Some _ =>
        autosave
          (MsgExpenseAdded (toNumber (field_value (expenseAmount form)))
             (VStr c))
          MsgExpenseNotSaved pushed
    | _, _ => (Threw TypeError, pushed)
    end.
Proof.
  intros Hc Hne Ha Hl expense pushed.
  unfold onAddExpense. rewrite Hc. cbv zeta.
  assert (T : truthy (field_value (Some c)) = true).
  { simpl. apply Bool.negb_true_iff, String.eqb_neq. exact Hne. }
  rewrite T, Ha. cbv [negb].
  erewrite bind_returned by apply generateId_eq.
  erewrite bind_returned by apply new_Date_toISOString_eq.
  mstep. cbn [state set_counters clockReads randomDraws]. rewrite Hl.
  cbn [as_array]. do 2 mstep.
  destruct (expenseDesc form) as [d|]; cbn [clear_field option_map];
    [|reflexivity].
  mstep.
  destruct (expenseAmount form) as [a|]; cbn [clear_field];
    [|reflexivity].
  mstep. reflexivity.
Qed.

Lemma onAddIncome_valid (form : IncomeForm) (w : World) (c : string)
    (l : list value) :
  incomeSource form = Some c ->
  c <> "" ->
  Num.leb (toNumber (field_value (incomeAmount form))) Num.pzero = false ->
  incomes (state w) = VArr l ->
  let income :=
    VObj [("id", VStr (Z_toString (Date_now (clockReads w))
                       ++ Math_random_base36 (randomDraws w)));
          ("source", VStr c);
          ("amount", VNum (toNumber (field_value (incomeAmount form))));
          ("date", VStr (Date_toISOString (Date_now (S (clockReads w)))))] in
  let pushed :=
    write_incomes (VArr (l ++ [income]))
      (set_counters (S (S (clockReads w))) (S (randomDraws w)) w) in
  onAddIncome form w
  = match incomeAmount form with
    | Some _ =>
        autosave
          (MsgIncomeAdded (toNumber (field_value (incomeAmount form)))
             (VStr c))
          MsgIncomeNotSaved pushed
    | None => (Threw TypeError, pushed)
    end.
Proof.
  intros Hc Hne Ha Hl income pushed.
  unfold onAddIncome. rewrite Hc. cbv zeta.
  assert (T : truthy (field_value (Some c)) = true).
  { simpl. apply Bool.negb_true_iff, String.eqb_neq. exact Hne. }
  rewrite T, Ha. cbv [negb].
  erewrite bind_returned by apply generateId_eq.
  erewrite bind_returned by apply new_Date_toISOString_eq.
  mstep. cbn [state set_counters clockReads randomDraws]. rewrite Hl.
  cbn [as_array]. do 2 mstep.
  destruct (incomeAmount form) as [a|]; cbn [clear_field];
    [|reflexivity].
  mstep. reflexivity.
Qed.

Lemma deleteExpense_confirmed (id : value) (w : World) (l kept : list value) :
  expenses (state w) = VArr l ->
  js_filter (id_differs id) l = Returned kept ->
  deleteExpense id true w
  = autosave MsgExpenseDeleted MsgExpenseDeletedNotSaved
      (assign_expenses (VArr kept) w).
Proof.
  intros Hl Hk. unfold deleteExpense. mstep. rewrite Hl. cbn [as_array].
  mstep. rewrite Hk. do 2 mstep. reflexivity.
Qed.

Lemma deleteIncome_confirmed (id : value) (w : World) (l kept : list value) :
  incomes (state w) = VArr l ->
  js_filter (id_differs id) l = Returned kept ->
  deleteIncome id true w
  = autosave MsgIncomeDeleted MsgIncomeDeletedNotSaved
      (assign_incomes (VArr kept) w).
Proof.
  intros Hl Hk. unfold deleteIncome. mstep. rewrite Hl. cbn [as_array].
  mstep. rewrite Hk. do 2 mstep. reflexivity.
Qed.

Lemma js_filter_all (p : value -> outcome bool) (l : list value) :
  Forall (fun x => p x = Returned true) l -> js_filter p l = Returned l.
Proof.
  induction 1 as [|x l Hx _ IH]; simpl; [reflexivity|].
  now rewrite Hx, IH.
Qed.

(** An amount above 0 is not [<= 0]. *)
Lemma positive_not_leb (x : number) :
  Num.ltb Num.pzero x = true -> Num.leb x Num.pzero = false.
Proof.
  destruct x as [[|]|[|]| |[|] m e]; try discriminate; reflexivity.
Qed.

Lemma state_with_expenses (st : State) (v : value) :
  expenses st = v ->
  mkState (expenseCategories st) (incomeCategories st) (budgets st) v
    (incomes st) = st.
Proof. intros <-. now destruct st. Qed.

Lemma state_with_incomes (st : State) (v : value) :
  incomes st = v ->
  mkState (expenseCategories st) (incomeCategories st) (budgets st)
    (expenses st) v = st.
Proof. intros <-. now destruct st. Qed.

(** C8.  [deleteExpense] with an identifier, a primitive value as the
    identifiers of the ledger are, that no expense has (each
    [x.id !== id] is true) leaves the ledger as it is, whether the user
    confirms or not: [expenses] holds the same records in the same order;
    and it raises nothing, the view layer aside.  [deleteIncome] does the
    same on [incomes]. *)
Theorem delete_absent_id_is_noop (w : World) (id : value) (confirmed : bool) :
  primitive id = true ->
  (forall l : list value,
      expenses (state w) = VArr l ->
      Forall (fun x => id_differs id x = Returned true) l ->
      expenses (state (snd (deleteExpense id confirmed w))) = VArr l
      /\ state (snd (deleteExpense id confirmed w)) = state w
      /\ (render_fails (state w) = false ->
          fst (deleteExpense id confirmed w) = Returned tt))
  /\ (forall l : list value,
        incomes (state w) = VArr l ->
        Forall (fun x => id_differs id x = Returned true) l ->
        incomes (state (snd (deleteIncome id confirmed w))) = VArr l
        /\ state (snd (deleteIncome id confirmed w)) = state w
        /\ (render_fails (state w) = false ->
            fst (deleteIncome id confirmed w) = Returned tt)).
Proof.
  intros _. split; intros l Hl Hid.
  - destruct confirmed; [|now repeat split].
    rewrite (deleteExpense_confirmed id w Hl (js_filter_all _ Hid)).
    assert (Hst : state (assign_expenses (VArr l) w) = state w)
      by (apply state_with_expenses, Hl).
    destruct (autosave_result MsgExpenseDeleted MsgExpenseDeletedNotSaved
                (assign_expenses (VArr l) w))
      as (o & w' & E & L & _ & Hok).
    rewrite E. simpl fst. simpl snd.
    destruct L as (Ls & _). rewrite Ls, Hst.
    split; [exact Hl|]. split; [reflexivity|].
    intros Hr. rewrite Hst in Hok. now destruct (Hok Hr).
  - destruct confirmed; [|now repeat split].
    rewrite (deleteIncome_confirmed id w Hl (js_filter_all _ Hid)).
    assert (Hst : state (assign_incomes (VArr l) w) = state w)
      by (apply state_with_incomes, Hl).
    destruct (autosave_result MsgIncomeDeleted MsgIncomeDeletedNotSaved
                (assign_incomes (VArr l) w))
      as (o & w' & E & L & _ & Hok).
    rewrite E. simpl fst. simpl snd.
    destruct L as (Ls & _). rewrite Ls, Hst.
    split; [exact Hl|]. split; [reflexivity|].
    intros Hr. rewrite Hst in Hok. now destruct (Hok Hr).
Qed.

(** How a handler that adds or deletes a transaction ends: with an error
    shown and nothing else changed, with nothing changed at all, with an
    exception, or with the view rendered and the ledger saved. *)
Lemma adds_or_deletes_cases (op : operation) (w : World) :
  adds_or_deletes op = true ->
  (exists m, run op w = (Returned tt, add_alert m error w))
  \/ run op w = (Returned tt, w)
  \/ (exists e wm,
        run op w = (Threw e, wm)
        /\ alerts wm = alerts w /\ same_status w wm)
  \/ (exists wm ok bad,
        run op w = autosave ok bad wm
        /\ alerts wm = alerts w /\ same_status w wm).
Proof.
  destruct op as [form|form|id c|id c| | |]; try discriminate; intros _;
    cbn [run].
  - unfold onAddExpense.
    destruct (truthy (field_value (expenseCategory form))); cbv [negb];
      [|left; eexists; reflexivity].
    cbv zeta.
    destruct (Num.leb _ _); [left; eexists; reflexivity|].
    right. right.
    erewrite bind_returned by apply generateId_eq.
    erewrite bind_returned by apply new_Date_toISOString_eq.
    mstep. cbn [state set_counters].
    destruct (as_array (expenses (state w))) as [l|e] eqn:Hl.
    2:{ left. destruct (expenses (state w)); try discriminate Hl;
          injection Hl as <-; mstep; eexists _, _; repeat split. }
    do 2 mstep.
    destruct (expenseDesc form); cbn [clear_field];
      [mstep | left; mstep; eexists _, _; repeat split].
    destruct (expenseAmount form); cbn [clear_field];
      [mstep | left; mstep; eexists _, _; repeat split].
    right. eexists _, _, _; repeat split.
  - unfold onAddIncome.
    destruct (truthy (field_value (incomeSource form))); cbv [negb];
      [|left; eexists; reflexivity].
    cbv zeta.
    destruct (Num.leb _ _); [left; eexists; reflexivity|].
    right. right.
    erewrite bind_returned by apply generateId_eq.
    erewrite bind_returned by apply new_Date_toISOString_eq.
    mstep. cbn [state set_counters].
    destruct (as_array (incomes (state w))) as [l|e] eqn:Hl.
    2:{ left. destruct (incomes (state w)); try discriminate Hl;
          injection Hl as <-; mstep; eexists _, _; repeat split. }
    do 2 mstep.
    destruct (incomeAmount form); cbn [clear_field];
      [mstep | left; mstep; eexists _, _; repeat split].
    right. eexists _, _, _; repeat split.
  - unfold deleteExpense. destruct c; [|right; left; reflexivity].
    right. right. mstep.
    destruct (as_array (expenses (state w))) as [l|e] eqn:Hl.
    2:{ left. destruct (expenses (state w)); try discriminate Hl;
          injection Hl as <-; mstep; eexists _, _; repeat split. }
    mstep.
    destruct (js_filter (id_differs id) l) as [kept|e] eqn:Hk.
    2:{ left. mstep. eexists _, _; repeat split. }
    do 2 mstep. right. eexists _, _, _; repeat split.
  - unfold deleteIncome. destruct c; [|right; left; reflexivity].
    right. right. mstep.
    destruct (as_array (incomes (state w))) as [l|e] eqn:Hl.
    2:{ left. destruct (incomes (state w)); try discriminate Hl;
          injection Hl as <-; mstep; eexists _, _; repeat split. }
    mstep.
    destruct (js_filter (id_differs id) l) as [kept|e] eqn:Hk.
    2:{ left. mstep. eexists _, _; repeat split. }
    do 2 mstep. right. eexists _, _, _; repeat split.
Qed.


Lemma updateTotals_result (w : World) :
  exists o, updateTotals w = (o, w).
Proof.
  unfold updateTotals. mstep.
  unfold bind, lift.
  destruct (calculateTotal (incomes (state w)));
    destruct (calculateTotal (expenses (state w))); eexists; reflexivity.
Qed.

Lemma autosave_ledger_ok (ok bad : message) (w : World) :
  ledger_ok w -> ledger_ok (snd (autosave ok bad w)).
Proof.
  intros H. destruct (autosave_result ok bad w) as (o & w' & E & L & _).
  rewrite E. exact (ledger_ok_same L H).
Qed.

Lemma truthy_field_true (f : option string) :
  truthy (field_value f) = true -> exists c, f = Some c /\ c <> "".
Proof.
  destruct f as [c|]; simpl; [|discriminate].
  intros H. exists c. split; [reflexivity|].
  now apply String.eqb_neq, Bool.negb_true_iff.
Qed.

Lemma json_value_desc (d : option string) :
  json_value (js_or (field_value (option_map js_trim d))
                (VStr "Ingen beskrivning")) = true.
Proof.
  unfold js_or. destruct d as [s|]; simpl; [|reflexivity].
  now destruct (negb _).
Qed.

Lemma onAddExpense_ledger_ok (form : ExpenseForm) (w : World) :
  ledger_ok w ->
  Num.is_finite (toNumber (field_value (expenseAmount form))) = true ->
  ledger_ok (snd (onAddExpense form w)).
Proof.
  intros Hok Hfin.
  destruct (truthy (field_value (expenseCategory form))) eqn:Hc.
  2:{ unfold onAddExpense. rewrite Hc. exact Hok. }
  destruct (Num.leb (toNumber (field_value (expenseAmount form))) Num.pzero)
    eqn:Ha.
  { unfold onAddExpense. rewrite Hc. cbv zeta. rewrite Ha. exact Hok. }
  destruct (truthy_field_true _ Hc) as (c & Ec & Hne).
  destruct Hok as [Hs Hd].
  assert (Hl : exists l, expenses (state w) = VArr l
                         /\ json_array (VArr l) = true).
  { unfold well_formed in Hs. repeat (apply andb_prop in Hs as [Hs ?]).
    destruct (expenses (state w)); try discriminate. eauto. }
  destruct Hl as (l & Hl & Jl).
  rewrite (onAddExpense_valid form w Ec Hne Ha Hl). cbv zeta.
  match goal with
  | |- context [write_expenses (VArr (l ++ [?e])) ?w0] =>
      set (expense := e); set (pushed := write_expenses (VArr (l ++ [e])) w0)
  end.
  assert (Je : json_array (VArr (l ++ [expense])) = true).
  { apply json_array_snoc; [exact Jl|]. subst expense.
    rewrite json_value_obj. simpl forallb. rewrite Hfin, json_value_desc.
    reflexivity. }
  assert (Hp : ledger_ok pushed).
  { split.
    - unfold well_formed in *. subst pushed.
      cbn [state write_expenses set_counters expenseCategories
             incomeCategories budgets expenses incomes].
      repeat (apply andb_prop in Hs as [Hs ?]).
      repeat (apply andb_true_intro; split); assumption.
    - unfold well_formed, DEFAULT in *. subst pushed.
      cbn [state write_expenses set_counters expenseCategories
             incomeCategories budgets expenses incomes DEFAULT_budgets
             DEFAULT_expenses DEFAULT_incomes shares_expenses] in *.
      repeat (apply andb_prop in Hd as [Hd ?]).
      destruct (shares_expenses w);
        repeat (apply andb_true_intro; split); assumption. }
  destruct (expenseDesc form); [|exact Hp].
  destruct (expenseAmount form); [|exact Hp].
  apply autosave_ledger_ok, Hp.
Qed.

Lemma onAddIncome_ledger_ok (form : IncomeForm) (w : World) :
  ledger_ok w ->
  Num.is_finite (toNumber (field_value (incomeAmount form))) = true ->
  ledger_ok (snd (onAddIncome form w)).
Proof.
  intros Hok Hfin.
  destruct (truthy (field_value (incomeSource form))) eqn:Hc.
  2:{ unfold onAddIncome. rewrite Hc. exact Hok. }
  destruct (Num.leb (toNumber (field_value (incomeAmount form))) Num.pzero)
    eqn:Ha.
  { unfold onAddIncome. rewrite Hc. cbv zeta. rewrite Ha. exact Hok. }
  destruct (truthy_field_true _ Hc) as (c & Ec & Hne).
  destruct Hok as [Hs Hd].
  assert (Hl : exists l, incomes (state w) = VArr l
                         /\ json_array (VArr l) = true).
  { unfold well_formed in Hs. repeat (apply andb_prop in Hs as [Hs ?]).
    destruct (incomes (state w)); try discriminate. eauto. }
  destruct Hl as (l & Hl & Jl).
  rewrite (onAddIncome_valid form w Ec Hne Ha Hl). cbv zeta.
  match goal with
  | |- context [write_incomes (VArr (l ++ [?e])) ?w0] =>
      set (income := e); set (pushed := write_incomes (VArr (l ++ [e])) w0)
  end.
  assert (Je : json_array (VArr (l ++ [income])) = true).
  { apply json_array_snoc; [exact Jl|]. subst income.
    rewrite json_value_obj. simpl forallb. rewrite Hfin. reflexivity. }
  assert (Hp : ledger_ok pushed).
  { split.
    - unfold well_formed in *. subst pushed.
      cbn [state write_incomes set_counters expenseCategories
             incomeCategories budgets expenses incomes].
      repeat (apply andb_prop in Hs as [Hs ?]).
      repeat (apply andb_true_intro; split); assumption.
    - unfold well_formed, DEFAULT in *. subst pushed.
      cbn [state write_incomes set_counters expenseCategories
             incomeCategories budgets expenses incomes DEFAULT_budgets
             DEFAULT_expenses DEFAULT_incomes shares_incomes] in *.
      repeat (apply andb_prop in Hd as [Hd ?]).
      destruct (shares_incomes w);
        repeat (apply andb_true_intro; split); assumption. }
  destruct (incomeAmount form); [|exact Hp].
  apply autosave_ledger_ok, Hp.
Qed.

Lemma deleteExpense_ledger_ok (id : value) (confirmed : bool) (w : World) :
  ledger_ok w -> ledger_ok (snd (deleteExpense id confirmed w)).
Proof.
  intros Hok. destruct confirmed; [|exact Hok].
  destruct Hok as [Hs Hd].
  assert (Hl : exists l, expenses (state w) = VArr l
                         /\ json_array (VArr l) = true).
  { unfold well_formed in Hs. repeat (apply andb_prop in Hs as [Hs ?]).
    destruct (expenses (state w)); try discriminate. eauto. }
  destruct Hl as (l & Hl & Jl).
  destruct (js_filter (id_differs id) l) as [kept|e] eqn:Hk.
  - rewrite (deleteExpense_confirmed id w Hl Hk).
    apply autosave_ledger_ok. split; [|exact Hd].
    unfold well_formed in *.
    cbn [state assign_expenses set_state expenseCategories incomeCategories
           budgets expenses incomes].
    repeat (apply andb_prop in Hs as [Hs ?]).
    repeat (apply andb_true_intro; split); try assumption.
    unfold json_array in *. rewrite json_value_arr in *.
    exact (js_filter_keeps _ _ Hk Jl).
  - unfold deleteExpense. mstep. rewrite Hl. cbn [as_array]. mstep.
    rewrite Hk. mstep. split; assumption.
Qed.

Lemma deleteIncome_ledger_ok (id : value) (confirmed : bool) (w : World) :
  ledger_ok w -> ledger_ok (snd (deleteIncome id confirmed w)).
Proof.
  intros Hok. destruct confirmed; [|exact Hok].
  destruct Hok as [Hs Hd].
  assert (Hl : exists l, incomes (state w) = VArr l
                         /\ json_array (VArr l) = true).
  { unfold well_formed in Hs. repeat (apply andb_prop in Hs as [Hs ?]).
    destruct (incomes (state w)); try discriminate. eauto. }
  destruct Hl as (l & Hl & Jl).
  destruct (js_filter (id_differs id) l) as [kept|e] eqn:Hk.
  - rewrite (deleteIncome_confirmed id w Hl Hk).
    apply autosave_ledger_ok. split; [|exact Hd].
    unfold well_formed in *.
    cbn [state assign_incomes set_state expenseCategories incomeCategories
           budgets expenses incomes].
    repeat (apply andb_prop in Hs as [Hs ?]).
    repeat (apply andb_true_intro; split); try assumption.
    unfold json_array in *. rewrite json_value_arr in *.
    exact (js_filter_keeps _ _ Hk Jl).
  - unfold deleteIncome. mstep. rewrite Hl. cbn [as_array]. mstep.
    rewrite Hk. mstep. split; assumption.
Qed.

Lemma saveState_ledger_ok (w : World) :
  ledger_ok w -> ledger_ok (snd (saveState w)).
Proof.
  intros H. destruct (saveState_result w) as (b & w' & E & L & _).
  rewrite E. exact (ledger_ok_same L H).
Qed.

Lemma onBudgetInput_ledger_ok (category raw : string) (w : World) :
  ledger_ok w ->
  Num.is_finite (toNumber (VStr raw)) = true ->
  ledger_ok (snd (onBudgetInput category raw w)).
Proof.
  intros [Hs Hd] Hfin.
  assert (Hb : exists ps, budgets (state w) = VObj ps
                          /\ json_object (VObj ps) = true).
  { unfold well_formed in Hs. repeat (apply andb_prop in Hs as [Hs ?]).
    destruct (budgets (state w)); try discriminate. eauto. }
  destruct Hb as (ps & Hb & Jb).
  unfold onBudgetInput. cbv zeta. mstep. rewrite Hb. cbn [set_prop].
  do 2 mstep.
  set (wb := write_budgets _ w).
  assert (Hwb : ledger_ok wb).
  { assert (Jn : json_object
                   (VObj (set_own category (VNum (toNumber (VStr raw))) ps))
                 = true).
    { unfold json_object in *. rewrite json_value_obj in *.
      apply json_value_set_own; [exact Hfin | exact Jb]. }
    split.
    - unfold well_formed in *. subst wb.
      cbn [state write_budgets expenseCategories incomeCategories budgets
             expenses incomes].
      repeat (apply andb_prop in Hs as [Hs ?]).
      repeat (apply andb_true_intro; split); assumption.
    - unfold well_formed, DEFAULT in *. subst wb.
      cbn [state write_budgets expenseCategories incomeCategories budgets
             expenses incomes DEFAULT_budgets DEFAULT_expenses
             DEFAULT_incomes shares_budgets] in *.
      repeat (apply andb_prop in Hd as [Hd ?]).
      destruct (shares_budgets w);
        repeat (apply andb_true_intro; split); assumption. }
  destruct (updateTotals_result wb) as ([[]|e] & Eu).
  - erewrite bind_returned by exact Eu.
    pose proof (saveState_ledger_ok Hwb) as Hsv.
    unfold bind. destruct (saveState wb) as [[b|e] w']; exact Hsv.
  - erewrite bind_threw by exact Eu. exact Hwb.
Qed.

Lemma onSaveClick_ledger_ok (w : World) :
  ledger_ok w -> ledger_ok (snd (onSaveClick w)).
Proof.
  intros H. unfold onSaveClick, bind.
  pose proof (saveState_ledger_ok H) as Hsv.
  destruct (saveState_result w) as (b & w' & E & _).
  rewrite E in *. destruct b; exact Hsv.
Qed.

Lemma resetState_ledger_ok (confirmed : bool) (w : World) :
  ledger_ok w -> ledger_ok (snd (resetState confirmed w)).
Proof.
  intros [Hs Hd]. destruct confirmed; [|split; assumption].
  unfold resetState, try_catch, bind at 1, localStorage_removeItem.
  destruct (Storage_removeItem LS_KEY (localStorage w)) as [ls|e].
  - mstep. unfold renderAll, showMessage.
    unfold bind, modify, gets, ret, throw.
    cbv beta iota. cbn [state add_alert set_state].
    destruct (render_fails (DEFAULT (set_localStorage ls w)));
      split; exact Hd.
  - split; assumption.
Qed.

(** Every operation that stores a finite amount keeps the shape of the
    ledger. *)
Lemma run_ledger_ok (op : operation) (w : World) :
  ledger_ok w -> finite_amount op = true -> ledger_ok (snd (run op w)).
Proof.
  intros H F. destruct op; cbn [run]; unfold finite_amount in F;
    cbn [stored_amount] in F.
  - now apply onAddExpense_ledger_ok.
  - now apply onAddIncome_ledger_ok.
  - now apply deleteExpense_ledger_ok.
  - now apply deleteIncome_ledger_ok.
  - now apply onBudgetInput_ledger_ok.
  - now apply onSaveClick_ledger_ok.
  - now apply resetState_ledger_ok.
Qed.

Lemma built_ledger_ok (ls : storage) (w : World) :
  built true ls w -> ledger_ok w.
Proof.
  induction 1 as [|w op _ IH F].
  - split; reflexivity.
  - apply run_ledger_ok; auto.
Qed.

Lemma timer_ok_same_status (w w' : World) :
  same_status w w' -> timer_ok w -> timer_ok w'.
Proof.
  unfold timer_ok. intros (_ & R & Pn & _) H. now rewrite R, Pn.
Qed.

Lemma Dirty_timer_ok (w : World) : Dirty w -> timer_ok w.
Proof. unfold timer_ok. intros (_ & t & R & ->). exact R. Qed.

Lemma saveState_timer_ok (w : World) :
  timer_ok w -> timer_ok (snd (saveState w)).
Proof.
  intros H. destruct (saveState_result w) as (b & w' & E & _ & Ht & Hf).
  rewrite E. destruct b.
  - destruct (Ht eq_refl) as (t & ls & _ & _ & _ & _ & _ & _ & _ & Pn).
    unfold timer_ok. cbn [snd]. now rewrite (Pn H).
  - exact (timer_ok_same_status (Hf eq_refl) H).
Qed.





End Autosave.

(** ** Loading *)

Section Loading.

Context {P : Platform}.

(** What [loadState] does when the storage holds a JSON text whose
    document is an object. *)
Lemma loadState_object (w : World) (ps : list (string * value)) :
  Storage_getItem LS_KEY (localStorage w)
  = Returned (Some (JsonText (VObj ps))) ->
  let field k := match assoc k ps with Some x => x | None => VUndefined end in
  loadState w
  = (Returned true,
     set_state
       (mkState
          (js_or (field "expenseCategories") DEFAULT_expenseCategories)
          (js_or (field "incomeCategories") DEFAULT_incomeCategories)
          (js_or (field "budgets") (VObj []))
          (js_or (field "expenses") (VArr []))
          (js_or (field "incomes") (VArr [])))
       false false false w).
Proof.
  intros G field. unfold loadState.
  assert (F : forall k,
             match assoc k ps with
             | Some x => Returned x
             | None => Returned VUndefined
             end = Returned (field k)).
  { intros k. unfold field. now destruct (assoc k ps). }
  erewrite bind_returned.
  2:{ apply try_catch_returned.
      erewrite bind_returned
        by (unfold localStorage_getItem; rewrite G; reflexivity).
      cbn [text_truthy JSON_parse]. mstep.
      cbn [truthy typeof_object andb get_prop].
      rewrite !F. do 6 mstep. reflexivity. }
  reflexivity.
Qed.

(** A stored array is an object too: it has none of the five fields, and
    the ledger is the default one. *)
Lemma loadState_array (w : World) (l : list value) :
  Storage_getItem LS_KEY (localStorage w)
  = Returned (Some (JsonText (VArr l))) ->
  loadState w
  = (Returned true,
     set_state
       (mkState DEFAULT_expenseCategories DEFAULT_incomeCategories (VObj [])
          (VArr []) (VArr []))
       false false false w).
Proof.
  intros G. unfold loadState.
  erewrite bind_returned.
  2:{ apply try_catch_returned.
      erewrite bind_returned
        by (unfold localStorage_getItem; rewrite G; reflexivity).
      cbn [text_truthy JSON_parse]. mstep.
      cbn [truthy typeof_object andb get_prop]. do 6 mstep. reflexivity. }
  reflexivity.
Qed.

(** When nothing is stored, or a string that is not JSON, [loadState]
    returns [false] and [state] is a copy of [DEFAULT]. *)
Lemma loadState_nothing (w : World) :
  Storage_getItem LS_KEY (localStorage w) = Returned None ->
  loadState w = (Returned false, set_state (DEFAULT w) true true true w).
Proof.
  intros G. unfold loadState.
  erewrite bind_returned.
  2:{ apply try_catch_returned.
      erewrite bind_returned
        by (unfold localStorage_getItem; rewrite G; reflexivity).
      reflexivity. }
  reflexivity.
Qed.

Lemma js_or_taken_or_default (ps : list (string * value)) (k : string)
    (default : value) :
  taken_or_default ps k default
    (js_or match assoc k ps with Some x => x | None => VUndefined end
       default).
Proof.
  unfold taken_or_default, js_or. split.
  - intros v -> ->. reflexivity.
  - intros ->. reflexivity.
Qed.

Lemma js_or_falsy_defaulted (ps : list (string * value)) (k : string)
    (default : value) :
  falsy_defaulted ps k default
    (js_or match assoc k ps with Some x => x | None => VUndefined end
       default).
Proof.
  unfold falsy_defaulted, js_or. intros v -> ->. reflexivity.
Qed.

Lemma js_or_truthy (a b : value) : truthy b = true -> truthy (js_or a b) = true.
Proof. unfold js_or. intros H. now destruct (truthy a) eqn:E. Qed.

(** C3, as amended.  When the storage holds a JSON object, [loadState]
    returns [true] and the ledger it builds has all five fields: a field
    that the object has with a truthy value is taken from it, a field
    that the object does not have is the default (the default category
    lists, an empty object for [budgets], an empty array for [expenses]
    and [incomes]). *)
Theorem loadState_completes_partial_object (w : World)
    (ps : list (string * value)) :
  Storage_getItem LS_KEY (localStorage w)
  = Returned (Some (JsonText (VObj ps))) ->
  exists w',
    loadState w = (Returned true, w')
    /\ taken_or_default ps "expenseCategories" DEFAULT_expenseCategories
         (expenseCategories (state w'))
    /\ taken_or_default ps "incomeCategories" DEFAULT_incomeCategories
         (incomeCategories (state w'))
    /\ taken_or_default ps "budgets" (VObj []) (budgets (state w'))
    /\ taken_or_default ps "expenses" (VArr []) (expenses (state w'))
    /\ taken_or_default ps "incomes" (VArr []) (incomes (state w'))
    /\ truthy (expenseCategories (state w')) = true
    /\ truthy (incomeCategories (state w')) = true
    /\ truthy (budgets (state w')) = true
    /\ truthy (expenses (state w')) = true
    /\ truthy (incomes (state w')) = true.
Proof.
  intros G. eexists. split; [apply (loadState_object w G)|].
  cbn [state set_state expenseCategories incomeCategories budgets expenses
         incomes].
  repeat split;
    try apply js_or_taken_or_default; try (apply js_or_truthy; reflexivity).
Qed.

(** C10.  When the storage holds a JSON object, [loadState] puts the
    default in place of a field whose stored value is falsy ([null], [0],
    the empty string, [false]), as it does for a field that is not
    there: a stored [expenseCategories] of [null] gives the default
    category list; a stored empty [expenses] array is truthy and is
    kept. *)
Theorem loadState_defaults_falsy_fields (w : World)
    (ps : list (string * value)) :
  Storage_getItem LS_KEY (localStorage w)
  = Returned (Some (JsonText (VObj ps))) ->
  exists w',
    loadState w = (Returned true, w')
    /\ falsy_defaulted ps "expenseCategories" DEFAULT_expenseCategories
         (expenseCategories (state w'))
    /\ falsy_defaulted ps "incomeCategories" DEFAULT_incomeCategories
         (incomeCategories (state w'))
    /\ falsy_defaulted ps "budgets" (VObj []) (budgets (state w'))
    /\ falsy_defaulted ps "expenses" (VArr []) (expenses (state w'))
    /\ falsy_defaulted ps "incomes" (VArr []) (incomes (state w'))
    /\ (assoc "expenseCategories" ps = Some VNull ->
        expenseCategories (state w') = DEFAULT_expenseCategories)
    /\ (assoc "expenses" ps = Some (VArr []) ->
        expenses (state w') = VArr []).
Proof.
  intros G. eexists. split; [apply (loadState_object w G)|].
  cbn [state set_state expenseCategories incomeCategories budgets expenses
         incomes].
  repeat split; try apply js_or_falsy_defaulted.
  - intros ->. reflexivity.
  - intros ->. reflexivity.
Qed.

End Loading.

(** ** Saving and loading again *)

Section RoundTrip.

Context {P : Platform}.

(** A ledger whose five fields are arrays or objects of values JSON
    holds comes back from the storage structurally equal. *)
Lemma round_trip_json_ledger (w ws : World) :
  json_ledger (state w) = true ->
  saveState w = (Returned true, ws) ->
  exists wl,
    loadState ws = (Returned true, wl)
    /\ ledger_equal (state wl) (state w) = true.
Proof.
  intros J E.
  destruct (saveState_result w) as (b & w' & E' & _ & Ht & _).
  rewrite E in E'. injection E' as <- <-.
  destruct (Ht eq_refl) as (t & ls & Hjs & _ & G & Sl & _).
  unfold json_ledger in J.
  repeat (apply andb_prop in J as [J ?]).
  destruct (to_json_json_field _ J) as (ec & Eec & Dec & Tec).
  destruct (to_json_json_field _ H2) as (ic & Eic & Dic & Tic).
  destruct (to_json_json_field _ H1) as (bu & Ebu & Dbu & Tbu).
  destruct (to_json_json_field _ H0) as (ex & Eex & Dex & Tex).
  destruct (to_json_json_field _ H) as (inc & Einc & Dinc & Tinc).
  unfold JSON_stringify, state_object in Hjs. simpl to_json in Hjs.
  rewrite Eec, Eic, Ebu, Eex, Einc in Hjs. simpl in Hjs.
  injection Hjs as <-. rewrite <- Sl in G.
  eexists. split; [apply (loadState_object ws G)|].
  cbn [state set_state]. simpl assoc.
  unfold js_or. rewrite Tec, Tic, Tbu, Tex, Tinc.
  unfold ledger_equal.
  cbn [expenseCategories incomeCategories budgets expenses incomes].
  now rewrite Dec, Dic, Dbu, Dex, Dinc.
Qed.

End RoundTrip.

(** ** Sessions in the browser *)

Section Sessions.

Import Examples.
Local Existing Instance Browser.platform.

(** C1, as amended.  For every ledger built from the default one by
    operations that store finite amounts, a [saveState] that returns
    [true] followed by [loadState] returns [true] and gives a ledger
    structurally equal to the one saved, in all five fields. *)
Theorem save_then_load_round_trips {P : Platform} (ls : storage)
    (w ws : World) :
  built true ls w ->
  saveState w = (Returned true, ws) ->
  exists wl,
    loadState ws = (Returned true, wl)
    /\ ledger_equal (state wl) (state w) = true.
Proof.
  intros B E. apply round_trip_json_ledger; [|exact E].
  apply well_formed_json_ledger. now apply (built_ledger_ok B).
Qed.

Lemma save_then_load_round_trips_witness :
  exists wl,
    loadState (snd (saveState after_coffee)) = (Returned true, wl)
    /\ ledger_equal (state wl) (state after_coffee) = true.
Proof.
  apply (@save_then_load_round_trips Browser.platform (Browser.empty 100)).
  - unfold after_coffee, after_lunch, step, page, Browser.fresh.
    repeat (apply built_step; [|intros _; vm_compute; reflexivity]).
    apply built_initial.
  - vm_compute. reflexivity.
Defined.

(** C1, as stated, fails.  An expense of 1e307 in category [Resor] is a
    valid call: the category is not empty and the coerced amount,
    [Infinity], is above 0.  [saveState] returns [true]; the text it
    wrote has [null] for the amount, and the ledger that [loadState]
    gives is not structurally equal to the one saved. *)
Lemma round_trip_loses_infinite_amount :
  built false (Browser.empty 100) after_huge
  /\ toNumber (field_value (expenseAmount huge)) = Num.pinf
  /\ Num.leb (toNumber (field_value (expenseAmount huge))) Num.pzero = false
  /\ exists ws wl,
       saveState after_huge = (Returned true, ws)
       /\ loadState ws = (Returned true, wl)
       /\ ledger_equal (state wl) (state after_huge) = false
       /\ spentByCategory (expenses (state after_huge)) (VStr "Resor")
          = Returned Num.pinf
       /\ spentByCategory (expenses (state wl)) (VStr "Resor")
          = Returned Num.pzero.
Proof.
  split.
  { unfold after_huge, step, page, Browser.fresh.
    apply built_step; [apply built_initial | discriminate]. }
  split; [vm_compute; reflexivity|].
  split; [vm_compute; reflexivity|].
  exists (snd (saveState after_huge)),
    (snd (loadState (snd (saveState after_huge)))).
  split; [vm_compute; reflexivity|].
  split; [vm_compute; reflexivity|].
  split; [vm_compute; reflexivity|].
  split; vm_compute; reflexivity.
Qed.

Lemma saveState_verifies_the_write_witness :
  exists b w',
    saveState page = (Returned b, w')
    /\ (b = true ->
        exists t ls,
          JSON_stringify (state_object (state page)) = Some t
          /\ Storage_setItem LS_KEY t (localStorage page) = Returned ls
          /\ Storage_getItem LS_KEY ls = Returned (Some t)
          /\ localStorage w' = ls).
Proof.
  destruct (saveState_verifies_the_write page) as (b & w' & E & V & _).
  exists b, w'. split; [exact E | exact V].
Defined.

Lemma loadState_completes_partial_object_witness :
  exists w',
    loadState (page_with [("expenses", VArr [rent])]) = (Returned true, w')
    /\ expenses (state w') = VArr [rent]
    /\ budgets (state w') = VObj []
    /\ incomes (state w') = VArr []
    /\ expenseCategories (state w') = DEFAULT_expenseCategories
    /\ incomeCategories (state w') = DEFAULT_incomeCategories.
Proof.
  destruct (loadState_completes_partial_object
              (page_with [("expenses", VArr [rent])])
              (ps := [("expenses", VArr [rent])]) eq_refl)
    as (w' & E & Hec & Hic & Hb & He & Hi & _).
  exists w'. split; [exact E|].
  split; [apply (proj1 He (VArr [rent])); reflexivity|].
  split; [apply (proj2 Hb); reflexivity|].
  split; [apply (proj2 Hi); reflexivity|].
  split; [apply (proj2 Hec); reflexivity|].
  apply (proj2 Hic); reflexivity.
Defined.

(** C3, as stated, fails: a stored object whose [expenses] is [null] has
    the field, and the loaded ledger does not take it: its [expenses] is
    the empty array. *)
Lemma loadState_replaces_present_null :
  assoc "expenses" [("expenses", VNull)] = Some VNull
  /\ exists w',
       loadState (page_with [("expenses", VNull)]) = (Returned true, w')
       /\ expenses (state w') = VArr []
       /\ expenses (state w') <> VNull.
Proof.
  split; [reflexivity|].
  exists (snd (loadState (page_with [("expenses", VNull)]))).
  split; [vm_compute; reflexivity|].
  split; [vm_compute; reflexivity | vm_compute; discriminate].
Qed.

Lemma loadState_defaults_falsy_fields_witness :
  exists w',
    loadState (page_with [("expenseCategories", VNull);
                          ("expenses", VArr [])])
    = (Returned true, w')
    /\ expenseCategories (state w') = DEFAULT_expenseCategories
    /\ expenses (state w') = VArr [].
Proof.
  destruct (loadState_defaults_falsy_fields
              (page_with [("expenseCategories", VNull);
                          ("expenses", VArr [])])
              (ps := [("expenseCategories", VNull); ("expenses", VArr [])])
              eq_refl)
    as (w' & E & _ & _ & _ & _ & _ & Hnull & Hempty).
  exists w'. split; [exact E|].
  split; [apply Hnull; reflexivity | apply Hempty; reflexivity].
Defined.

Lemma add_rejects_invalid_input_witness :
  exists m,
    onAddExpense nothing after_lunch
    = (Returned tt, add_alert m error after_lunch)
    /\ state (add_alert m error after_lunch) = state after_lunch.
Proof.
  destruct (proj1 (add_rejects_invalid_input after_lunch) nothing)
    as (m & E & S & _).
  - right. right. vm_compute. reflexivity.
  - exists m. split; [exact E | exact S].
Defined.

Lemma delete_absent_id_is_noop_witness :
  state (snd (deleteExpense (VStr "none") true after_coffee))
  = state after_coffee
  /\ fst (deleteExpense (VStr "none") true after_coffee) = Returned tt.
Proof.
  destruct (proj1 (delete_absent_id_is_noop after_coffee (VStr "none") true
                     eq_refl)
              (match expenses (state after_coffee) with
               | VArr l => l
               | _ => []
               end))
    as (_ & S & R).
  - vm_compute. reflexivity.
  - vm_compute. repeat constructor.
  - split; [exact S | apply R; reflexivity].
Defined.



Lemma spentByCategory_snoc_witness :
  spentByCategory (expenses (state after_coffee)) (VStr "Mat")
  = Returned (Num.add (Number (VStr "0.1")) (Number (VStr "0.2"))).
Proof.
  assert (E : exists x y,
             expenses (state after_coffee) = VArr ([x] ++ [y])
             /\ spentByCategory (VArr [x]) (VStr "Mat")
                = Returned (Number (VStr "0.1"))
             /\ get_prop y "category" = Returned (VStr "Mat")
             /\ get_prop y "amount" = Returned (VNum (Number (VStr "0.2")))).
  { exists (nth 0 match expenses (state after_coffee) with
                   | VArr l => l
                   | _ => []
                   end VNull),
      (nth 1 match expenses (state after_coffee) with
             | VArr l => l
             | _ => []
             end VNull).
    split; [vm_compute; reflexivity|].
    split; [vm_compute; reflexivity|].
    split; vm_compute; reflexivity. }
  destruct E as (x & y & -> & Hs & Hk & Ha).
  rewrite (proj2 (spentByCategory_snoc [x] y (VStr "Mat") eq_refl Hs Hk Ha)).
  vm_compute. reflexivity.
Defined.

(** C7, as stated, fails.  After expenses of 0.1 and 0.2 in [Mat], both
    already rounded to 2 decimals, what is spent in [Mat] is
    0.30000000000000004: it is not the sum rounded to 2 decimals, 0.3,
    and rounding it again changes it. *)
Lemma spentByCategory_is_not_rounded :
  exists x,
    spentByCategory (expenses (state after_coffee)) (VStr "Mat") = Returned x
    /\ x = S754_finite false 5404319552844596 (-54)
    /\ x <> Number (VStr "0.3")
    /\ toNumber (VNum x) = Number (VStr "0.3")
    /\ toNumber (VNum x) <> x.
Proof.
  exists (S754_finite false 5404319552844596 (-54)).
  split; [vm_compute; reflexivity|].
  split; [reflexivity|].
  split; [vm_compute; discriminate|].
  split; [vm_compute; reflexivity|].
  vm_compute. discriminate.
Qed.

(** The example of the specification: with 120.56 spent in [Mat] and 500
    in [Hyra], what is spent in [Mat] is 120.56. *)
Example spentByCategory_Mat :
  spentByCategory
    (VArr [VObj [("category", VStr "Mat");
                 ("amount", VNum (toNumber (VStr "120.555")))];
           rent])
    (VStr "Mat")
  = Returned (Number (VStr "120.56")).
Proof. vm_compute. reflexivity. Qed.

(** [resetState] copies [DEFAULT] again, and the arrays of [DEFAULT] are
    the ones the handlers write into while [state] shares them: after an
    expense on a page just loaded, a reset empties the storage and leaves
    the expense in [state]. *)
Remark reset_keeps_the_pushed_expense :
  expenses (state (step (Reset true) after_lunch))
  = expenses (state after_lunch)
  /\ expenses (state after_lunch) <> VArr []
  /\ Storage_getItem LS_KEY (localStorage (step (Reset true) after_lunch))
     = Returned None.
Proof.
  split; [vm_compute; reflexivity|].
  split; [vm_compute; discriminate | vm_compute; reflexivity].
Qed.

End Sessions.

(** * Further properties of the code *)

(** ** [toNumber] always gives a number *)

Section NeverNaN.

(** X1.  [toNumber] never gives [NaN], whatever the input: the amount
    it returns is either [<= 0] or [> 0], so the test [numAmount <= 0] of
    the handlers rejects exactly the amounts that are not above 0. *)
Theorem toNumber_is_never_NaN (v : value) :
  Num.isNaN (toNumber v) = false
  /\ Num.leb (toNumber v) Num.pzero
     = negb (Num.ltb Num.pzero (toNumber v)).
Proof.
  pose proof (toNumber_not_NaN v) as N.
  split; [exact N|].
  destruct (toNumber v) as [[|]|[|]| |[|] m e]; try discriminate N;
    reflexivity.
Qed.

End NeverNaN.

(** ** Amounts above 0 and their sums *)

Section NotNegative.

Local Open Scope Z_scope.

Lemma binary_round_aux_not_negative (m e : Z) (l : location) :
  0 <= m ->
  not_negative (binary_round_aux Num.prec Num.emax false m e l) = true.
Proof.
  intros H. unfold binary_round_aux.
  pose proof (shr_fexp_nonneg e l H) as H1.
  destruct (shr_fexp Num.prec Num.emax m e l) as [mrs' e'].
  simpl fst in H1.
  pose proof (shr_fexp_nonneg e' loc_Exact
                (round_nearest_even_nonneg (loc_of_shr_record mrs') H1)) as H2.
  destruct (shr_fexp Num.prec Num.emax _ e' loc_Exact) as [mrs'' e''].
  simpl fst in H2.
  destruct (shr_m mrs'') as [|p|p]; try lia; try reflexivity.
  now destruct (e'' <=? Num.emax - Num.prec).
Qed.

Lemma binary_round_not_negative (m : positive) (e : Z) :
  not_negative (binary_round Num.prec Num.emax false m e) = true.
Proof.
  unfold binary_round. destruct (shl_align _ _ _) as [mz ez].
  apply binary_round_aux_not_negative. lia.
Qed.

Lemma of_Z_not_negative (n : Z) :
  0 <= n -> not_negative (Num.of_Z n) = true.
Proof.
  intros H. unfold Num.of_Z, binary_normalize.
  destruct n as [|p|p]; [reflexivity| |lia].
  apply binary_round_not_negative.
Qed.

Lemma mul_100_not_negative (x : number) :
  not_negative x = true ->
  not_negative (Num.mul x (Num.of_Z 100)) = true.
Proof.
  change (Num.of_Z 100) with (S754_finite false 7036874417766400 (-46)).
  destruct x as [[|]|[|]| |[|] m e]; try discriminate; intros _;
    try reflexivity.
  apply binary_round_aux_not_negative. lia.
Qed.

Lemma Math_round_not_negative (x : number) :
  not_negative x = true -> not_negative (Num.Math_round x) = true.
Proof.
  destruct x as [[|]|[|]| |[|] m [|e|e]]; try discriminate; intros _;
    try reflexivity.
  unfold Num.Math_round, Num.nearest_tie_up. cbn [cond_Zopp].
  destruct (_ =? 0); [reflexivity|].
  apply of_Z_not_negative. apply Z.div_pos; lia.
Qed.

Lemma div_100_not_negative (x : number) :
  not_negative x = true ->
  not_negative (Num.div x (Num.of_Z 100)) = true.
Proof.
  change (Num.of_Z 100) with (S754_finite false 7036874417766400 (-46)).
  destruct x as [[|]|[|]| |[|] m e]; try discriminate; intros _;
    try reflexivity.
  unfold Num.div, SFdiv, SFdiv_core_binary.
  set (m' := match _ - _ - _ with Zpos _ => _ | Z0 => _ | Zneg _ => _ end).
  assert (Hm : 0 <= m').
  { subst m'. destruct (_ - _ - _); try lia. apply Z.shiftl_nonneg. lia. }
  pose proof (Z_div_mod m' (Zpos 7036874417766400) ltac:(lia)) as D.
  destruct (Z.div_eucl m' (Zpos 7036874417766400)) as [q r].
  apply binary_round_aux_not_negative. nia.
Qed.

(** The coerced amount of a number that is not negative is not
    negative. *)
Lemma toNumber_not_negative (a : number) :
  not_negative a = true -> not_negative (toNumber (VNum a)) = true.
Proof.
  intros H. unfold toNumber. cbn [Number].
  destruct (Num.isNaN a); [reflexivity|].
  apply div_100_not_negative, Math_round_not_negative,
    mul_100_not_negative, H.
Qed.

Lemma above_zero_not_negative (a : number) :
  Num.ltb Num.pzero a = true -> not_negative a = true.
Proof.
  destruct a as [[|]|[|]| |[|] m e]; try discriminate; reflexivity.
Qed.

(** A sum of two numbers that are not negative is not negative: it is
    not [NaN]. *)
Lemma add_not_negative (x y : number) :
  not_negative x = true -> not_negative y = true ->
  not_negative (Num.add x y) = true.
Proof.
  destruct x as [[|]|[|]| |[|] mx ex]; try discriminate; intros _;
    destruct y as [[|]|[|]| |[|] my ey]; try discriminate; intros _;
    try reflexivity.
  unfold Num.add, SFadd. cbn [cond_Zopp].
  destruct (shl_align mx ex _) as [a ea], (shl_align my ey _) as [b eb].
  cbn [fst]. unfold binary_normalize.
  change (Zpos a + Zpos b) with (Zpos (a + b)).
  apply binary_round_not_negative.
Qed.

End NotNegative.

(** ** [loadState]: what it falls back on *)

(** Closes the frame conditions of a world given explicitly. *)
Ltac settled :=
  repeat split; try discriminate; try (intros _; repeat split).

Section LoadFallback.

Context {P : Platform}.

(** The world after the fallback [state = { ...DEFAULT }]. *)
Local Abbreviation fallback w := (set_state (DEFAULT w) true true true w).

Lemma loadState_empty_string (w : World) :
  Storage_getItem LS_KEY (localStorage w) = Returned (Some (Malformed "")) ->
  loadState w = (Returned false, fallback w).
Proof.
  intros G. unfold loadState.
  erewrite bind_returned.
  2:{ apply try_catch_returned.
      erewrite bind_returned
        by (unfold localStorage_getItem; rewrite G; reflexivity).
      reflexivity. }
  reflexivity.
Qed.

Lemma loadState_malformed (w : World) (s : string) :
  s <> "" ->
  Storage_getItem LS_KEY (localStorage w) = Returned (Some (Malformed s)) ->
  loadState w
  = (Returned false, fallback (add_alert MsgLoadFailed error w)).
Proof.
  intros Hs G. unfold loadState.
  erewrite bind_returned.
  2:{ erewrite try_catch_threw.
      2:{ erewrite bind_returned
            by (unfold localStorage_getItem; rewrite G; reflexivity).
          cbn [text_truthy].
          apply String.eqb_neq in Hs. rewrite Hs. cbn [negb JSON_parse].
          mstep. reflexivity. }
      reflexivity. }
  reflexivity.
Qed.

Lemma loadState_storage_raises (w : World) (e : exn) :
  Storage_getItem LS_KEY (localStorage w) = Threw e ->
  loadState w
  = (Returned false, fallback (add_alert MsgLoadFailed error w)).
Proof.
  intros G. unfold loadState.
  erewrite bind_returned.
  2:{ erewrite try_catch_threw.
      2:{ erewrite bind_threw
            by (unfold localStorage_getItem; rewrite G; reflexivity).
          reflexivity. }
      reflexivity. }
  reflexivity.
Qed.

Lemma loadState_primitive (w : World) (doc : value) :
  truthy doc && typeof_object doc = false ->
  Storage_getItem LS_KEY (localStorage w) = Returned (Some (JsonText doc)) ->
  loadState w = (Returned false, fallback w).
Proof.
  intros Hd G. unfold loadState.
  erewrite bind_returned.
  2:{ apply try_catch_returned.
      erewrite bind_returned
        by (unfold localStorage_getItem; rewrite G; reflexivity).
      cbn [text_truthy JSON_parse]. mstep. rewrite Hd. reflexivity. }
  reflexivity.
Qed.

Lemma truthy_object_cases (doc : value) :
  truthy doc && typeof_object doc = true ->
  (exists l, doc = VArr l) \/ (exists ps, doc = VObj ps).
Proof.
  destruct doc; simpl; rewrite ?Bool.andb_false_r; try discriminate; eauto.
Qed.

(** X2.  [loadState] never raises.  It leaves the storage, the
    persistence status and [DEFAULT] as they are.  When it returns
    [false], [state] is a shallow copy of [DEFAULT]; when it returns
    [true], [state] is a new object whose five fields are all truthy. *)
Theorem loadState_never_raises (w : World) :
  exists b w',
    loadState w = (Returned b, w')
    /\ localStorage w' = localStorage w
    /\ same_status w w'
    /\ DEFAULT w' = DEFAULT w
    /\ (b = false ->
        state w' = DEFAULT w
        /\ shares_budgets w' = true
        /\ shares_expenses w' = true
        /\ shares_incomes w' = true)
    /\ (b = true ->
        truthy (expenseCategories (state w')) = true
        /\ truthy (incomeCategories (state w')) = true
        /\ truthy (budgets (state w')) = true
        /\ truthy (expenses (state w')) = true
        /\ truthy (incomes (state w')) = true
        /\ shares_budgets w' = false
        /\ shares_expenses w' = false
        /\ shares_incomes w' = false).
Proof.
  destruct (Storage_getItem LS_KEY (localStorage w)) as [[[doc|s]|]|e] eqn:G.
  - destruct (truthy doc && typeof_object doc) eqn:Hd.
    + destruct (truthy_object_cases doc Hd) as [[l ->]|[ps ->]].
      * rewrite (loadState_array w G). eexists _, _.
        split; [reflexivity|]. settled.
      * rewrite (loadState_object w G). eexists _, _.
        split; [reflexivity|]. cbn [state set_state localStorage DEFAULT
          DEFAULT_budgets DEFAULT_expenses DEFAULT_incomes shares_budgets
          shares_expenses shares_incomes expenseCategories incomeCategories
          budgets expenses incomes].
        repeat split; try discriminate; apply js_or_truthy; reflexivity.
    + rewrite (loadState_primitive w Hd G). eexists _, _.
      split; [reflexivity|]. settled.
  - destruct (String.eqb_spec s "") as [->|Hs].
    + rewrite (loadState_empty_string w G). eexists _, _.
      split; [reflexivity|]. settled.
    + rewrite (loadState_malformed w Hs G). eexists _, _.
      split; [reflexivity|]. settled.
  - rewrite (loadState_nothing w G). eexists _, _.
    split; [reflexivity|]. settled.
  - rewrite (loadState_storage_raises w G). eexists _, _.
    split; [reflexivity|]. settled.
Qed.

(** X3.  The fallback of [loadState] is silent when nothing is stored,
    when the stored string is empty, and when the stored JSON is not an
    object (a number, a string, a boolean, [null]): it returns [false]
    and shows nothing.  It shows the load error, once, when the stored
    string is not JSON and when reading the storage raises. *)
Theorem loadState_fallback_alerts (w : World) :
  (Storage_getItem LS_KEY (localStorage w) = Returned None ->
   loadState w = (Returned false, fallback w))
  /\ (Storage_getItem LS_KEY (localStorage w)
      = Returned (Some (Malformed "")) ->
      loadState w = (Returned false, fallback w))
  /\ (forall doc,
        truthy doc && typeof_object doc = false ->
        Storage_getItem LS_KEY (localStorage w)
        = Returned (Some (JsonText doc)) ->
        loadState w = (Returned false, fallback w))
  /\ (forall s,
        s <> "" ->
        Storage_getItem LS_KEY (localStorage w)
        = Returned (Some (Malformed s)) ->
        loadState w
        = (Returned false, fallback (add_alert MsgLoadFailed error w)))
  /\ (forall e,
        Storage_getItem LS_KEY (localStorage w) = Threw e ->
        loadState w
        = (Returned false, fallback (add_alert MsgLoadFailed error w))).
Proof.
  split; [apply loadState_nothing|].
  split; [apply loadState_empty_string|].
  split; [intros doc Hd G; apply (loadState_primitive w Hd G)|].
  split; [intros s Hs G; apply (loadState_malformed w Hs G)|].
  intros e. apply loadState_storage_raises.
Qed.

End LoadFallback.

(** ** [resetState] *)

Section Reset.

Context {P : Platform}.
Local Open Scope prog_scope.

Lemma resetState_unconfirmed (w : World) :
  resetState false w = (Returned tt, w).
Proof. reflexivity. Qed.

Lemma resetState_storage_raises (w : World) (e : exn) :
  Storage_removeItem LS_KEY (localStorage w) = Threw e ->
  resetState true w = (Returned tt, add_alert MsgResetFailed error w).
Proof.
  intros R. unfold resetState.
  erewrite try_catch_threw.
  2:{ erewrite bind_threw
        by (unfold localStorage_removeItem; rewrite R; reflexivity).
      reflexivity. }
  reflexivity.
Qed.

Lemma resetState_removed (w : World) (ls : storage) :
  Storage_removeItem LS_KEY (localStorage w) = Returned ls ->
  let w1 :=
    add_alert MsgResetDone success
      (set_state (DEFAULT w) true true true (set_localStorage ls w)) in
  resetState true w
  = (Returned tt,
     if render_fails (DEFAULT w) then add_alert MsgResetFailed error w1
     else w1).
Proof.
  intros R w1. unfold resetState, try_catch.
  erewrite bind_returned
    by (unfold localStorage_removeItem; rewrite R; reflexivity).
  mstep. unfold showMessage. mstep. unfold renderAll. mstep.
  cbn [state add_alert set_state]. fold w1.
  change (DEFAULT (set_localStorage ls w)) with (DEFAULT w).
  destruct (render_fails (DEFAULT w)); reflexivity.
Qed.

(** X4.  [resetState] never raises, and never touches the persistence
    status nor [DEFAULT].  Without the user's confirmation it changes
    nothing.  Confirmed, when the storage removes the key, [state] is a
    shallow copy of [DEFAULT]; when the removal raises, [state] and the
    storage are as they were. *)
Theorem resetState_resets_or_keeps (w : World) (confirmed : bool) :
  exists w',
    resetState confirmed w = (Returned tt, w')
    /\ same_status w w'
    /\ DEFAULT w' = DEFAULT w
    /\ (confirmed = false -> w' = w)
    /\ (forall ls,
          confirmed = true ->
          Storage_removeItem LS_KEY (localStorage w) = Returned ls ->
          state w' = DEFAULT w
          /\ localStorage w' = ls
          /\ shares_budgets w' = true
          /\ shares_expenses w' = true
          /\ shares_incomes w' = true)
    /\ (forall e,
          confirmed = true ->
          Storage_removeItem LS_KEY (localStorage w) = Threw e ->
          state w' = state w /\ localStorage w' = localStorage w).
Proof.
  destruct confirmed.
  - destruct (Storage_removeItem LS_KEY (localStorage w)) as [ls|e] eqn:R.
    + rewrite (resetState_removed w R). cbv zeta.
      eexists. split; [reflexivity|].
      destruct (render_fails (DEFAULT w));
        (repeat split; try discriminate;
         match goal with H : Returned _ = Returned _ |- _ =>
           injection H as <-; reflexivity end).
    + rewrite (resetState_storage_raises w R).
      eexists. split; [reflexivity|].
      repeat split; try discriminate.
  - exists w. repeat split; discriminate.
Qed.

(** X5.  On a storage that forgets a removed key, a confirmed
    [resetState] whose removal does not raise, followed by [loadState],
    finds nothing: [loadState] returns [false], shows nothing, and
    [state] is the copy of [DEFAULT] that the reset made. *)
Theorem reset_then_load_finds_nothing (w : World) (ls : storage) :
  removal_empties ->
  Storage_removeItem LS_KEY (localStorage w) = Returned ls ->
  exists w',
    loadState (snd (resetState true w)) = (Returned false, w')
    /\ state w' = state (snd (resetState true w))
    /\ state w' = DEFAULT w
    /\ alerts w' = alerts (snd (resetState true w)).
Proof.
  intros Hrm R.
  pose proof (Hrm _ _ _ R) as G.
  rewrite (resetState_removed w R). cbv zeta. cbn [snd].
  set (w1 := if render_fails (DEFAULT w) then _ else _).
  assert (S1 : localStorage w1 = ls)
    by (subst w1; destruct (render_fails (DEFAULT w)); reflexivity).
  assert (D1 : DEFAULT w1 = DEFAULT w)
    by (subst w1; destruct (render_fails (DEFAULT w)); reflexivity).
  assert (T1 : state w1 = DEFAULT w)
    by (subst w1; destruct (render_fails (DEFAULT w)); reflexivity).
  rewrite <- S1 in G.
  rewrite (loadState_nothing w1 G).
  eexists. split; [reflexivity|].
  cbn [state set_state alerts]. rewrite D1, T1. repeat split.
Qed.

End Reset.

(** ** [DEFAULT] is written through [state] *)

Section Sharing.

Context {P : Platform}.
Local Open Scope prog_scope.

(** The end of the handlers that add or delete a transaction. *)
Local Abbreviation autosave ok bad :=
  (renderAll ;;
   saved <- saveState ;;
   if (saved : bool) then markUnsavedChanges ;; showMessage ok success
   else showMessage bad error).

Lemma autosave_keeps_ledger (ok bad : message) (w : World) :
  same_ledger w (snd (autosave ok bad w)).
Proof.
  destruct (autosave_result ok bad w) as (o & w' & E & L & _).
  rewrite E. exact L.
Qed.

(** A valid [onAddExpense] writes the record into the array of
    [DEFAULT] too, while [state] shares it. *)
Lemma onAddExpense_writes_DEFAULT (form : ExpenseForm) (w : World)
    (c : string) (l : list value) :
  expenseCategory form = Some c ->
  c <> "" ->
  Num.ltb Num.pzero (toNumber (field_value (expenseAmount form))) = true ->
  expenses (state w) = VArr l ->
  shares_expenses w = true ->
  exists record,
    get_prop record "category" = Returned (VStr c)
    /\ expenses (state (snd (onAddExpense form w))) = VArr (l ++ [record])
    /\ DEFAULT_expenses (snd (onAddExpense form w)) = VArr (l ++ [record]).
Proof.
  intros Hc Hne Hpos Hl Hsh.
  pose proof (positive_not_leb _ Hpos) as Ha.
  rewrite (onAddExpense_valid form w Hc Hne Ha Hl). cbv zeta.
  match goal with
  | |- context [write_expenses (VArr (l ++ [?r])) _] => exists r
  end.
  split; [reflexivity|].
  assert (Hp : forall r w0,
             shares_expenses w0 = true ->
             expenses (state (write_expenses (VArr (l ++ [r])) w0))
             = VArr (l ++ [r])
             /\ DEFAULT_expenses (write_expenses (VArr (l ++ [r])) w0)
                = VArr (l ++ [r])).
  { intros r w0 H0. cbn [state write_expenses expenses DEFAULT_expenses].
    rewrite H0. split; reflexivity. }
  destruct (expenseDesc form); [|now apply Hp].
  destruct (expenseAmount form) as [a|]; [|now apply Hp].
  match goal with
  | |- context [write_expenses ?v ?w0] =>
      destruct (autosave_keeps_ledger
                  (MsgExpenseAdded (toNumber (field_value (Some a)))
                     (VStr c)) MsgExpenseNotSaved (write_expenses v w0))
        as (Ls & Ld & _)
  end.
  rewrite Ls. apply (f_equal expenses) in Ld. cbn [DEFAULT expenses] in Ld.
  rewrite Ld. now apply Hp.
Qed.

(** X6.  While [state] shares the arrays of [DEFAULT] (from the page
    load, a reset or a failed load, until a delete or a successful load
    replaces them), an expense that is added is written into [DEFAULT]
    as well: a confirmed [resetState] right after a valid [onAddExpense]
    leaves the new expense in [state.expenses]. *)
Theorem reset_keeps_expense_added_while_shared (form : ExpenseForm)
    (w : World) (c : string) (l : list value) :
  expenseCategory form = Some c ->
  c <> "" ->
  Num.ltb Num.pzero (toNumber (field_value (expenseAmount form))) = true ->
  expenses (state w) = VArr l ->
  shares_expenses w = true ->
  exists record,
    get_prop record "category" = Returned (VStr c)
    /\ expenses (state (snd (resetState true (snd (onAddExpense form w)))))
       = VArr (l ++ [record]).
Proof.
  intros Hc Hne Hpos Hl Hsh.
  destruct (onAddExpense_writes_DEFAULT form w Hc Hne Hpos Hl Hsh)
    as (record & Hcat & Hs & Hd).
  exists record. split; [exact Hcat|].
  set (wa := snd (onAddExpense form w)) in *.
  destruct (Storage_removeItem LS_KEY (localStorage wa)) as [ls|e] eqn:R.
  - rewrite (resetState_removed wa R). cbv zeta. cbn [snd].
    destruct (render_fails (DEFAULT wa)); exact Hd.
  - rewrite (resetState_storage_raises wa R). exact Hs.
Qed.

End Sharing.

(** ** Deleting a transaction *)

Section Deleting.

Context {P : Platform}.
Local Open Scope prog_scope.

Lemma js_filter_id_differs (id : value) (l : list value) :
  forallb readable l = true ->
  js_filter (id_differs id) l
  = Returned (filter (fun x => negb (has_id id x)) l).
Proof.
  induction l as [|x l IH]; simpl; intros R; [reflexivity|].
  apply andb_prop in R as [Rx Rl]. rewrite (IH Rl).
  unfold id_differs, has_id.
  destruct x; try discriminate Rx; simpl;
    try reflexivity.
  destruct (assoc "id" props); reflexivity.
Qed.

Lemma filter_keeps_readable (f : value -> bool) (l : list value) :
  forallb readable l = true -> forallb readable (filter f l) = true.
Proof.
  induction l as [|x l IH]; simpl; intros R; [reflexivity|].
  apply andb_prop in R as [Rx Rl].
  destruct (f x); simpl; [rewrite Rx|]; auto.
Qed.

Lemma filter_filter (f : value -> bool) (l : list value) :
  filter f (filter f l) = filter f l.
Proof.
  induction l as [|x l IH]; simpl; [reflexivity|].
  destruct (f x) eqn:E; simpl; [rewrite E, IH|]; auto.
Qed.

Lemma forallb_filter_self (f : value -> bool) (l : list value) :
  forallb f (filter f l) = true.
Proof.
  induction l as [|x l IH]; simpl; [reflexivity|].
  destruct (f x) eqn:E; simpl; [rewrite E|]; auto.
Qed.

(** The end of the handlers that add or delete a transaction. *)
Local Abbreviation autosave ok bad :=
  (renderAll ;;
   saved <- saveState ;;
   if (saved : bool) then markUnsavedChanges ;; showMessage ok success
   else showMessage bad error).

Lemma autosave_keeps_state (ok bad : message) (w : World) :
  state (snd (autosave ok bad w)) = state w.
Proof.
  destruct (autosave_result ok bad w) as (o & w' & E & L & _).
  rewrite E. apply L.
Qed.

Lemma deleteExpense_state (id : value) (w : World) (l : list value) :
  expenses (state w) = VArr l ->
  forallb readable l = true ->
  state (snd (deleteExpense id true w))
  = mkState (expenseCategories (state w)) (incomeCategories (state w))
      (budgets (state w))
      (VArr (filter (fun x => negb (has_id id x)) l))
      (incomes (state w)).
Proof.
  intros Hl R.
  rewrite (deleteExpense_confirmed id w Hl (js_filter_id_differs id l R)).
  rewrite autosave_keeps_state. reflexivity.
Qed.

Lemma deleteIncome_state (id : value) (w : World) (l : list value) :
  incomes (state w) = VArr l ->
  forallb readable l = true ->
  state (snd (deleteIncome id true w))
  = mkState (expenseCategories (state w)) (incomeCategories (state w))
      (budgets (state w)) (expenses (state w))
      (VArr (filter (fun x => negb (has_id id x)) l)).
Proof.
  intros Hl R.
  rewrite (deleteIncome_confirmed id w Hl (js_filter_id_differs id l R)).
  rewrite autosave_keeps_state. reflexivity.
Qed.

(** X7.  A confirmed [deleteExpense] with an identifier that is a
    primitive value, on arrays of transactions none of which is [null]
    or [undefined], keeps exactly the expenses whose [id] is not [===]
    to the argument, in their order: no expense with
    that identifier is left (all of them go, not only the first), the
    other fields of the ledger are as they were, and deleting the same
    identifier again changes nothing.  [deleteIncome] does the same on
    [incomes]. *)
Theorem delete_removes_the_matching_records (w : World) (id : value)
    (l li : list value) :
  primitive id = true ->
  expenses (state w) = VArr l ->
  forallb readable l = true ->
  incomes (state w) = VArr li ->
  forallb readable li = true ->
  (let w' := snd (deleteExpense id true w) in
   expenses (state w') = VArr (filter (fun x => negb (has_id id x)) l)
   /\ (forall kept, expenses (state w') = VArr kept ->
       forallb (fun x => negb (has_id id x)) kept = true)
   /\ incomes (state w') = incomes (state w)
   /\ budgets (state w') = budgets (state w)
   /\ state (snd (deleteExpense id true w')) = state w')
  /\ (let w' := snd (deleteIncome id true w) in
      incomes (state w') = VArr (filter (fun x => negb (has_id id x)) li)
      /\ (forall kept, incomes (state w') = VArr kept ->
          forallb (fun x => negb (has_id id x)) kept = true)
      /\ expenses (state w') = expenses (state w)
      /\ budgets (state w') = budgets (state w)
      /\ state (snd (deleteIncome id true w')) = state w').
Proof.
  intros _ Hl R Hli Ri. split; intros w'.
  - pose proof (deleteExpense_state id w Hl R) as S. fold w' in S.
    assert (E : expenses (state w')
                = VArr (filter (fun x => negb (has_id id x)) l))
      by (rewrite S; reflexivity).
    split; [exact E|].
    split.
    { intros kept K. rewrite E in K. injection K as <-.
      apply forallb_filter_self. }
    split; [rewrite S; reflexivity|].
    split; [rewrite S; reflexivity|].
    rewrite (deleteExpense_state id w' E (filter_keeps_readable _ _ R)).
    rewrite filter_filter, <- E. now destruct (state w').
  - pose proof (deleteIncome_state id w Hli Ri) as S. fold w' in S.
    assert (E : incomes (state w')
                = VArr (filter (fun x => negb (has_id id x)) li))
      by (rewrite S; reflexivity).
    split; [exact E|].
    split.
    { intros kept K. rewrite E in K. injection K as <-.
      apply forallb_filter_self. }
    split; [rewrite S; reflexivity|].
    split; [rewrite S; reflexivity|].
    rewrite (deleteIncome_state id w' E (filter_keeps_readable _ _ Ri)).
    rewrite filter_filter, <- E. now destruct (state w').
Qed.

End Deleting.

(** ** Editing a budget *)

Section Budget.

Context {P : Platform}.
Local Open Scope prog_scope.

Lemma assoc_replace_same (k : string) (v : value)
    (ps : list (string * value)) :
  assoc k ps <> None -> assoc k (replace_prop k v ps) = Some v.
Proof.
  induction ps as [|[k' x] ps IH]; simpl; [congruence|].
  destruct (k =? k')%string eqn:E; simpl.
  - now rewrite String.eqb_refl.
  - rewrite E. exact IH.
Qed.

Lemma assoc_replace_other (k k' : string) (v : value)
    (ps : list (string * value)) :
  k' <> k -> assoc k' (replace_prop k v ps) = assoc k' ps.
Proof.
  intros N. induction ps as [|[k0 x] ps IH]; simpl; [reflexivity|].
  destruct (k =? k0)%string eqn:E; simpl.
  - apply String.eqb_eq in E. subst k0.
    apply String.eqb_neq in N. now rewrite N.
  - now rewrite IH.
Qed.

Lemma assoc_insert_same (n : N) (k : string) (v : value)
    (ps : list (string * value)) :
  assoc k ps = None -> assoc k (insert_index n k v ps) = Some v.
Proof.
  induction ps as [|[k' x] ps IH]; simpl.
  - now rewrite String.eqb_refl.
  - destruct (k =? k')%string eqn:E; [discriminate|]. intros A.
    destruct (array_index k') as [n'|]; [destruct (n' <? n)%N|]; simpl;
      rewrite ?E, ?String.eqb_refl; auto.
Qed.

Lemma assoc_insert_other (n : N) (k k' : string) (v : value)
    (ps : list (string * value)) :
  k' <> k -> assoc k' (insert_index n k v ps) = assoc k' ps.
Proof.
  intros N0. apply String.eqb_neq in N0.
  induction ps as [|[k0 x] ps IH]; simpl.
  - now rewrite N0.
  - destruct (array_index k0) as [n'|]; [destruct (n' <? n)%N|]; simpl;
      rewrite ?N0, ?IH; reflexivity.
Qed.

Lemma assoc_app_same (k : string) (v : value) (ps : list (string * value)) :
  assoc k ps = None -> assoc k (ps ++ [(k, v)]) = Some v.
Proof.
  induction ps as [|[k' x] ps IH]; simpl.
  - now rewrite String.eqb_refl.
  - destruct (k =? k')%string; [discriminate | exact IH].
Qed.

Lemma assoc_app_other (k k' : string) (v : value)
    (ps : list (string * value)) :
  k' <> k -> assoc k' (ps ++ [(k, v)]) = assoc k' ps.
Proof.
  intros N0. apply String.eqb_neq in N0.
  induction ps as [|[k0 x] ps IH]; simpl.
  - now rewrite N0.
  - now rewrite IH.
Qed.

(** Writing a property and reading it back. *)
Lemma assoc_set_own_same (k : string) (v : value)
    (ps : list (string * value)) :
  assoc k (set_own k v ps) = Some v.
Proof.
  unfold set_own. destruct (assoc k ps) eqn:A.
  - apply assoc_replace_same. congruence.
  - destruct (array_index k);
      [now apply assoc_insert_same | now apply assoc_app_same].
Qed.

Lemma assoc_set_own_other (k k' : string) (v : value)
    (ps : list (string * value)) :
  k' <> k -> assoc k' (set_own k v ps) = assoc k' ps.
Proof.
  intros N0. unfold set_own. destruct (assoc k ps).
  - now apply assoc_replace_other.
  - destruct (array_index k);
      [now apply assoc_insert_other | now apply assoc_app_other].
Qed.

(** What the listener leaves after the budget is written: the totals
    are computed and the ledger is saved. *)
Lemma after_budget_write (w : World) :
  let w' := snd ((updateTotals ;; saveState ;; ret tt) w) in
  same_ledger w w'
  /\ (hasUnsavedChanges w' = true -> hasUnsavedChanges w = true).
Proof.
  cbv zeta. destruct (updateTotals_result w) as ([[]|e] & Eu).
  - erewrite bind_returned by exact Eu.
    destruct (saveState_result w) as (b & ws & E & L & Ht & Hf).
    erewrite bind_returned by exact E. cbn [ret snd].
    split; [exact L|]. destruct b.
    + destruct (Ht eq_refl) as (t & ls & _ & _ & _ & _ & _ & U & _).
      rewrite U. discriminate.
    + destruct (Hf eq_refl) as (U & _). now rewrite U.
  - erewrite bind_threw by exact Eu. cbn [snd].
    split; [apply same_ledger_refl | auto].
Qed.

(** X8.  The listener of a budget field, on a ledger whose [budgets] is
    an object, sets the budget of its category to the coerced text of
    the field, whatever the text (nothing is validated: a negative
    number is stored, and a text that is not a number gives 0); the
    budgets of the other categories, the expenses and the incomes are
    as they were; and it never marks the ledger unsaved.  The category
    [__proto__] is left out: it names the accessor of the prototype,
    not a property of the object. *)
Theorem onBudgetInput_sets_the_budget (w : World) (category raw : string)
    (ps : list (string * value)) :
  category <> "__proto__" ->
  budgets (state w) = VObj ps ->
  let w' := snd (onBudgetInput category raw w) in
  get_prop (budgets (state w')) category
  = Returned (VNum (toNumber (VStr raw)))
  /\ (forall k,
        k <> category ->
        get_prop (budgets (state w')) k = get_prop (budgets (state w)) k)
  /\ expenses (state w') = expenses (state w)
  /\ incomes (state w') = incomes (state w)
  /\ (hasUnsavedChanges w' = true -> hasUnsavedChanges w = true).
Proof.
  intros _ Hb w'. subst w'. unfold onBudgetInput. cbv zeta.
  mstep. rewrite Hb. cbn [set_prop]. do 2 mstep.
  set (wb := write_budgets _ w).
  destruct (after_budget_write wb) as [(Ls & _) U].
  cbv zeta in Ls, U. rewrite Ls.
  assert (Hu : hasUnsavedChanges wb = hasUnsavedChanges w) by reflexivity.
  rewrite Hu in U. clear Hu.
  subst wb. unfold write_budgets. cbv zeta.
  cbn [state budgets expenses incomes get_prop].
  split; [now rewrite assoc_set_own_same|].
  split; [intros k Nk; now rewrite (assoc_set_own_other _ _ Nk)|].
  split; [reflexivity|]. split; [reflexivity|].
  exact U.
Qed.

End Budget.

(** ** The reminder *)

Section Reminder.

Context {P : Platform}.
Local Open Scope prog_scope.

Local Abbreviation settled_status w := (Saved w \/ Dirty w).

Lemma Saved_timer_ok (w : World) : Saved w -> timer_ok w.
Proof. unfold timer_ok. intros (_ & _ & ->). exact I. Qed.

Lemma status_timer_ok (w : World) : settled_status w -> timer_ok w.
Proof. intros [H|H]; [now apply Saved_timer_ok | now apply Dirty_timer_ok]. Qed.

Lemma status_same (w w' : World) :
  same_status w w' -> settled_status w -> settled_status w'.
Proof.
  intros (U & R & Pn & _) [(a & b & c)|(a & t & b & c)]; [left|right].
  - repeat split; congruence.
  - split; [congruence|]. exists t. split; congruence.
Qed.

Lemma saveState_status (w : World) :
  settled_status w -> settled_status (snd (saveState w)).
Proof.
  intros H. destruct (saveState_result w) as (b & w' & E & _ & Ht & Hf).
  rewrite E. cbn [snd]. destruct b.
  - destruct (Ht eq_refl) as (t & ls & _ & _ & _ & _ & _ & U & R & Pn).
    left. repeat split; auto. apply Pn. now apply status_timer_ok.
  - exact (status_same (Hf eq_refl) H).
Qed.

Local Abbreviation autosave ok bad :=
  (renderAll ;;
   saved <- saveState ;;
   if (saved : bool) then markUnsavedChanges ;; showMessage ok success
   else showMessage bad error).

Lemma autosave_status (ok bad : message) (w : World) :
  settled_status w -> settled_status (snd (autosave ok bad w)).
Proof.
  intros H.
  destruct (autosave_result ok bad w) as (o & w' & E & _ & Hfail & Hok).
  rewrite E. cbn [snd].
  destruct (render_fails (state w)).
  - now destruct (Hfail eq_refl) as (_ & ->).
  - destruct (Hok eq_refl) as (_ & b & ws & _ & Htrue & Hfalse).
    destruct b.
    + right. now destruct (Htrue eq_refl).
    + apply status_same with w; [|exact H].
      now destruct (Hfalse eq_refl).
Qed.

(** Every operation leaves the status Saved or Dirty. *)
Lemma run_status (op : operation) (w : World) :
  settled_status w -> settled_status (snd (run op w)).
Proof.
  intros H.
  destruct (adds_or_deletes op) eqn:Hop.
  - destruct (adds_or_deletes_cases op w Hop)
      as [(m & E) | [E | [(e & wm & E & _ & S)
                         | (wm & ok & bad & E & _ & S)]]];
      rewrite E; cbn [snd]; auto.
    + exact (status_same S H).
    + apply autosave_status. exact (status_same S H).
  - destruct op as [| | | |category raw| |[|]]; try discriminate Hop;
      cbn [run].
    + unfold onBudgetInput. cbv zeta. mstep.
      destruct (set_prop (budgets (state w)) category
                  (VNum (toNumber (VStr raw)))) as [b|e]; mstep; [|exact H].
      mstep.
      destruct (updateTotals_result (write_budgets b w)) as ([[]|e] & Eu).
      * erewrite bind_returned by exact Eu.
        assert (Hb : settled_status (write_budgets b w)) by exact H.
        pose proof (saveState_status Hb) as Hsv.
        unfold bind. destruct (saveState (write_budgets b w)) as [[r|e] w'];
          exact Hsv.
      * erewrite bind_threw by exact Eu. exact H.
    + unfold onSaveClick, bind.
      pose proof (saveState_status H) as Hsv.
      destruct (saveState w) as [[[|]|e] w']; exact Hsv.
    + destruct (Storage_removeItem LS_KEY (localStorage w)) as [ls|e] eqn:R.
      * rewrite (resetState_removed w R). cbv zeta.
        destruct (render_fails (DEFAULT w)); exact H.
      * rewrite (resetState_storage_raises w R). exact H.
    + exact H.
Qed.

Lemma loadState_same_status (w : World) :
  same_status w (snd (loadState w)).
Proof.
  destruct (Storage_getItem LS_KEY (localStorage w)) as [[[doc|s]|]|e] eqn:G.
  - destruct (truthy doc && typeof_object doc) eqn:Hd.
    + destruct (truthy_object_cases doc Hd) as [[l ->]|[ps ->]].
      * rewrite (loadState_array w G). repeat split.
      * rewrite (loadState_object w G). repeat split.
    + rewrite (loadState_primitive w Hd G). repeat split.
  - destruct (String.eqb_spec s "") as [->|Hs].
    + rewrite (loadState_empty_string w G). repeat split.
    + rewrite (loadState_malformed w Hs G). repeat split.
  - rewrite (loadState_nothing w G). repeat split.
  - rewrite (loadState_storage_raises w G). repeat split.
Qed.

(** Answering yes to the reminder: [saveState] is called and, whatever
    it returns, the changes are marked saved and the message is shown. *)
Lemma showReminder_yes (w : World) :
  timer_ok w ->
  exists ws w',
    snd (saveState w) = ws
    /\ showReminder true w = (Returned tt, w')
    /\ Saved w'
    /\ same_ledger w w'
    /\ localStorage w' = localStorage ws
    /\ alerts w' = (alerts ws ++ [(MsgReminderSaved, success)])%list.
Proof.
  intros Tk. exists (snd (saveState w)).
  pose proof (saveState_timer_ok w Tk) as Tk'.
  destruct (saveState_result w) as (b & ws & E & L & _).
  rewrite E in Tk' |- *. cbn [snd] in *.
  destruct (markSavedChanges_result ws) as (wm & Em & Lm & Sm & Am & U & R & Pn).
  exists (add_alert MsgReminderSaved success wm).
  split; [reflexivity|]. split.
  - unfold showReminder. erewrite bind_returned by exact E.
    erewrite bind_returned by exact Em. reflexivity.
  - split; [repeat split; auto|].
    split; [exact (same_ledger_trans L Lm)|].
    split; [exact Sm|]. cbn [alerts add_alert]. now rewrite Am.
Qed.

(** Answering no: the reminder is armed again with a new timeout. *)
Lemma showReminder_no (w : World) :
  exists t,
    showReminder false w
    = (Returned tt, set_timer (Some t) (Some t) t w)
    /\ t = Pos.succ (lastTimerId w).
Proof.
  exists (Pos.succ (lastTimerId w)). split; [|reflexivity].
  unfold showReminder, startReminderTimer, clearReminderTimer.
  rewrite bind_modify. unfold modify.
  destruct (reminderTimer w); reflexivity.
Qed.

Lemma onReminderTimeout_status (answer : bool) (w : World) :
  settled_status w -> settled_status (snd (onReminderTimeout answer w)).
Proof.
  intros H. unfold onReminderTimeout. mstep.
  destruct H as [(U & R & Pn)|(U & t & R & Pn)].
  - rewrite Pn. left. repeat split; assumption.
  - rewrite Pn. do 2 mstep. cbn [hasUnsavedChanges set_timer]. rewrite U.
    set (w1 := set_timer (reminderTimer w) None (lastTimerId w) w).
    destruct answer.
    + destruct (showReminder_yes w1 I) as (ws & w' & _ & E & S & _).
      rewrite E. now left.
    + destruct (showReminder_no w1) as (t' & E & _). rewrite E.
      right. split; [exact U|]. exists t'. split; reflexivity.
Qed.

(** X9.  An answer of yes to the reminder marks the changes saved and
    shows that the ledger is saved whether or not it is: [saveState] is
    called, its result is not looked at, and whatever it returned the
    status is Saved, the ledger is as it was, and the last message shown
    is the one of success.  In particular, when the storage refuses the
    write, the storage holds what it held, a message of failure is
    followed by the message of success, and no reminder is left. *)
Theorem showReminder_reports_saved_whatever_the_save (w : World) :
  timer_ok w ->
  exists w',
    showReminder true w = (Returned tt, w')
    /\ Saved w'
    /\ same_ledger w w'
    /\ (exists shown,
          alerts w' = (shown ++ [(MsgReminderSaved, success)])%list)
    /\ (forall (t : text) (e : exn),
          JSON_stringify (state_object (state w)) = Some t ->
          text_truthy t = true ->
          text_eqb t (JsonText (VObj [])) = false ->
          Storage_setItem LS_KEY t (localStorage w) = Threw e ->
          localStorage w' = localStorage w
          /\ alerts w'
             = (alerts w ++ [(MsgSaveFailed, error);
                             (MsgReminderSaved, success)])%list).
Proof.
  intros Tk.
  destruct (showReminder_yes w Tk) as (ws & w' & Es & E & S & L & Hl & Ha).
  exists w'. split; [exact E|]. split; [exact S|]. split; [exact L|].
  split; [eauto|].
  intros t e Hj Ht Hn Hset.
  assert (Hs : saveState w
               = (Returned false, add_alert MsgSaveFailed error w)).
  { unfold saveState. erewrite try_catch_threw.
    2:{ mstep. rewrite Hj, Ht, Hn. cbn [negb orb].
        erewrite bind_threw
          by (unfold localStorage_setItem; rewrite Hset; reflexivity).
        reflexivity. }
    reflexivity. }
  rewrite Hs in Es. cbn [snd] in Es. subst ws.
  split; [exact Hl|]. rewrite Ha. cbn [alerts add_alert].
  now rewrite <- app_assoc.
Qed.

(** X10.  In every world the page reaches, by operations, by loading
    and by the reminder expiring and being answered, the status is Saved
    or Dirty: changes are marked unsaved exactly when a reminder is
    pending, and the pending timeout is the one [reminderTimer] names.
    So the test of [hasUnsavedChanges] in the callback of the timeout
    never fails, and a timeout that expires always asks. *)
Theorem status_is_saved_or_dirty (ls : storage) (w : World) :
  reachable ls w ->
  (Saved w \/ Dirty w)
  /\ (forall t, pendingTimeout w = Some t -> hasUnsavedChanges w = true)
  /\ (hasUnsavedChanges w = true -> pendingTimeout w <> None).
Proof.
  intros H.
  assert (S : settled_status w).
  { induction H as [|w ev _ IH].
    - left. repeat split.
    - destruct ev as [op| |answer]; cbn [happen].
      + now apply run_status.
      + unfold bind. pose proof (loadState_same_status w) as Sl.
        destruct (loadState w) as [[b|e] w']; exact (status_same Sl IH).
      + now apply onReminderTimeout_status. }
  split; [exact S|].
  destruct S as [(U & R & Pn)|(U & t & R & Pn)]; rewrite Pn, U; split;
    congruence.
Qed.

End Reminder.

(** ** Changes that are made and not saved *)

Section Unsaved.

Context {P : Platform}.
Local Open Scope prog_scope.

Local Abbreviation autosave ok bad :=
  (renderAll ;;
   saved <- saveState ;;
   if (saved : bool) then markUnsavedChanges ;; showMessage ok success
   else showMessage bad error).

(** How a handler that adds or deletes ends: it rejects its input, it
    does nothing, it raises before rendering, or it renders and saves. *)
Lemma adds_or_deletes_outcomes (op : operation) (w : World) :
  adds_or_deletes op = true ->
  (exists m,
     run op w = (Returned tt, add_alert m error w)
     /\ not_saved_message m = false)
  \/ run op w = (Returned tt, w)
  \/ (exists e wm,
        run op w = (Threw e, wm)
        /\ alerts wm = alerts w /\ same_status w wm
        /\ localStorage wm = localStorage w)
  \/ (exists wm ok bad,
        run op w = autosave ok bad wm
        /\ alerts wm = alerts w /\ same_status w wm
        /\ localStorage wm = localStorage w
        /\ not_saved_message bad = true).
Proof.
  destruct op as [form|form|id c|id c| | |]; try discriminate; intros _;
    cbn [run].
  - unfold onAddExpense.
    destruct (truthy (field_value (expenseCategory form))); cbv [negb];
      [|left; eexists; repeat split].
    cbv zeta.
    destruct (Num.leb _ _); [left; eexists; repeat split|].
    right. right.
    erewrite bind_returned by apply generateId_eq.
    erewrite bind_returned by apply new_Date_toISOString_eq.
    mstep. cbn [state set_counters].
    destruct (as_array (expenses (state w))) as [l|e] eqn:Hl.
    2:{ left. destruct (expenses (state w)); try discriminate Hl;
          injection Hl as <-; mstep; eexists _, _; repeat split. }
    do 2 mstep.
    destruct (expenseDesc form); cbn [clear_field];
      [mstep | left; mstep; eexists _, _; repeat split].
    destruct (expenseAmount form); cbn [clear_field];
      [mstep | left; mstep; eexists _, _; repeat split].
    right. eexists _, _, _; repeat split.
  - unfold onAddIncome.
    destruct (truthy (field_value (incomeSource form))); cbv [negb];
      [|left; eexists; repeat split].
    cbv zeta.
    destruct (Num.leb _ _); [left; eexists; repeat split|].
    right. right.
    erewrite bind_returned by apply generateId_eq.
    erewrite bind_returned by apply new_Date_toISOString_eq.
    mstep. cbn [state set_counters].
    destruct (as_array (incomes (state w))) as [l|e] eqn:Hl.
    2:{ left. destruct (incomes (state w)); try discriminate Hl;
          injection Hl as <-; mstep; eexists _, _; repeat split. }
    do 2 mstep.
    destruct (incomeAmount form); cbn [clear_field];
      [mstep | left; mstep; eexists _, _; repeat split].
    right. eexists _, _, _; repeat split.
  - unfold deleteExpense. destruct c; [|right; left; reflexivity].
    right. right. mstep.
    destruct (as_array (expenses (state w))) as [l|e] eqn:Hl.
    2:{ left. destruct (expenses (state w)); try discriminate Hl;
          injection Hl as <-; mstep; eexists _, _; repeat split. }
    mstep.
    destruct (js_filter (id_differs id) l) as [kept|e] eqn:Hk.
    2:{ left. mstep. eexists _, _; repeat split. }
    do 2 mstep. right. eexists _, _, _; repeat split.
  - unfold deleteIncome. destruct c; [|right; left; reflexivity].
    right. right. mstep.
    destruct (as_array (incomes (state w))) as [l|e] eqn:Hl.
    2:{ left. destruct (incomes (state w)); try discriminate Hl;
          injection Hl as <-; mstep; eexists _, _; repeat split. }
    mstep.
    destruct (js_filter (id_differs id) l) as [kept|e] eqn:Hk.
    2:{ left. mstep. eexists _, _; repeat split. }
    do 2 mstep. right. eexists _, _, _; repeat split.
Qed.

Lemma not_a_suffix {A} (l r : list A) (x : A) : l <> (l ++ r ++ [x])%list.
Proof.
  intros E. apply (f_equal (@List.length A)) in E.
  rewrite !length_app in E. simpl in E. lia.
Qed.

(** X11.  When a handler that adds or deletes a transaction ends by
    showing that the change could not be saved, it has returned
    normally and the persistence status is what it was before the
    change: nothing is marked unsaved and no reminder is armed for it.
    From a Saved status the page stays Saved. *)
Theorem unsaved_change_is_not_marked (op : operation) (w w' : World)
    (o : outcome unit) (m : message)
    (shown : list (message * message_type)) :
  adds_or_deletes op = true ->
  run op w = (o, w') ->
  alerts w' = (alerts w ++ shown ++ [(m, error)])%list ->
  not_saved_message m = true ->
  o = Returned tt
  /\ same_status w w'
  /\ (Saved w -> Saved w').
Proof.
  intros Hop E Ha Hm.
  assert (G : o = Returned tt /\ same_status w w').
  { destruct (adds_or_deletes_outcomes op w Hop)
      as [(m' & E' & N) | [E' | [(e & wm & E' & A & _)
                         | (wm & ok & bad & E' & A & S & _)]]];
      rewrite E in E'.
    - injection E' as -> ->. cbn [alerts add_alert] in Ha.
      apply app_inv_head in Ha.
      destruct shown as [|x [|y s]]; try discriminate Ha.
      injection Ha as <-. congruence.
    - injection E' as -> ->. now apply not_a_suffix in Ha.
    - injection E' as -> ->. rewrite A in Ha. now apply not_a_suffix in Ha.
    - destruct (autosave_result ok bad wm) as (o' & w'' & E'' & _ & Hf & Hk).
      rewrite E'' in E'. injection E' as -> ->.
      destruct (render_fails (state wm)).
      + destruct (Hf eq_refl) as (_ & ->). rewrite A in Ha.
        now apply not_a_suffix in Ha.
      + destruct (Hk eq_refl) as (-> & b & ws & Es & Ht & Hb).
        destruct b.
        * destruct (Ht eq_refl) as (_ & _ & Ha'). rewrite Ha', A in Ha.
          apply app_inv_head in Ha.
          assert (Hl : last [(ok, success)] (m, error)
                       = last (shown ++ [(m, error)]) (m, error))
            by now rewrite Ha.
          rewrite last_last in Hl. discriminate Hl.
        * destruct (Hb eq_refl) as (S' & _). split; [reflexivity|].
          destruct S as (a & b & c & d). destruct S' as (a' & b' & c' & d').
          repeat split; congruence. }
  destruct G as [Go Gs]. split; [exact Go|]. split; [exact Gs|].
  intros (U & R & Pn). destruct Gs as (a & b & c & _).
  repeat split; congruence.
Qed.

(** X12.  The description field is read with [?.] but cleared without:
    when that element is missing from the page, a valid expense is
    pushed, with the default description, and then the handler raises.
    The ledger holds the record (and so does the array of [DEFAULT]
    while it is shared), but nothing is rendered, saved, marked or
    shown.  A missing amount field never gets that far: its amount is 0
    and the input is rejected. *)
Theorem missing_description_field_loses_the_save (form : ExpenseForm)
    (w : World) (c : string) (l : list value) :
  expenseCategory form = Some c ->
  c <> "" ->
  expenses (state w) = VArr l ->
  (expenseDesc form = None ->
   Num.ltb Num.pzero (toNumber (field_value (expenseAmount form))) = true ->
   exists record w',
     onAddExpense form w = (Threw TypeError, w')
     /\ expenses (state w') = VArr (l ++ [record])
     /\ get_prop record "desc" = Returned (VStr "Ingen beskrivning")
     /\ (shares_expenses w = true -> expenses (DEFAULT w') = VArr (l ++ [record]))
     /\ localStorage w' = localStorage w
     /\ alerts w' = alerts w
     /\ same_status w w')
  /\ (expenseAmount form = None ->
      onAddExpense form w
      = (Returned tt, add_alert MsgInvalidAmount error w)).
Proof.
  intros Hc Hne Hl. split.
  - intros Hd Ha.
    pose proof (onAddExpense_valid form w Hc Hne (positive_not_leb _ Ha) Hl)
      as E. cbv zeta in E. rewrite Hd in E.
    eexists _, _. split; [exact E|].
    unfold write_expenses. cbv zeta.
    cbn [state expenses DEFAULT DEFAULT_expenses set_counters
         shares_expenses localStorage alerts get_prop assoc String.eqb
         Ascii.eqb Bool.eqb option_map field_value js_or truthy].
    split; [reflexivity|]. split; [reflexivity|].
    split; [intros ->; reflexivity|]. repeat split.
  - intros Hn. unfold onAddExpense. rewrite Hc, Hn. cbv zeta.
    assert (T : truthy (field_value (Some c)) = true).
    { simpl. apply Bool.negb_true_iff, String.eqb_neq. exact Hne. }
    rewrite T. cbv [negb]. reflexivity.
Qed.

End Unsaved.

(** ** What the operations keep *)

Section Counters.

Context {P : Platform}.
Local Open Scope prog_scope.

Local Abbreviation autosave ok bad :=
  (renderAll ;;
   saved <- saveState ;;
   if (saved : bool) then markUnsavedChanges ;; showMessage ok success
   else showMessage bad error).

Lemma same_counters_refl (w : World) : same_counters w w.
Proof. split; reflexivity. Qed.

Lemma same_counters_trans (w1 w2 w3 : World) :
  same_counters w1 w2 -> same_counters w2 w3 -> same_counters w1 w3.
Proof. intros [a b] [c d]. split; congruence. Qed.

Lemma markSavedChanges_counters (w : World) :
  same_counters w (snd (markSavedChanges w)).
Proof.
  unfold markSavedChanges, clearReminderTimer, bind, modify. simpl.
  destruct (reminderTimer w); split; reflexivity.
Qed.

Lemma markUnsavedChanges_counters (w : World) :
  same_counters w (snd (markUnsavedChanges w)).
Proof.
  unfold markUnsavedChanges, startReminderTimer, clearReminderTimer, bind,
    modify. simpl.
  destruct (reminderTimer w); split; reflexivity.
Qed.

(** Only [generateId] and [new Date()] read the clock and draw random
    numbers: saving does not. *)
Lemma saveState_counters (w : World) :
  same_counters w (snd (saveState w)).
Proof.
  unfold saveState, try_catch, bind, gets. cbv beta iota.
  destruct (JSON_stringify (state_object (state w))) as [t|];
    [|split; reflexivity].
  destruct (negb (text_truthy t) || text_eqb t (JsonText (VObj [])));
    [split; reflexivity|].
  unfold localStorage_setItem at 1.
  destruct (Storage_setItem LS_KEY t (localStorage w)) as [ls|e];
    [|split; reflexivity].
  unfold localStorage_getItem at 1. cbv beta iota.
  destruct (Storage_getItem LS_KEY (localStorage (set_localStorage ls w)))
    as [[v|]|e]; try (split; reflexivity).
  destruct (text_eqb v t); [|split; reflexivity].
  pose proof (markSavedChanges_counters (set_localStorage ls w)) as C.
  destruct (markSavedChanges (set_localStorage ls w)) as [[[]|e] w'];
    exact C.
Qed.

Lemma autosave_counters (ok bad : message) (w : World) :
  same_counters w (snd (autosave ok bad w)).
Proof.
  unfold bind at 1. unfold renderAll, bind at 1, gets. cbv beta iota.
  destruct (render_fails (state w)); [apply same_counters_refl|].
  unfold ret at 1. cbv beta iota. unfold bind at 1.
  pose proof (saveState_counters w) as C.
  destruct (saveState w) as [[[|]|e] ws]; cbn [snd] in C.
  - unfold bind.
    pose proof (markUnsavedChanges_counters ws) as C'.
    destruct (markUnsavedChanges ws) as [[[]|e] wm]; cbn [snd] in C' |- *.
    + exact (same_counters_trans C C').
    + exact (same_counters_trans C C').
  - exact C.
  - exact C.
Qed.

End Counters.

Section Kept.

Context {P : Platform}.
Local Open Scope prog_scope.

(** What the transactions satisfy, [Q], holds of objects only; what the
    budgets satisfy, [B], holds of objects only, and still holds when a
    number is written into one. *)
Variables Q B : value -> bool.
Hypothesis Q_object : forall x, Q x = true -> is_object x = true.
Hypothesis B_object : forall v, B v = true -> is_object v = true.
Hypothesis B_written :
  forall k n ps,
    B (VObj ps) = true -> B (VObj (set_own k (VNum n) ps)) = true.

Local Abbreviation autosave ok bad :=
  (renderAll ;;
   saved <- saveState ;;
   if (saved : bool) then markUnsavedChanges ;; showMessage ok success
   else showMessage bad error).

(** [Q] holds of the record that a handler pushes in [w]: an object with
    the identifier made in [w] and an amount above 0. *)
Local Abbreviation pushes w :=
  (forall ps a,
      assoc "id" ps
      = Some (VStr (identifier (clockReads w) (randomDraws w))) ->
      assoc "amount" ps = Some (VNum a) ->
      Num.ltb Num.pzero a = true ->
      Q (VObj ps) = true).

Lemma ledger_with_fields (st : State) :
  ledger_with Q B st = true
  <-> array_of Q (expenses st) = true
      /\ array_of Q (incomes st) = true
      /\ B (budgets st) = true.
Proof.
  unfold ledger_with. rewrite !Bool.andb_true_iff. tauto.
Qed.

Lemma array_of_array (v : value) :
  array_of Q v = true -> exists l, v = VArr l /\ forallb Q l = true.
Proof. destruct v; try discriminate. eauto. Qed.

Lemma all_readable (l : list value) :
  forallb Q l = true -> forallb readable l = true.
Proof.
  induction l as [|x l IH]; simpl; [reflexivity|].
  intros H. apply andb_prop in H as [Hx Hl]. rewrite (IH Hl).
  apply Q_object in Hx. now destruct x.
Qed.

Lemma all_snoc (l : list value) (x : value) :
  forallb Q l = true -> Q x = true -> forallb Q (l ++ [x]) = true.
Proof. intros H Hx. rewrite forallb_app, H. simpl. now rewrite Hx. Qed.

Lemma all_filter (f : value -> bool) (l : list value) :
  forallb Q l = true -> forallb Q (filter f l) = true.
Proof.
  induction l as [|x l IH]; simpl; intros R; [reflexivity|].
  apply andb_prop in R as [Rx Rl].
  destruct (f x); simpl; [rewrite Rx|]; auto.
Qed.

Lemma holds_same_ledger (w w' : World) :
  same_ledger w w' -> holds_with Q B w -> holds_with Q B w'.
Proof.
  unfold holds_with. intros (S & D & _) [H1 H2]. now rewrite S, D.
Qed.

Lemma holds_write_expenses (v : value) (w : World) :
  array_of Q v = true ->
  holds_with Q B w -> holds_with Q B (write_expenses v w).
Proof.
  intros Hv [H1 H2]. apply ledger_with_fields in H1 as (_ & i & b).
  apply ledger_with_fields in H2 as (e' & i' & b').
  split; apply ledger_with_fields; unfold write_expenses; cbv zeta;
    cbn [state DEFAULT expenses incomes budgets DEFAULT_expenses
         DEFAULT_incomes DEFAULT_budgets]; repeat split; auto.
  now destruct (shares_expenses w).
Qed.

Lemma holds_write_incomes (v : value) (w : World) :
  array_of Q v = true ->
  holds_with Q B w -> holds_with Q B (write_incomes v w).
Proof.
  intros Hv [H1 H2]. apply ledger_with_fields in H1 as (e & _ & b).
  apply ledger_with_fields in H2 as (e' & i' & b').
  split; apply ledger_with_fields; unfold write_incomes; cbv zeta;
    cbn [state DEFAULT expenses incomes budgets DEFAULT_expenses
         DEFAULT_incomes DEFAULT_budgets]; repeat split; auto.
  now destruct (shares_incomes w).
Qed.

Lemma holds_write_budgets (v : value) (w : World) :
  B v = true -> holds_with Q B w -> holds_with Q B (write_budgets v w).
Proof.
  intros Hv [H1 H2]. apply ledger_with_fields in H1 as (e & i & _).
  apply ledger_with_fields in H2 as (e' & i' & b').
  split; apply ledger_with_fields; unfold write_budgets; cbv zeta;
    cbn [state DEFAULT expenses incomes budgets DEFAULT_expenses
         DEFAULT_incomes DEFAULT_budgets]; repeat split; auto.
  now destruct (shares_budgets w).
Qed.

Lemma holds_assign_expenses (v : value) (w : World) :
  array_of Q v = true ->
  holds_with Q B w -> holds_with Q B (assign_expenses v w).
Proof.
  intros Hv [H1 H2]. apply ledger_with_fields in H1 as (_ & i & b).
  split; [|exact H2]. apply ledger_with_fields. repeat split; auto.
Qed.

Lemma holds_assign_incomes (v : value) (w : World) :
  array_of Q v = true ->
  holds_with Q B w -> holds_with Q B (assign_incomes v w).
Proof.
  intros Hv [H1 H2]. apply ledger_with_fields in H1 as (e & _ & b).
  split; [|exact H2]. apply ledger_with_fields. repeat split; auto.
Qed.

Lemma autosave_holds (ok bad : message) (w : World) :
  holds_with Q B w -> holds_with Q B (snd (autosave ok bad w)).
Proof.
  apply holds_same_ledger.
  destruct (autosave_result ok bad w) as (o & w' & E & L & _).
  rewrite E. exact L.
Qed.

Lemma saveState_holds (w : World) :
  holds_with Q B w -> holds_with Q B (snd (saveState w)).
Proof.
  apply holds_same_ledger.
  destruct (saveState_result w) as (b & w' & E & L & _). rewrite E. exact L.
Qed.

Lemma accepted_expense (form : ExpenseForm) :
  accepted (AddExpense form) = true
  <-> truthy (field_value (expenseCategory form)) = true
      /\ Num.leb (toNumber (field_value (expenseAmount form))) Num.pzero
         = false.
Proof.
  cbn [accepted]. rewrite Bool.andb_true_iff, Bool.negb_true_iff. tauto.
Qed.

Lemma accepted_income (form : IncomeForm) :
  accepted (AddIncome form) = true
  <-> truthy (field_value (incomeSource form)) = true
      /\ Num.leb (toNumber (field_value (incomeAmount form))) Num.pzero
         = false.
Proof.
  cbn [accepted]. rewrite Bool.andb_true_iff, Bool.negb_true_iff. tauto.
Qed.

(** A handler that adds an expense: what it keeps, and how many times
    it reads the clock and draws. *)
Lemma onAddExpense_holds (form : ExpenseForm) (w : World) :
  holds_with Q B w ->
  (accepted (AddExpense form) = true -> pushes w) ->
  let w' := snd (onAddExpense form w) in
  holds_with Q B w'
  /\ (accepted (AddExpense form) = true ->
      clockReads w' = S (S (clockReads w))
      /\ randomDraws w' = S (randomDraws w))
  /\ (accepted (AddExpense form) = false -> same_counters w w').
Proof.
  intros H Hp w'. subst w'.
  destruct (truthy (field_value (expenseCategory form))) eqn:T.
  2:{ assert (N : accepted (AddExpense form) = false)
        by (cbn [accepted]; now rewrite T).
      rewrite N. unfold onAddExpense. rewrite T.
      split; [exact H|]. split; [discriminate | intros _; split; reflexivity]. }
  destruct (Num.leb (toNumber (field_value (expenseAmount form)))
              Num.pzero) eqn:A.
  { assert (N : accepted (AddExpense form) = false)
      by (cbn [accepted]; now rewrite T, A).
    rewrite N. unfold onAddExpense. rewrite T. cbv zeta. rewrite A.
    split; [exact H|]. split; [discriminate | intros _; split; reflexivity]. }
  assert (Y : accepted (AddExpense form) = true)
    by (apply accepted_expense; auto).
  rewrite Y. specialize (Hp Y).
  destruct (truthy_field_true _ T) as (c & Hc & Hne).
  destruct H as [H1 H2]. pose proof H1 as H1'.
  apply ledger_with_fields in H1' as (e & _).
  apply array_of_array in e as (l & Hl & Ho).
  rewrite (onAddExpense_valid form w Hc Hne A Hl).
  match goal with |- context [write_expenses ?v ?w0] =>
    assert (Hs : holds_with Q B (write_expenses v w0))
  end.
  { apply holds_write_expenses; [|split; assumption].
    apply all_snoc; [exact Ho|].
    eapply Hp; [reflexivity | reflexivity |].
    now apply toNumber_above_zero. }
  match goal with |- context [write_expenses ?v ?w0] =>
    assert (C : clockReads (write_expenses v w0) = S (S (clockReads w))
                /\ randomDraws (write_expenses v w0) = S (randomDraws w))
      by (split; reflexivity)
  end.
  destruct (expenseDesc form);
    [|split; [exact Hs|]; split; [intros _; exact C | discriminate]].
  destruct (expenseAmount form);
    [|split; [exact Hs|]; split; [intros _; exact C | discriminate]].
  split; [now apply autosave_holds|]. split; [|discriminate].
  intros _.
  match goal with |- context [snd (?f ?wm)] =>
    destruct (autosave_counters
                (MsgExpenseAdded (toNumber (field_value (Some s0))) (VStr c))
                MsgExpenseNotSaved wm) as [Ca Cb]
  end.
  rewrite Ca, Cb. exact C.
Qed.

Lemma onAddIncome_holds (form : IncomeForm) (w : World) :
  holds_with Q B w ->
  (accepted (AddIncome form) = true -> pushes w) ->
  let w' := snd (onAddIncome form w) in
  holds_with Q B w'
  /\ (accepted (AddIncome form) = true ->
      clockReads w' = S (S (clockReads w))
      /\ randomDraws w' = S (randomDraws w))
  /\ (accepted (AddIncome form) = false -> same_counters w w').
Proof.
  intros H Hp w'. subst w'.
  destruct (truthy (field_value (incomeSource form))) eqn:T.
  2:{ assert (N : accepted (AddIncome form) = false)
        by (cbn [accepted]; now rewrite T).
      rewrite N. unfold onAddIncome. rewrite T.
      split; [exact H|]. split; [discriminate | intros _; split; reflexivity]. }
  destruct (Num.leb (toNumber (field_value (incomeAmount form)))
              Num.pzero) eqn:A.
  { assert (N : accepted (AddIncome form) = false)
      by (cbn [accepted]; now rewrite T, A).
    rewrite N. unfold onAddIncome. rewrite T. cbv zeta. rewrite A.
    split; [exact H|]. split; [discriminate | intros _; split; reflexivity]. }
  assert (Y : accepted (AddIncome form) = true)
    by (apply accepted_income; auto).
  rewrite Y. specialize (Hp Y).
  destruct (truthy_field_true _ T) as (c & Hc & Hne).
  destruct H as [H1 H2]. pose proof H1 as H1'.
  apply ledger_with_fields in H1' as (_ & i & _).
  apply array_of_array in i as (l & Hl & Ho).
  rewrite (onAddIncome_valid form w Hc Hne A Hl).
  match goal with |- context [write_incomes ?v ?w0] =>
    assert (Hs : holds_with Q B (write_incomes v w0))
  end.
  { apply holds_write_incomes; [|split; assumption].
    apply all_snoc; [exact Ho|].
    eapply Hp; [reflexivity | reflexivity |].
    now apply toNumber_above_zero. }
  match goal with |- context [write_incomes ?v ?w0] =>
    assert (C : clockReads (write_incomes v w0) = S (S (clockReads w))
                /\ randomDraws (write_incomes v w0) = S (randomDraws w))
      by (split; reflexivity)
  end.
  destruct (incomeAmount form);
    [|split; [exact Hs|]; split; [intros _; exact C | discriminate]].
  split; [now apply autosave_holds|]. split; [|discriminate].
  intros _.
  match goal with |- context [snd (?f ?wm)] =>
    destruct (autosave_counters
                (MsgIncomeAdded (toNumber (field_value (Some s))) (VStr c))
                MsgIncomeNotSaved wm) as [Ca Cb]
  end.
  rewrite Ca, Cb. exact C.
Qed.

Lemma deleteExpense_holds (id : value) (confirmed : bool) (w : World) :
  holds_with Q B w ->
  holds_with Q B (snd (deleteExpense id confirmed w))
  /\ same_counters w (snd (deleteExpense id confirmed w)).
Proof.
  intros H. destruct confirmed; [|split; [exact H | split; reflexivity]].
  pose proof H as [H1 _].
  apply ledger_with_fields in H1 as (e & _).
  apply array_of_array in e as (l & Hl & Ho).
  rewrite (deleteExpense_confirmed id w Hl
             (js_filter_id_differs id l (all_readable l Ho))).
  split.
  - apply autosave_holds, holds_assign_expenses; [|exact H].
    now apply all_filter.
  - match goal with |- context [snd (?f ?wm)] =>
      destruct (autosave_counters MsgExpenseDeleted
                  MsgExpenseDeletedNotSaved wm) as [Ca Cb]
    end.
    split; [rewrite Ca | rewrite Cb]; reflexivity.
Qed.

Lemma deleteIncome_holds (id : value) (confirmed : bool) (w : World) :
  holds_with Q B w ->
  holds_with Q B (snd (deleteIncome id confirmed w))
  /\ same_counters w (snd (deleteIncome id confirmed w)).
Proof.
  intros H. destruct confirmed; [|split; [exact H | split; reflexivity]].
  pose proof H as [H1 _].
  apply ledger_with_fields in H1 as (_ & i & _).
  apply array_of_array in i as (l & Hl & Ho).
  rewrite (deleteIncome_confirmed id w Hl
             (js_filter_id_differs id l (all_readable l Ho))).
  split.
  - apply autosave_holds, holds_assign_incomes; [|exact H].
    now apply all_filter.
  - match goal with |- context [snd (?f ?wm)] =>
      destruct (autosave_counters MsgIncomeDeleted
                  MsgIncomeDeletedNotSaved wm) as [Ca Cb]
    end.
    split; [rewrite Ca | rewrite Cb]; reflexivity.
Qed.

Lemma onBudgetInput_holds (category raw : string) (w : World) :
  holds_with Q B w ->
  holds_with Q B (snd (onBudgetInput category raw w))
  /\ same_counters w (snd (onBudgetInput category raw w)).
Proof.
  intros H. pose proof H as [H1 _].
  apply ledger_with_fields in H1 as (_ & _ & b).
  pose proof (B_object b) as bo.
  destruct (budgets (state w)) as [| | | | | |ps] eqn:Hb; try discriminate bo.
  unfold onBudgetInput. cbv zeta. mstep. rewrite Hb. cbn [set_prop].
  do 2 mstep.
  match goal with |- context [write_budgets ?v w] =>
    assert (S : holds_with Q B (write_budgets v w))
      by (apply holds_write_budgets; [now apply B_written | exact H]);
    set (wb := write_budgets v w) in *
  end.
  assert (Cb : same_counters w wb) by (split; reflexivity).
  destruct (updateTotals_result wb) as ([[]|e] & Eu).
  - erewrite bind_returned by exact Eu.
    pose proof (saveState_holds S) as Ss.
    pose proof (saveState_counters wb) as Cs.
    unfold bind. destruct (saveState wb) as [[r|e] ws]; cbn [snd] in *;
      (split; [exact Ss | exact (same_counters_trans Cb Cs)]).
  - erewrite bind_threw by exact Eu. cbn [snd]. split; assumption.
Qed.

Lemma onSaveClick_holds (w : World) :
  holds_with Q B w ->
  holds_with Q B (snd (onSaveClick w))
  /\ same_counters w (snd (onSaveClick w)).
Proof.
  intros H. pose proof (saveState_holds H) as Ss.
  pose proof (saveState_counters w) as Cs.
  unfold onSaveClick, bind.
  destruct (saveState w) as [[[|]|e] ws]; cbn [snd] in *;
    (split; [exact Ss | exact Cs]).
Qed.

Lemma resetState_holds (confirmed : bool) (w : World) :
  holds_with Q B w ->
  holds_with Q B (snd (resetState confirmed w))
  /\ same_counters w (snd (resetState confirmed w)).
Proof.
  intros H. destruct confirmed; [|split; [exact H | split; reflexivity]].
  destruct H as [H1 H2].
  destruct (Storage_removeItem LS_KEY (localStorage w)) as [ls|e] eqn:R.
  - rewrite (resetState_removed w R). cbv zeta.
    destruct (render_fails (DEFAULT w));
      (split; [split; exact H2 | split; reflexivity]).
  - rewrite (resetState_storage_raises w R).
    split; [split; assumption | split; reflexivity].
Qed.

(** Every operation keeps what the transactions and the budgets
    satisfy, provided the record it pushes, if it pushes one, satisfies
    [Q]; and it reads the clock twice and draws once if it is accepted,
    and not at all otherwise. *)
Lemma run_holds (op : operation) (w : World) :
  holds_with Q B w ->
  (accepted op = true -> pushes w) ->
  let w' := snd (run op w) in
  holds_with Q B w'
  /\ (accepted op = true ->
      clockReads w' = S (S (clockReads w))
      /\ randomDraws w' = S (randomDraws w))
  /\ (accepted op = false -> same_counters w w').
Proof.
  intros H Hp. destruct op; cbn [run].
  - now apply onAddExpense_holds.
  - now apply onAddIncome_holds.
  - destruct (deleteExpense_holds id confirmed H). split; [|split]; auto.
    discriminate.
  - destruct (deleteIncome_holds id confirmed H). split; [|split]; auto.
    discriminate.
  - destruct (onBudgetInput_holds category raw H). split; [|split]; auto.
    discriminate.
  - destruct (onSaveClick_holds H). split; [|split]; auto. discriminate.
  - destruct (resetState_holds confirmed H). split; [|split]; auto.
    discriminate.
Qed.

(** Where [Q] asks of a record no more than an amount above 0, and [B]
    holds of the empty object, the operations keep them from the page
    load on. *)
Hypothesis Q_pushed :
  forall ps a,
    assoc "amount" ps = Some (VNum a) ->
    Num.ltb Num.pzero a = true ->
    Q (VObj ps) = true.
Hypothesis B_empty : B (VObj []) = true.

Lemma built_holds (finite : bool) (ls : storage) (w : World) :
  built finite ls w -> holds_with Q B w.
Proof.
  induction 1 as [|w op _ IH _].
  - split; apply ledger_with_fields; repeat split; exact B_empty.
  - apply run_holds; [exact IH|]. intros _ ps a _. apply Q_pushed.
Qed.

(** Where the amount of a record that satisfies [Q] is one that
    [Number] converts, the sums of the view are computed. *)
Hypothesis Q_amount :
  forall ps a,
    Q (VObj ps) = true ->
    assoc "amount" ps = Some a ->
    Number_raises a = false.














End Kept.

Section Shape.

Context {P : Platform}.

Lemma object_is_object (x : value) : is_object x = true -> is_object x = true.
Proof. auto. Qed.

Lemma object_written (k : string) (n : number)
    (ps : list (string * value)) :
  is_object (VObj ps) = true ->
  is_object (VObj (set_own k (VNum n) ps)) = true.
Proof. reflexivity. Qed.

Lemma object_pushed (ps : list (string * value)) (a : number) :
  assoc "amount" ps = Some (VNum a) ->
  Num.ltb Num.pzero a = true ->
  is_object (VObj ps) = true.
Proof. reflexivity. Qed.

Lemma priced_is_object (x : value) :
  amount_above_zero x = true -> is_object x = true.
Proof. now destruct x. Qed.

Lemma priced_pushed (ps : list (string * value)) (a : number) :
  assoc "amount" ps = Some (VNum a) ->
  Num.ltb Num.pzero a = true ->
  amount_above_zero (VObj ps) = true.
Proof. intros H L. cbn [amount_above_zero]. now rewrite H. Qed.


Lemma numbers_is_object (v : value) :
  object_of_numbers v = true -> is_object v = true.
Proof. now destruct v. Qed.

Lemma numbers_written (k : string) (n : number)
    (ps : list (string * value)) :
  object_of_numbers (VObj ps) = true ->
  object_of_numbers (VObj (set_own k (VNum n) ps)) = true.
Proof.
  cbn [object_of_numbers]. intros J. unfold set_own.
  destruct (assoc k ps).
  - induction ps as [|[k' x] ps IH]; simpl in *; [reflexivity|].
    apply andb_prop in J as [Jx Jl].
    destruct (k =? k')%string; simpl; [exact Jl | now rewrite Jx, IH].
  - destruct (array_index k) as [i|].
    + induction ps as [|[k' x] ps IH]; simpl in *; [reflexivity|].
      apply andb_prop in J as [Jx Jl].
      destruct (array_index k') as [n'|]; [destruct (n' <? i)%N|]; simpl;
        rewrite ?Jx, ?Jl, ?IH; auto.
    + rewrite forallb_app. simpl. now rewrite J.
Qed.

(** The ledgers that the operations build: the transactions are objects
    with an amount above 0, and the budgets are numbers. *)
Lemma built_priced (finite : bool) (ls : storage) (w : World) :
  built finite ls w -> holds_with amount_above_zero object_of_numbers w.
Proof.
  intros H.
  eapply built_holds;
    [apply priced_is_object | apply numbers_is_object
    | apply numbers_written | apply priced_pushed | reflexivity | exact H].
Qed.

Lemma holds_with_weaker (Q Q' B B' : value -> bool) (w : World) :
  (forall x, Q x = true -> Q' x = true) ->
  (forall v, B v = true -> B' v = true) ->
  holds_with Q B w -> holds_with Q' B' w.
Proof.
  intros HQ HB.
  assert (A : forall v, array_of Q v = true -> array_of Q' v = true).
  { intros [| | | | |l|]; try discriminate. cbn [array_of].
    induction l as [|x l IH]; simpl; [reflexivity|].
    intros H. apply andb_prop in H as [Hx Hl].
    now rewrite (HQ _ Hx), (IH Hl). }
  assert (L : forall st, ledger_with Q B st = true ->
                         ledger_with Q' B' st = true).
  { intros st H. unfold ledger_with in *.
    apply andb_prop in H as [H b]. apply andb_prop in H as [e i].
    now rewrite (A _ e), (A _ i), (HB _ b). }
  intros [H1 H2]. split; apply L; assumption.
Qed.


End Shape.

(** ** What is spent, and the totals *)

Section Totals.

Context {P : Platform}.
Local Open Scope prog_scope.

Lemma js_filter_category (c : value) (l : list value) :
  forallb readable l = true ->
  js_filter
    (fun exp => (k <- get_prop exp "category" ;;
                 Returned (strict_eq k c))%out) l
  = Returned (filter (has_category c) l).
Proof.
  induction l as [|x l IH]; simpl; intros R; [reflexivity|].
  apply andb_prop in R as [Rx Rl]. rewrite (IH Rl).
  unfold has_category.
  destruct x; try discriminate Rx; simpl; try reflexivity.
  destruct (assoc "category" props); reflexivity.
Qed.

Lemma spentByCategory_filter (c : value) (l : list value) :
  forallb readable l = true ->
  spentByCategory (VArr l) c
  = calculateTotal (VArr (filter (has_category c) l)).
Proof.
  intros R. unfold spentByCategory, calculateTotal. cbn [as_array and_then].
  now rewrite (js_filter_category c l R).
Qed.

(** Removing values that are not of the category leaves those of the
    category as they are. *)
Lemma filter_other_category (c id : value) (l : list value) :
  (forall x, In x l -> has_id id x = true -> has_category c x = false) ->
  filter (has_category c) (filter (fun x => negb (has_id id x)) l)
  = filter (has_category c) l.
Proof.
  induction l as [|x l IH]; simpl; intros H; [reflexivity|].
  assert (IH' := IH (fun y Hy => H y (or_intror Hy))).
  destruct (has_id id x) eqn:Hi; simpl.
  - rewrite (H x (or_introl eq_refl) Hi). exact IH'.
  - now rewrite IH'.
Qed.

(** X14.  What is spent in a category, a primitive value, is the
    total, as [calculateTotalExpenses] computes it, of the expenses of
    that category alone, in their order.  So deleting, by an identifier
    that is a primitive value, expenses of other categories leaves it
    as it is. *)
Theorem spent_is_the_total_of_the_category (w : World) (l : list value)
    (c id : value) :
  primitive c = true ->
  primitive id = true ->
  expenses (state w) = VArr l ->
  forallb readable l = true ->
  spentByCategory (VArr l) c
  = calculateTotal (VArr (filter (has_category c) l))
  /\ ((forall x, In x l -> has_id id x = true -> has_category c x = false) ->
      spentByCategory (expenses (state (snd (deleteExpense id true w)))) c
      = spentByCategory (VArr l) c).
Proof.
  intros _ _ Hl R. split; [now apply spentByCategory_filter|].
  intros H. rewrite (deleteExpense_state id w Hl R). cbn [expenses].
  rewrite !spentByCategory_filter;
    [|exact R | now apply filter_keeps_readable].
  now rewrite filter_other_category.
Qed.

Lemma js_reduce_not_negative (l : list value) (acc : number) :
  forallb amount_above_zero l = true ->
  not_negative acc = true ->
  exists total,
    js_reduce add_amount l acc = Returned total
    /\ not_negative total = true.
Proof.
  revert acc. induction l as [|x l IH]; simpl; intros acc H N; [eauto|].
  apply andb_prop in H as [Hx Hl].
  destruct x as [| | | | | |ps]; try discriminate Hx.
  cbn [amount_above_zero] in Hx. unfold add_amount. cbn [get_prop].
  destruct (assoc "amount" ps) as [[| | |a| | |]|]; try discriminate Hx.
  cbn [and_then toNumber_call Number_raises]. apply IH; [exact Hl|].
  apply add_not_negative; [exact N|].
  now apply toNumber_not_negative, above_zero_not_negative.
Qed.

Lemma calculateTotal_not_negative (v : value) :
  array_of amount_above_zero v = true ->
  exists total,
    calculateTotal v = Returned total /\ not_negative total = true.
Proof.
  destruct v as [| | | | |l|]; try discriminate. cbn [array_of]. intros H.
  unfold calculateTotal. cbn [as_array and_then].
  now apply js_reduce_not_negative.
Qed.

Lemma priced_readable (l : list value) :
  forallb amount_above_zero l = true -> forallb readable l = true.
Proof.
  induction l as [|x l IH]; simpl; [reflexivity|].
  intros H. apply andb_prop in H as [Hx Hl]. rewrite (IH Hl).
  now destruct x.
Qed.

Lemma priced_filter (f : value -> bool) (l : list value) :
  forallb amount_above_zero l = true ->
  forallb amount_above_zero (filter f l) = true.
Proof.
  induction l as [|x l IH]; simpl; intros R; [reflexivity|].
  apply andb_prop in R as [Rx Rl].
  destruct (f x); simpl; [rewrite Rx|]; auto.
Qed.

Lemma spentByCategory_not_negative (l : list value) (c : value) :
  forallb amount_above_zero l = true ->
  exists spent,
    spentByCategory (VArr l) c = Returned spent
    /\ not_negative spent = true.
Proof.
  intros H. rewrite spentByCategory_filter by now apply priced_readable.
  apply calculateTotal_not_negative. cbn [array_of].
  now apply priced_filter.
Qed.

(** X15.  In every world that the operations reach, every expense and
    every income has an amount above 0 (the handlers store no other),
    so the totals of the view and what is spent in a category are
    computed, and are not negative: never [NaN], never below 0.  (They
    can be [+Infinity].) *)
Theorem totals_are_not_negative (ls : storage) (w : World) :
  built false ls w ->
  priced_world w
  /\ (exists total,
        calculateTotal (incomes (state w)) = Returned total
        /\ not_negative total = true)
  /\ (exists total,
        calculateTotal (expenses (state w)) = Returned total
        /\ not_negative total = true)
  /\ (forall c,
        exists spent,
          spentByCategory (expenses (state w)) c = Returned spent
          /\ not_negative spent = true).
Proof.
  intros H.
  assert (S : holds_with amount_above_zero is_object w)
    by exact (holds_with_weaker amount_above_zero is_object
                (fun x Hx => Hx) numbers_is_object (built_priced H)).
  split; [exact S|]. destruct S as [S _].
  unfold ledger_with in S.
  apply andb_prop in S as [S _]. apply andb_prop in S as [e i].
  split; [now apply calculateTotal_not_negative|].
  split; [now apply calculateTotal_not_negative|].
  intros c. destruct (expenses (state w)) as [| | | | |l|];
    try discriminate e. cbn [array_of] in e.
  now apply spentByCategory_not_negative.
Qed.

Lemma binary_normalize_not_NaN (m e : Z) (s : bool) :
  Num.isNaN (binary_normalize Num.prec Num.emax m e s) = false.
Proof.
  unfold binary_normalize, binary_round.
  destruct m as [|p|p]; [reflexivity| |];
    destruct (shl_align _ _ _) as [mz ez];
    apply binary_round_aux_not_NaN; lia.
Qed.

(** A difference is [NaN] only as [Infinity - Infinity]. *)
Lemma sub_NaN (x y : number) :
  Num.isNaN x = false ->
  not_negative y = true ->
  Num.isNaN (Num.sub x y) = true <-> x = Num.pinf /\ y = Num.pinf.
Proof.
  destruct x as [sx|sx| |sx mx ex]; try discriminate; intros _;
    destruct y as [[|]|[|]| |[|] my ey]; try discriminate; intros _;
    try (destruct sx; cbn;
         (split; [intros A; discriminate A
                 | intros [A B]; (discriminate A || discriminate B)]));
    [|].
  - destruct sx; cbn.
    + split; [intros A; discriminate A | intros [A B]; discriminate A].
    + split; [intros _; split; reflexivity | reflexivity].
  - split; [|intros [A B]; discriminate A].
    unfold Num.sub, SFsub. now rewrite binary_normalize_not_NaN.
Qed.

(** The budget of a category in an object of numbers: a number, or
    nothing. *)
Lemma budget_of_numbers (ps : list (string * value)) (category : string) :
  object_of_numbers (VObj ps) = true ->
  exists b,
    get_prop (VObj ps) category = Returned b
    /\ (b = VUndefined \/ exists n, b = VNum n).
Proof.
  cbn [object_of_numbers get_prop].
  induction ps as [|[k x] ps IH]; simpl; intros H.
  - exists VUndefined. auto.
  - apply andb_prop in H as [Hx Hl].
    destruct (category =? k)%string; [|exact (IH Hl)].
    exists x. split; [reflexivity|]. right.
    destruct x; try discriminate Hx. eauto.
Qed.

(** X16.  In every world that the operations reach, what remains of a
    budget is computed: with [b] the budget stored for the category, a
    number or nothing, it is [toNumber(b || 0)] less what is spent in
    the category.  It is [NaN] exactly when that budget and what is
    spent are both [+Infinity], and a number otherwise. *)
Theorem remaining_is_a_number (ls : storage) (w : World)
    (category : string) :
  built false ls w ->
  exists b spent,
    get_prop (budgets (state w)) category = Returned b
    /\ (b = VUndefined \/ exists n, b = VNum n)
    /\ spentByCategory (expenses (state w)) (VStr category) = Returned spent
    /\ not_negative spent = true
    /\ remainingByCategory (state w) category
       = Returned (Num.sub (toNumber (js_or b (VNum Num.pzero))) spent)
    /\ (Num.isNaN (Num.sub (toNumber (js_or b (VNum Num.pzero))) spent)
        = true
        <-> toNumber (js_or b (VNum Num.pzero)) = Num.pinf
            /\ spent = Num.pinf).
Proof.
  intros H. destruct (built_priced H) as [S _].
  unfold ledger_with in S.
  apply andb_prop in S as [S Hb]. apply andb_prop in S as [e _].
  destruct (expenses (state w)) as [| | | | |l|] eqn:He;
    try discriminate e. cbn [array_of] in e.
  destruct (budgets (state w)) as [| | | | | |ps] eqn:Eb;
    try discriminate Hb.
  destruct (budget_of_numbers ps category Hb) as (b & Gb & Nb).
  destruct (spentByCategory_not_negative l (VStr category) e)
    as (spent & Es & Ns).
  exists b, spent.
  split; [exact Gb|]. split; [exact Nb|].
  split; [exact Es|]. split; [exact Ns|].
  split.
  { unfold remainingByCategory. rewrite He, Eb, Es. cbn [and_then].
    rewrite Gb. cbn [and_then]. unfold toNumber_call.
    assert (R : Number_raises (js_or b (VNum Num.pzero)) = false).
    { destruct Nb as [->|(n & ->)]; [reflexivity|].
      unfold js_or. now destruct (truthy (VNum n)). }
    rewrite R. reflexivity. }
  apply sub_NaN; [apply toNumber_not_NaN | exact Ns].
Qed.

End Totals.

(** ** The record that a handler adds *)

Section Identifiers.

Context {P : Platform}.
Local Open Scope prog_scope.

Lemma generated_before_spec (n k : nat) (x : value) :
  generated_before n k x = true
  <-> exists ps m j,
        x = VObj ps
        /\ assoc "id" ps = Some (VStr (identifier m j))
        /\ (m < n)%nat /\ (j < k)%nat.
Proof.
  split.
  - destruct x as [| | | | | |ps]; try discriminate.
    cbn [generated_before].
    destruct (assoc "id" ps) as [[| | | |s| |]|] eqn:E; try discriminate.
    intros H. apply existsb_exists in H as (m & Hm & H).
    apply existsb_exists in H as (j & Hj & H).
    apply String.eqb_eq in H. subst s.
    apply in_seq in Hm. apply in_seq in Hj.
    exists ps, m, j. repeat split; [exact E | lia | lia].
  - intros (ps & m & j & -> & E & Hm & Hj). cbn [generated_before].
    rewrite E. apply existsb_exists. exists m. split; [apply in_seq; lia|].
    apply existsb_exists. exists j. split; [apply in_seq; lia|].
    apply String.eqb_refl.
Qed.

Lemma generated_is_object (n k : nat) (x : value) :
  generated_before n k x = true -> is_object x = true.
Proof.
  intros H. apply generated_before_spec in H as (ps & _ & _ & -> & _).
  reflexivity.
Qed.

Lemma generated_later (n k n' k' : nat) (x : value) :
  (n <= n')%nat -> (k <= k')%nat ->
  generated_before n k x = true -> generated_before n' k' x = true.
Proof.
  intros Hn Hk H.
  apply generated_before_spec in H as (ps & m & j & -> & E & Hm & Hj).
  apply generated_before_spec. exists ps, m, j. repeat split; auto; lia.
Qed.

(** An operation keeps every identifier of the ledger among those made
    before. *)
Lemma run_generated (op : operation) (w : World) :
  holds_with (generated_before (clockReads w) (randomDraws w)) is_object w ->
  let w' := snd (run op w) in
  holds_with (generated_before (clockReads w') (randomDraws w')) is_object w'.
Proof.
  intros H w'.
  assert (C : (accepted op = true ->
               clockReads w' = S (S (clockReads w))
               /\ randomDraws w' = S (randomDraws w))
              /\ (accepted op = false -> same_counters w w')).
  { apply (run_holds (Q := is_object) (B := is_object) object_is_object
             object_is_object object_written op (w := w)).
    - exact (holds_with_weaker is_object is_object
               (@generated_is_object _ _) (fun v Hv => Hv) H).
    - intros _ ps a _ _ _. reflexivity. }
  destruct C as [Cy Cn].
  assert (M : (clockReads w <= clockReads w')%nat
              /\ (randomDraws w <= randomDraws w')%nat).
  { destruct (accepted op).
    - destruct (Cy eq_refl) as [-> ->]. lia.
    - destruct (Cn eq_refl) as [-> ->]. lia. }
  apply (run_holds
           (Q := generated_before (clockReads w') (randomDraws w'))
           (B := is_object) (@generated_is_object _ _) object_is_object
           object_written op (w := w)).
  - exact (holds_with_weaker _ is_object
             (fun x => generated_later x (proj1 M) (proj2 M))
             (fun v Hv => Hv) H).
  - intros Y ps a Hid _ _. destruct (Cy Y) as [Cc Cr].
    apply generated_before_spec.
    exists ps, (clockReads w), (randomDraws w). repeat split; auto; lia.
Qed.

Lemma built_generated (finite : bool) (ls : storage) (w : World) :
  built finite ls w ->
  holds_with (generated_before (clockReads w) (randomDraws w)) is_object w.
Proof.
  induction 1 as [|w op _ IH _]; [split; reflexivity|].
  now apply run_generated.
Qed.

(** An identifier that no earlier clock read and draw made is the
    identifier of no record made before. *)
Lemma unused_differs (n k : nat) (id : string) (l : list value) :
  forallb (generated_before n k) l = true ->
  (forall m j, (m < n)%nat -> (j < k)%nat -> identifier m j <> id) ->
  Forall (fun old => id_differs (VStr id) old = Returned true) l.
Proof.
  intros H U. induction l as [|x l IH]; constructor.
  - simpl in H. apply andb_prop in H as [Hx _].
    apply generated_before_spec in Hx as (ps & m & j & -> & E & Hm & Hj).
    unfold id_differs. cbn [get_prop]. rewrite E. cbn [and_then strict_eq].
    pose proof (U m j Hm Hj) as D. apply String.eqb_neq in D.
    rewrite D. reflexivity.
  - simpl in H. apply andb_prop in H as [_ Hl]. exact (IH Hl).
Qed.

(** An accepted operation on a ledger built by the operations reads the
    clock twice and draws once. *)
Lemma accepted_counters (finite : bool) (ls : storage) (w : World)
    (op : operation) :
  built finite ls w ->
  accepted op = true ->
  clockReads (snd (run op w)) = S (S (clockReads w))
  /\ randomDraws (snd (run op w)) = S (randomDraws w).
Proof.
  intros Hb Y.
  apply (run_holds (Q := is_object) (B := is_object) object_is_object
           object_is_object object_written op (w := w)).
  - exact (holds_with_weaker is_object is_object
             (@generated_is_object _ _) (fun v Hv => Hv)
             (built_generated Hb)).
  - intros _ ps a _ _ _. reflexivity.
  - exact Y.
Qed.

Lemma div_zero_by_100 (s : bool) :
  Num.div (S754_zero s) (Num.of_Z 100) = S754_zero s.
Proof. now destruct s. Qed.

End Identifiers.

Section Added.

Context {P : Platform}.
Local Open Scope prog_scope.
Local Open Scope Z_scope.

Local Abbreviation autosave ok bad :=
  (renderAll ;;
   saved <- saveState ;;
   if (saved : bool) then markUnsavedChanges ;; showMessage ok success
   else showMessage bad error).

(** [amount] is [x] scaled by 100, rounded by [Math.round], divided by
    100: [+Infinity] when the scaled value is infinite; the scaled value
    divided by 100 when it is integral; and otherwise the integer
    closest to the scaled value [±m / 2^q], a tie going toward plus
    infinity, divided by 100. *)
Local Abbreviation scaled_and_rounded x amount :=
  (Num.isNaN (Num.mul x (Num.of_Z 100)) = false
   /\ (forall s, Num.mul x (Num.of_Z 100) <> S754_zero s)
   /\ amount
      = Num.div (Num.Math_round (Num.mul x (Num.of_Z 100))) (Num.of_Z 100)
   /\ (forall s,
         Num.mul x (Num.of_Z 100) = S754_infinity s -> amount = Num.pinf)
   /\ (forall s m e,
         Num.mul x (Num.of_Z 100) = S754_finite s m e ->
         0 <= e ->
         amount = Num.div (S754_finite s m e) (Num.of_Z 100))
   /\ (forall s m q,
         Num.mul x (Num.of_Z 100) = S754_finite s m (Zneg q) ->
         let n := Num.nearest_tie_up (cond_Zopp s (Zpos m)) (Pos.pow 2 q) in
         n <> 0
         /\ (2 * n - 1) * 2 ^ Zpos q <= 2 * cond_Zopp s (Zpos m)
            < (2 * n + 1) * 2 ^ Zpos q
         /\ amount = Num.div (Num.of_Z n) (Num.of_Z 100))).

(** The amount that a handler stores: it is above 0. *)
Lemma stored_amount_rounded (v : value) :
  Num.ltb Num.pzero (toNumber v) = true ->
  scaled_and_rounded (Number v) (toNumber v).
Proof.
  intros Hpos.
  assert (N : Num.isNaN (Number v) = false).
  { destruct (Num.isNaN (Number v)) eqn:E; [|reflexivity].
    rewrite (toNumber_of_NaN _ E) in Hpos. discriminate Hpos. }
  destruct (toNumber_by_scaled_value v)
    as (_ & Hn & Hz & Hi & He & Hq).
  split; [exact (Hn N)|].
  split.
  { intros s E. rewrite (Hz s E) in Hpos. now destruct s. }
  split; [apply toNumber_of_number, N|].
  split.
  { intros s E. rewrite (Hi s E) in Hpos |- *. now destruct s. }
  split; [exact He|].
  intros s m q E n. destruct (Hq s m q E) as (B & T & _). fold n in B, T.
  assert (Nz : n <> 0).
  { intros Z0. rewrite Z0 in T. cbn [Z.eqb] in T.
    rewrite div_zero_by_100 in T. rewrite T in Hpos. now destruct s. }
  split; [exact Nz|]. split; [exact B|].
  rewrite T. now destruct (Z.eqb_spec n 0).
Qed.

Lemma autosave_state (ok bad : message) (w : World) :
  state (snd (autosave ok bad w)) = state w.
Proof.
  destruct (autosave_result ok bad w) as (o & w' & E & L & _).
  rewrite E. apply L.
Qed.

(** C5, as amended.  A valid [onAddExpense] (a category that is not
    empty, a coerced amount above 0, on a ledger whose [expenses] is an
    array) appends exactly one record to [expenses]: the array is one
    longer and the other collections are as they were.  The identifier
    of the record is made at the call, of the clock read and the random
    draw that the call consumes; in a ledger built by the operations it
    is the identifier of no older record, provided no earlier clock read
    and draw made the same string.  Its date is the time of the clock
    read that follows.  Its amount is the input scaled by 100, rounded
    by [Math.round] and divided by 100, all in floating point: the
    integer closest to the scaled value, a tie going up, divided by
    100, and [+Infinity] when the scaled value is infinite.
    [onAddIncome] does the same on [incomes]. *)
Theorem add_appends_one_record (ls : storage) (w : World) :
  (forall (form : ExpenseForm) (c : string) (l : list value),
      expenseCategory form = Some c ->
      c <> "" ->
      Num.ltb Num.pzero (toNumber (field_value (expenseAmount form)))
      = true ->
      expenses (state w) = VArr l ->
      exists (record : value) (amount : number),
        let w' := snd (onAddExpense form w) in
        let id := identifier (clockReads w) (randomDraws w) in
        expenses (state w') = VArr (l ++ [record])
        /\ List.length (l ++ [record]) = S (List.length l)
        /\ get_prop record "id" = Returned (VStr id)
        /\ clockReads w' = S (S (clockReads w))
        /\ randomDraws w' = S (randomDraws w)
        /\ (built false ls w ->
            unused_before w ->
            Forall (fun old => id_differs (VStr id) old = Returned true) l)
        /\ get_prop record "date"
           = Returned
               (VStr (Date_toISOString (Date_now (S (clockReads w)))))
        /\ get_prop record "amount" = Returned (VNum amount)
        /\ scaled_and_rounded (Number (field_value (expenseAmount form)))
             amount
        /\ get_prop record "category" = Returned (VStr c)
        /\ incomes (state w') = incomes (state w)
        /\ budgets (state w') = budgets (state w)
        /\ expenseCategories (state w') = expenseCategories (state w)
        /\ incomeCategories (state w') = incomeCategories (state w))
  /\ (forall (form : IncomeForm) (c : string) (l : list value),
        incomeSource form = Some c ->
        c <> "" ->
        Num.ltb Num.pzero (toNumber (field_value (incomeAmount form)))
        = true ->
        incomes (state w) = VArr l ->
        exists (record : value) (amount : number),
          let w' := snd (onAddIncome form w) in
          let id := identifier (clockReads w) (randomDraws w) in
          incomes (state w') = VArr (l ++ [record])
          /\ List.length (l ++ [record]) = S (List.length l)
          /\ get_prop record "id" = Returned (VStr id)
          /\ clockReads w' = S (S (clockReads w))
          /\ randomDraws w' = S (randomDraws w)
          /\ (built false ls w ->
              unused_before w ->
              Forall (fun old => id_differs (VStr id) old = Returned true) l)
          /\ get_prop record "date"
             = Returned
                 (VStr (Date_toISOString (Date_now (S (clockReads w)))))
          /\ get_prop record "amount" = Returned (VNum amount)
          /\ scaled_and_rounded (Number (field_value (incomeAmount form)))
               amount
          /\ get_prop record "source" = Returned (VStr c)
          /\ expenses (state w') = expenses (state w)
          /\ budgets (state w') = budgets (state w)
          /\ expenseCategories (state w') = expenseCategories (state w)
          /\ incomeCategories (state w') = incomeCategories (state w)).
Proof.
  split; intros form c l Hc Hne Hpos Hl;
    pose proof (positive_not_leb _ Hpos) as Ha.
  - pose proof (onAddExpense_valid form w Hc Hne Ha Hl) as E.
    cbv zeta in E.
    match type of E with
    | _ = match _ with
          | Some _ => match _ with
                      | Some _ => _ ?wm
                      | None => _
                      end
          | None => _
          end =>
        set (pushed := wm) in *
    end.
    assert (S' : state (snd (onAddExpense form w)) = state pushed
                 /\ same_counters pushed (snd (onAddExpense form w))).
    { rewrite E. destruct (expenseDesc form);
        [|split; [reflexivity | apply same_counters_refl]].
      destruct (expenseAmount form);
        [|split; [reflexivity | apply same_counters_refl]].
      split; [apply autosave_state | apply autosave_counters]. }
    destruct S' as [S' [Cc Cr]].
    eexists _, (toNumber (field_value (expenseAmount form))).
    cbv zeta. rewrite S', Cc, Cr.
    split; [reflexivity|].
    split; [rewrite length_app; simpl; lia|].
    split; [reflexivity|]. split; [reflexivity|]. split; [reflexivity|].
    split.
    { intros Hb U. destruct (built_generated Hb) as [G _].
      unfold ledger_with in G. apply andb_prop in G as [G _].
      apply andb_prop in G as [G _]. rewrite Hl in G. cbn [array_of] in G.
      exact (unused_differs _ G U). }
    split; [reflexivity|]. split; [reflexivity|].
    split; [exact (stored_amount_rounded _ Hpos)|].
    repeat split.
  - pose proof (onAddIncome_valid form w Hc Hne Ha Hl) as E.
    cbv zeta in E.
    match type of E with
    | _ = match _ with
          | Some _ => _ ?wm
          | None => _
          end =>
        set (pushed := wm) in *
    end.
    assert (S' : state (snd (onAddIncome form w)) = state pushed
                 /\ same_counters pushed (snd (onAddIncome form w))).
    { rewrite E. destruct (incomeAmount form);
        [|split; [reflexivity | apply same_counters_refl]].
      split; [apply autosave_state | apply autosave_counters]. }
    destruct S' as [S' [Cc Cr]].
    eexists _, (toNumber (field_value (incomeAmount form))).
    cbv zeta. rewrite S', Cc, Cr.
    split; [reflexivity|].
    split; [rewrite length_app; simpl; lia|].
    split; [reflexivity|]. split; [reflexivity|]. split; [reflexivity|].
    split.
    { intros Hb U. destruct (built_generated Hb) as [G _].
      unfold ledger_with in G. apply andb_prop in G as [G _].
      apply andb_prop in G as [_ G]. rewrite Hl in G. cbn [array_of] in G.
      exact (unused_differs _ G U). }
    split; [reflexivity|]. split; [reflexivity|].
    split; [exact (stored_amount_rounded _ Hpos)|].
    repeat split.
Qed.

End Added.

Section AddedSessions.

Import Examples.
Local Existing Instance Browser.platform.

Lemma built_after_lunch : built false (Browser.empty 100) after_lunch.
Proof.
  unfold after_lunch, step, page, Browser.fresh.
  apply built_step; [apply built_initial | discriminate].
Qed.

(** A second expense, of 0.2: the record is appended after the first,
    its identifier is that of no older record, and its amount is 0.2. *)
Lemma add_appends_one_record_witness :
  exists record id,
    expenses (state (snd (onAddExpense coffee after_lunch)))
    = VArr (match expenses (state after_lunch) with
            | VArr l => l
            | _ => []
            end ++ [record])
    /\ get_prop record "id" = Returned (VStr id)
    /\ Forall (fun old => id_differs (VStr id) old = Returned true)
         match expenses (state after_lunch) with
         | VArr l => l
         | _ => []
         end
    /\ get_prop record "amount" = Returned (VNum (Number (VStr "0.2"))).
Proof.
  destruct (proj1 (@add_appends_one_record Browser.platform
                     (Browser.empty 100) after_lunch)
              coffee "Mat"
              (match expenses (state after_lunch) with
               | VArr l => l
               | _ => []
               end))
    as (record & amount & E & _ & I & _ & _ & F & _ & A & R & _).
  - reflexivity.
  - discriminate.
  - vm_compute. reflexivity.
  - vm_compute. reflexivity.
  - exists record, (identifier (clockReads after_lunch)
                      (randomDraws after_lunch)).
    split; [exact E|]. split; [exact I|].
    split.
    { apply F; [exact built_after_lunch|].
      destruct (@accepted_counters Browser.platform false
                  (Browser.empty 100) page (AddExpense lunch))
        as [Cn Cr];
        [apply built_initial | vm_compute; reflexivity |].
      unfold unused_before, after_lunch, step. rewrite Cn, Cr.
      change (clockReads page) with 0%nat.
      change (randomDraws page) with 0%nat.
      intros m j Hm Hj.
      destruct j as [|j]; [|lia].
      destruct m as [|[|m]]; [| |lia]; vm_compute; discriminate. }
    rewrite A. destruct R as (_ & _ & -> & _). vm_compute. reflexivity.
Defined.

(** C5, as stated, fails.  An expense of 1e307 is a valid call: the
    category is not empty and the coerced amount is above 0.  The input
    is a number, and an integer; the amount of the record that is
    appended is not that number rounded to 2 decimals but [Infinity]:
    1e307 times 100 is above the largest number. *)
Lemma add_stores_infinite_amount :
  expenseCategory huge = Some "Resor"
  /\ Num.ltb Num.pzero (toNumber (field_value (expenseAmount huge))) = true
  /\ Num.is_finite (Number (field_value (expenseAmount huge))) = true
  /\ Num.mul (Number (field_value (expenseAmount huge))) (Num.of_Z 100)
     = Num.pinf
  /\ exists record,
       expenses (state (snd (onAddExpense huge page))) = VArr [record]
       /\ get_prop record "amount" = Returned (VNum Num.pinf)
       /\ VNum Num.pinf <> VNum (Number (field_value (expenseAmount huge))).
Proof.
  split; [reflexivity|].
  split; [vm_compute; reflexivity|].
  split; [vm_compute; reflexivity|].
  split; [vm_compute; reflexivity|].
  exists (nth 0 match expenses (state (snd (onAddExpense huge page))) with
                | VArr l => l
                | _ => []
                end VNull).
  split; [vm_compute; reflexivity|].
  split; [vm_compute; reflexivity|].
  vm_compute. discriminate.
Qed.

End AddedSessions.

(** ** The further properties on sessions in the browser *)

Section MoreSessions.

Import Examples.
Import Stored.
Local Existing Instance Browser.platform.


Lemma built_after_huge : built false (Browser.empty 100) after_huge.
Proof.
  unfold after_huge, step, page, Browser.fresh.
  apply built_step; [apply built_initial | discriminate].
Qed.

Lemma lookup_remove (k : string) (l : list (string * text)) :
  Browser.lookup k (Browser.remove k l) = None.
Proof.
  induction l as [|[k' t] l IH]; simpl; [reflexivity|].
  destruct (k =? k')%string eqn:E; simpl; [exact IH|].
  now rewrite E.
Qed.

(** The storage of the browser forgets a key that is removed. *)
Lemma browser_removal_empties : removal_empties.
Proof.
  intros k ls ls' H. injection H as <-. simpl.
  unfold Browser.getItem. simpl. now rewrite lookup_remove.
Qed.


(** A stored text that is not JSON: the load error is shown, once. *)
Lemma loadState_fallback_alerts_witness :
  fst (loadState (page_with_text "oops")) = Returned false
  /\ alerts (snd (loadState (page_with_text "oops")))
     = [(MsgLoadFailed, error)].
Proof.
  destruct (loadState_fallback_alerts (page_with_text "oops"))
    as (_ & _ & _ & H & _).
  rewrite (H "oops"); [split; reflexivity | discriminate | reflexivity].
Defined.

(** After an expense is saved, a reset and a load find nothing. *)
Lemma reset_then_load_finds_nothing_witness :
  exists w',
    loadState (snd (resetState true after_lunch)) = (Returned false, w')
    /\ state w' = state (snd (resetState true after_lunch))
    /\ state w' = DEFAULT after_lunch
    /\ alerts w' = alerts (snd (resetState true after_lunch)).
Proof.
  eapply (@reset_then_load_finds_nothing Browser.platform after_lunch).
  - exact browser_removal_empties.
  - reflexivity.
Defined.

(** The first expense of a page just loaded survives a reset. *)
Lemma reset_keeps_expense_added_while_shared_witness :
  exists record,
    get_prop record "category" = Returned (VStr "Mat")
    /\ expenses (state (snd (resetState true (snd (onAddExpense lunch page)))))
       = VArr ([] ++ [record]).
Proof.
  apply (@reset_keeps_expense_added_while_shared Browser.platform lunch page
           "Mat" []).
  - reflexivity.
  - discriminate.
  - vm_compute. reflexivity.
  - reflexivity.
  - reflexivity.
Defined.

(** Deleting the identifier that two expenses share removes both. *)
Lemma delete_removes_the_matching_records_witness :
  expenses (state (snd (deleteExpense (VStr "1") true loaded)))
  = VArr [groceries]
  /\ incomes (state (snd (deleteIncome (VStr "1") true loaded))) = VArr [].
Proof.
  destruct (@delete_removes_the_matching_records Browser.platform loaded
              (VStr "1") [rent; groceries; rent] [])
    as ((E & _) & (I & _));
    [reflexivity | vm_compute; reflexivity | reflexivity
    | vm_compute; reflexivity | reflexivity |].
  split; [exact E | exact I].
Defined.

(** A budget of 12.345 for [Mat] is stored as 12.35. *)
Lemma onBudgetInput_sets_the_budget_witness :
  let w' := snd (onBudgetInput "Mat" "12.345" page) in
  get_prop (budgets (state w')) "Mat"
  = Returned (VNum (toNumber (VStr "12.345")))
  /\ (forall k,
        k <> "Mat" ->
        get_prop (budgets (state w')) k = get_prop (budgets (state page)) k)
  /\ expenses (state w') = expenses (state page)
  /\ incomes (state w') = incomes (state page)
  /\ (hasUnsavedChanges w' = true -> hasUnsavedChanges page = true).
Proof.
  apply (@onBudgetInput_sets_the_budget Browser.platform page "Mat" "12.345"
           []).
  - discriminate.
  - reflexivity.
Defined.

(** On a storage that refuses every write, the reminder answered yes
    shows the failure of the save and then that all is saved. *)
Lemma showReminder_reports_saved_whatever_the_save_witness :
  exists w',
    showReminder true full_after_lunch = (Returned tt, w')
    /\ Saved w'
    /\ localStorage w' = Browser.empty 0
    /\ alerts w'
       = (alerts full_after_lunch
          ++ [(MsgSaveFailed, error); (MsgReminderSaved, success)])%list.
Proof.
  destruct (@showReminder_reports_saved_whatever_the_save Browser.platform
              full_after_lunch)
    as (w' & E & S & _ & _ & H); [vm_compute; exact I|].
  exists w'. split; [exact E|]. split; [exact S|].
  assert (G : localStorage w' = localStorage full_after_lunch
              /\ alerts w'
                 = (alerts full_after_lunch
                    ++ [(MsgSaveFailed, error);
                        (MsgReminderSaved, success)])%list)
    by (eapply H with (e := DOMException); vm_compute; reflexivity).
  destruct G as [L A].
  split; [rewrite L; vm_compute; reflexivity | exact A].
Defined.

(** After an expense, the reminder expiring and the answer no, the
    status is Dirty. *)
Lemma status_is_saved_or_dirty_witness :
  (Saved reminded \/ Dirty reminded)
  /\ (forall t, pendingTimeout reminded = Some t ->
      hasUnsavedChanges reminded = true)
  /\ (hasUnsavedChanges reminded = true -> pendingTimeout reminded <> None).
Proof.
  apply (@status_is_saved_or_dirty Browser.platform (Browser.empty 100)).
  unfold reminded. do 2 apply reachable_step. apply reachable_initial.
Defined.

(** On a storage that refuses every write, an expense is added, shown
    as not saved, and the status stays Saved. *)
Lemma unsaved_change_is_not_marked_witness :
  fst (run (AddExpense lunch) full) = Returned tt
  /\ same_status full full_after_lunch
  /\ (Saved full -> Saved full_after_lunch).
Proof.
  apply (@unsaved_change_is_not_marked Browser.platform (AddExpense lunch)
           full full_after_lunch (fst (run (AddExpense lunch) full))
           MsgExpenseNotSaved [(MsgSaveFailed, error)]).
  - reflexivity.
  - unfold full_after_lunch, step. now destruct (run (AddExpense lunch) full).
  - vm_compute. reflexivity.
  - reflexivity.
Defined.

(** An expense on a page without the description field. *)
Lemma missing_description_field_loses_the_save_witness :
  exists record w',
    onAddExpense no_desc page = (Threw TypeError, w')
    /\ expenses (state w') = VArr ([] ++ [record])
    /\ get_prop record "desc" = Returned (VStr "Ingen beskrivning")
    /\ localStorage w' = localStorage page
    /\ alerts w' = alerts page.
Proof.
  destruct (@missing_description_field_loses_the_save Browser.platform
              no_desc page "Mat" [])
    as [H _]; [reflexivity | discriminate | reflexivity |].
  destruct H as (record & w' & E & X & D & _ & L & A & _);
    [reflexivity | vm_compute; reflexivity |].
  exists record, w'. repeat split; assumption.
Defined.


(** What is spent on [Hyra] and on [Mat] in the loaded ledger, before
    and after the expenses of [Hyra] are deleted. *)
Lemma spent_is_the_total_of_the_category_witness :
  spentByCategory (VArr [rent; groceries; rent]) (VStr "Mat")
  = calculateTotal (VArr [groceries])
  /\ spentByCategory
       (expenses (state (snd (deleteExpense (VStr "1") true loaded))))
       (VStr "Mat")
     = spentByCategory (VArr [rent; groceries; rent]) (VStr "Mat").
Proof.
  destruct (@spent_is_the_total_of_the_category Browser.platform loaded
              [rent; groceries; rent] (VStr "Mat") (VStr "1"))
    as [T D];
    [reflexivity | reflexivity | vm_compute; reflexivity | reflexivity |].
  split; [exact T|]. apply D.
  intros x [<-|[<-|[<-|[]]]]; (reflexivity || discriminate).
Defined.

(** The totals after an expense of 1e307, stored as [Infinity]. *)
Lemma totals_are_not_negative_witness :
  priced_world after_huge
  /\ (exists total,
        calculateTotal (incomes (state after_huge)) = Returned total
        /\ not_negative total = true)
  /\ (exists total,
        calculateTotal (expenses (state after_huge)) = Returned total
        /\ not_negative total = true)
  /\ (forall c,
        exists spent,
          spentByCategory (expenses (state after_huge)) c = Returned spent
          /\ not_negative spent = true).
Proof.
  exact (@totals_are_not_negative Browser.platform (Browser.empty 100)
           after_huge built_after_huge).
Defined.

(** What remains for [Resor] with a budget and an expense of 1e307:
    [Infinity] less [Infinity]. *)
Lemma remaining_is_a_number_witness :
  get_prop (budgets (state over_budget)) "Resor" = Returned (VNum Num.pinf)
  /\ spentByCategory (expenses (state over_budget)) (VStr "Resor")
     = Returned Num.pinf
  /\ remainingByCategory (state over_budget) "Resor" = Returned Num.NaN.
Proof.
  destruct (@remaining_is_a_number Browser.platform (Browser.empty 100)
              over_budget "Resor")
    as (b & spent & Gb & _ & Es & _ & R & _).
  { unfold over_budget, step.
    apply built_step; [exact built_after_huge | discriminate]. }
  vm_compute in Gb. injection Gb as <-.
  vm_compute in Es. injection Es as <-.
  split; [vm_compute; reflexivity|]. split; [vm_compute; reflexivity|].
  rewrite R. vm_compute. reflexivity.
Defined.

End MoreSessions.
